(** * Mutterblack, package [discord]: the sharded chat client

    A shallow embedding of the Go package [discord] (message envelope,
    event handlers, outbound facade and the cross-shard state lookups),
    followed by the properties of the specification that concern it.

    Conventions of the embedding.
    - A Go [string] is a byte string: [String.string].
    - A Go [int] is a [Z]; only bitwise conjunction and comparison are
      applied to it, so no wrap-around arises.
    - A pointer that the code tests against [nil] ([Author], [Nick],
      [Content], [State.User]) is an [option].  A pointer that every
      method dereferences unconditionally ([d.Session], [s.State],
      [m.DiscordgoMessage], [m.Discord], a member's [User]) is taken to
      be valid and is modelled by the value it points to.
    - A function with the results [(x *T, err error)] returns a pair of
      options: the lookups below use named results and a bare [return],
      so all four combinations have to be representable.
    - A nil-pointer dereference (a run-time panic) is the [None] of an
      [option] result.
    - [m.Discord] points to the one shared, mutable client; the accessors
      of an envelope therefore take the client's current contents as an
      argument, and return the envelope with its caches updated.
    - [log.Println] writes to the process log only and is left out. *)

From Stdlib Require Import String Ascii List ZArith Bool Arith Lia.
From Stdlib Require Import DecimalString DecimalZ.
From Stdlib Require Import Relations.Relation_Operators.
Import ListNotations.

Local Open Scope list_scope.
Local Open Scope string_scope.

(** ** The collaborator: types of the gateway library *)

Module discordgo.

Module User.
Record t := mk { ID : string; Username : string; Avatar : string; Bot : bool }.
End User.

Module Message.
Record t := mk {
  ID : string;
  ChannelID : string;
  Content : string;
  Author : option User.t;
  Mentions : list User.t
}.
End Message.

Module Role.
Record t := mk { ID : string; Name : string }.
End Role.

Module Member.
Record t := mk { User : User.t; Nick : string }.
End Member.

Module Channel.
Record t := mk { ID : string; GuildID : string; Name : string }.
End Channel.

Module Guild.
Record t := mk {
  ID : string;
  OwnerID : string;
  Roles : list Role.t;
  Members : list Member.t
}.
End Guild.

Module MessageEmbed.
Record t := mk { Color : Z; Description : string }.
End MessageEmbed.

End discordgo.

(** Go's [error] values that occur in the package. *)
Inductive error : Type :=
| ErrStateNotFound
| ErrAlreadyJoined
| ErrTransport (reason : string).

(** Modelled from the spec: the per-shard state cache of the gateway
    library (its code is not under src/).  A cache holds channels and
    guilds by identifier, and may or may not be able to compute the
    permission bits and the display colour of a user in a channel. *)
Module State.
Record t := mk {
  User : option discordgo.User.t;
  channelMap : string -> option discordgo.Channel.t;
  guildMap : string -> option discordgo.Guild.t;
  Guilds : list discordgo.Guild.t;
  permissions : string -> string -> option Z;
  color : string -> string -> option Z
}.

(** Modelled from the spec: a cache lookup either resolves the key or
    reports the miss as a not-found error with a nil result. *)
Definition Channel (s : t) (channelID : string)
  : option discordgo.Channel.t * option error :=
  match channelMap s channelID with
  | Some c => (Some c, None)
  | None => (None, Some ErrStateNotFound)
  end.

(** Modelled from the spec: as [Channel], for guilds. *)
Definition Guild (s : t) (guildID : string)
  : option discordgo.Guild.t * option error :=
  match guildMap s guildID with
  | Some g => (Some g, None)
  | None => (None, Some ErrStateNotFound)
  end.

(** Modelled from the spec: permission bits of a user in a channel, or a
    not-found error (with zero bits) when the cache cannot compute them. *)
Definition UserChannelPermissions (s : t) (userID channelID : string)
  : Z * option error :=
  match permissions s userID channelID with
  | Some p => (p, None)
  | None => (0%Z, Some ErrStateNotFound)
  end.

(** Modelled from the spec: the colour of a user in a channel; the
    sentinel [0] stands for "no colour" when the cache yields none. *)
Definition UserColor (s : t) (userID channelID : string) : Z :=
  match color s userID channelID with
  | Some c => c
  | None => 0%Z
  end.
End State.

(** ** The outbound transport

    The calls of the send family that reach the network, and the monad
    that records them: a computation maps the calls issued so far (oldest
    first) to its result and the extended record. *)
Inductive Call : Type :=
| ChannelMessageSend (channelID content : string)
| ChannelMessageSendEmbed (channelID : string) (embed : discordgo.MessageEmbed.t)
| ChannelFileSend (channelID name : string) (r : string).

Definition Net (A : Type) : Type := list Call -> A * list Call.

Definition ret {A} (a : A) : Net A := fun h => (a, h).

Definition bind {A B} (m : Net A) (k : A -> Net B) : Net B :=
  fun h => let (a, h') := m h in k a h'.

Declare Scope net_scope.
Delimit Scope net_scope with net.
Notation "x <- m ;; k" := (bind m (fun x => k))
  (at level 61, m at next level, right associativity) : net_scope.

(** One shard connection: its state cache and the behaviour of the
    network behind it (the error, if any, with which a call answers,
    given the calls issued before it). *)
Module Session.
Record t := mk {
  State : State.t;
  respond : list Call -> Call -> option error
}.

Definition call (s : t) (c : Call) : Net (option error) :=
  fun h => (respond s h c, (h ++ [c])%list).
End Session.

(** ** Strings: slices and the two token patterns *)

Definition isDigit (c : ascii) : bool :=
  ((48 <=? nat_of_ascii c) && (nat_of_ascii c <=? 57))%nat.

Fixpoint allDigits (s : string) : bool :=
  match s with
  | EmptyString => true
  | String c t => isDigit c && allDigits t
  end.

(** [str[lo:hi]] for [lo <= hi <= len(str)]. *)
Definition slice (str : string) (lo hi : nat) : string :=
  substring lo (hi - lo) str.

(** [stripPrefix p s] is [Some r] when [s = p ++ r]. *)
Fixpoint stripPrefix (p s : string) : option string :=
  match p with
  | EmptyString => Some s
  | String a p' =>
      match s with
      | String b s' => if Ascii.eqb a b then stripPrefix p' s' else None
      | EmptyString => None
      end
  end.

(** The longest run of digits at the head of [s], and what follows it. *)
Fixpoint spanDigits (s : string) : string * string :=
  match s with
  | String c t =>
      if isDigit c
      then let (ds, r) := spanDigits t in (String c ds, r)
      else (EmptyString, s)
  | EmptyString => (EmptyString, EmptyString)
  end.

(** An anchored match of the pattern [opening [0-9]* >] at the head of
    [s]: the matched text and the rest of [s].  The starred class is
    greedy, and giving digits back never helps since the next byte has to
    be [>]. *)
Definition matchToken (opening : string) (s : string) : option (string * string) :=
  match stripPrefix opening s with
  | None => None
  | Some r =>
      let (ds, r') := spanDigits r in
      match r' with
      | String c r'' =>
          if Ascii.eqb c ">" then Some (opening ++ ds ++ ">", r'') else None
      | EmptyString => None
      end
  end.

(** [regexp.MustCompile("<#[0-9]*>")] and [regexp.MustCompile("<@&[0-9]*>")]. *)
Definition channelIDRegex : string -> option (string * string) := matchToken "<#".
Definition roleIDRegex : string -> option (string * string) := matchToken "<@&".

(** [re.ReplaceAllStringFunc(src, repl)] for a pattern that never matches
    the empty string: the text is scanned from the left, the leftmost
    match is handed to [repl], and the scan resumes behind it.  [skip]
    counts the bytes of the current match still to be stepped over.  A
    panic of [repl] ends the whole call. *)
Fixpoint replaceAll (re : string -> option (string * string))
    (repl : string -> option string) (skip : nat) (src : string) : option string :=
  match src with
  | EmptyString => Some EmptyString
  | String c t =>
      match skip with
      | S k => replaceAll re repl k t
      | O =>
          match re src with
          | Some (tok, _) =>
              match repl tok with
              | Some new =>
                  match replaceAll re repl (String.length tok - 1) t with
                  | Some rest => Some (new ++ rest)
                  | None => None
                  end
              | None => None
              end
          | None =>
              match replaceAll re repl 0 t with
              | Some rest => Some (String c rest)
              | None => None
              end
          end
      end
  end.

Definition ReplaceAllStringFunc (re : string -> option (string * string))
    (src : string) (repl : string -> option string) : option string :=
  replaceAll re repl 0 src.

(** ** The client *)

Module Discord.

Record t := mk {
  Session : Session.t;
  Sessions : list Session.t;
  OwnerUserID : string;
  ApplicationClientID : string
}.

(** The loop shared by [Channel], [Guild] and [UserChannelPermissions]:
    the named results [(x, err)] are assigned from each shard in turn;
    the first shard without an error returns at once, and the bare
    [return] behind the loop yields whatever was assigned last. *)
Fixpoint scan {A : Type} (lookup : Session.t -> A * option error)
    (sessions : list Session.t) (x : A) (err : option error) : A * option error :=
  match sessions with
  | [] => (x, err)
  | s :: rest =>
      let (x', err') := lookup s in
      match err' with
      | None => (x', None)
      | Some _ => scan lookup rest x' err'
      end
  end.

Definition Channel (d : t) (channelID : string)
  : option discordgo.Channel.t * option error :=
  scan (fun s => State.Channel (Session.State s) channelID) (Sessions d) None None.

Definition Guild (d : t) (guildID : string)
  : option discordgo.Guild.t * option error :=
  scan (fun s => State.Guild (Session.State s) guildID) (Sessions d) None None.

Definition UserChannelPermissions (d : t) (userID channelID : string)
  : Z * option error :=
  scan (fun s => State.UserChannelPermissions (Session.State s) userID channelID)
       (Sessions d) 0%Z None.

Fixpoint UserColor_loop (sessions : list Session.t) (userID channelID : string) : Z :=
  match sessions with
  | [] => 0%Z
  | s :: rest =>
      let color := State.UserColor (Session.State s) userID channelID in
      if negb (color =? 0)%Z then color else UserColor_loop rest userID channelID
  end.

Definition UserColor (d : t) (userID channelID : string) : Z :=
  UserColor_loop (Sessions d) userID channelID.

Definition Guilds (d : t) : list discordgo.Guild.t :=
  flat_map (fun s => State.Guilds (Session.State s)) (Sessions d).

Definition UserName (d : t) : string :=
  match State.User (Session.State (Session d)) with
  | None => ""
  | Some u => discordgo.User.Username u
  end.

Definition UserID (d : t) : string :=
  match State.User (Session.State (Session d)) with
  | None => ""
  | Some u => discordgo.User.ID u
  end.

(** The body of [for _, r := range g.Roles]: the first role with the
    wanted identifier. *)
Fixpoint scanRoles (roles : list discordgo.Role.t) (roleID : string)
  : option discordgo.Role.t :=
  match roles with
  | [] => None
  | r :: rest =>
      if discordgo.Role.ID r =? roleID then Some r else scanRoles rest roleID
  end.

(** The body of [for _, m := range g.Members]: the nickname returned
    from inside the loop, if any; the loop is left at the first member
    with the wanted identifier. *)
Fixpoint scanMembers (members : list discordgo.Member.t) (userID : string)
  : option string :=
  match members with
  | [] => None
  | m :: rest =>
      if discordgo.User.ID (discordgo.Member.User m) =? userID
      then (if negb (discordgo.Member.Nick m =? "")
            then Some (discordgo.Member.Nick m)
            else None)
      else scanMembers rest userID
  end.

Definition NicknameForID (d : t) (userID userName channelID : string) : option string :=
  match Channel d channelID with
  | (Some c, None) =>
      match Guild d (discordgo.Channel.GuildID c) with
      | (Some g, None) =>
          match scanMembers (discordgo.Guild.Members g) userID with
          | Some nick => Some nick
          | None => Some userName
          end
      | (None, None) => None
      | (_, Some _) => Some userName
      end
  | (None, None) => None
  | (_, Some _) => Some userName
  end.

(** The callback of [replaceChannelNames]. *)
Definition channelName (d : t) (str : string) : option string :=
  match Channel d (slice str 2 (String.length str - 1)) with
  | (_, Some _) => Some str
  | (Some c, None) => Some ("#" ++ discordgo.Channel.Name c)
  | (None, None) => None
  end.

Definition replaceChannelNames (d : t) (message : discordgo.Message.t)
    (content : string) : option string :=
  ReplaceAllStringFunc channelIDRegex content (channelName d).

(** The callback of [replaceRoleNames]. *)
Definition roleName (d : t) (message : discordgo.Message.t) (str : string)
  : option string :=
  let roleID := slice str 3 (String.length str - 1) in
  match Channel d (discordgo.Message.ChannelID message) with
  | (_, Some _) => Some str
  | (None, None) => None
  | (Some c, None) =>
      match Guild d (discordgo.Channel.GuildID c) with
      | (_, Some _) => Some str
      | (None, None) => None
      | (Some g, None) =>
          match scanRoles (discordgo.Guild.Roles g) roleID with
          | Some r => Some ("@" ++ discordgo.Role.Name r)
          | None => Some str
          end
      end
  end.

Definition replaceRoleNames (d : t) (message : discordgo.Message.t)
    (content : string) : option string :=
  ReplaceAllStringFunc roleIDRegex content (roleName d message).

(** *** The send family *)

Local Open Scope net_scope.

Definition SendMessage (d : t) (channel message : string) : Net (option error) :=
  if channel =? "" then ret None
  else
    err <- Session.call (Session d) (ChannelMessageSend channel message) ;;
    match err with
    | Some e => ret (Some e)
    | None => ret None
    end.

Definition SendEmbedMessage (d : t) (channel : string)
    (message : discordgo.MessageEmbed.t) : Net (option error) :=
  if channel =? "" then ret None
  else
    err <- Session.call (Session d) (ChannelMessageSendEmbed channel message) ;;
    match err with
    | Some e => ret (Some e)
    | None => ret None
    end.

Section SmartSend.
(** The permission bit [discordgo.PermissionEmbedLinks], a constant of
    the gateway library. *)
Variable PermissionEmbedLinks : Z.

Definition SendAction (d : t) (channel message : string) : Net (option error) :=
  if channel =? "" then ret None
  else
    match UserChannelPermissions d (UserID d) channel with
    | (_, Some _) => SendMessage d channel message
    | (p, None) =>
        if (Z.land p PermissionEmbedLinks =? PermissionEmbedLinks)%Z
        then
          err <- Session.call (Session d)
                   (ChannelMessageSendEmbed channel
                      (discordgo.MessageEmbed.mk
                         (UserColor d (UserID d) channel) message)) ;;
          match err with
          | Some e => ret (Some e)
          | None => ret None
          end
        else SendMessage d channel message
    end.
End SmartSend.

(** The reader [r] is modelled by the bytes it yields. *)
Definition SendFile (d : t) (channel name : string) (r : string) : Net (option error) :=
  err <- Session.call (Session d) (ChannelFileSend channel name r) ;;
  match err with
  | Some e => ret (Some e)
  | None => ret None
  end.

End Discord.

(** ** The message envelope *)

Inductive MessageType : Type :=
| MessageTypeCreate
| MessageTypeUpdate
| MessageTypeDelete.

Module DiscordMessage.

(** The field [Discord] of the Go struct is the pointer to the shared
    client; see the conventions at the head of the file. *)
Record t := mk {
  DiscordgoMessage : discordgo.Message.t;
  MessageType : MessageType;
  Nick : option string;
  Content : option string
}.

Definition Channel (m : t) : string :=
  discordgo.Message.ChannelID (DiscordgoMessage m).

Definition UserName (d : Discord.t) (m : t) : option (string * t) :=
  let me := DiscordgoMessage m in
  match discordgo.Message.Author me with
  | None => Some ("", m)
  | Some author =>
      match Nick m with
      | None =>
          match Discord.NicknameForID d (discordgo.User.ID author)
                  (discordgo.User.Username author)
                  (discordgo.Message.ChannelID me) with
          | Some n => Some (n, mk (DiscordgoMessage m) (MessageType m) (Some n) (Content m))
          | None => None
          end
      | Some n => Some (n, m)
      end
  end.

Definition UserID (m : t) : string :=
  match discordgo.Message.Author (DiscordgoMessage m) with
  | None => ""
  | Some author => discordgo.User.ID author
  end.

Definition RawMessage (m : t) : string :=
  discordgo.Message.Content (DiscordgoMessage m).

Definition MessageID (m : t) : string :=
  discordgo.Message.ID (DiscordgoMessage m).

Definition Type_ (m : t) := MessageType m.

Section Library.
(** Two functions of the gateway library: the avatar URL of a user,
    and the content of a message with its user mentions spelled out. *)
Variable EndpointUserAvatar : string -> string -> string.
Variable ContentWithMentionsReplaced : discordgo.Message.t -> string.

Definition UserAvatar (m : t) : string :=
  match discordgo.Message.Author (DiscordgoMessage m) with
  | None => ""
  | Some author =>
      EndpointUserAvatar (discordgo.User.ID author) (discordgo.User.Avatar author)
  end.

Definition Message (d : Discord.t) (m : t) : option (string * t) :=
  match Content m with
  | None =>
      let c := ContentWithMentionsReplaced (DiscordgoMessage m) in
      match Discord.replaceRoleNames d (DiscordgoMessage m) c with
      | None => None
      | Some c =>
          match Discord.replaceChannelNames d (DiscordgoMessage m) c with
          | None => None
          | Some c => Some (c, mk (DiscordgoMessage m) (MessageType m) (Nick m) (Some c))
          end
      end
  | Some c => Some (c, m)
  end.
End Library.

End DiscordMessage.

(** ** The event handlers

    [d.messageChan <- x] is modelled by appending [x] to the sequence of
    envelopes handed to the consumer. *)

Definition onMessageCreate (messageChan : list DiscordMessage.t)
    (message : discordgo.Message.t) : list DiscordMessage.t :=
  if (discordgo.Message.Content message =? "")
     || (match discordgo.Message.Author message with
         | Some author => discordgo.User.Bot author
         | None => false
         end)
  then messageChan
  else (messageChan ++ [DiscordMessage.mk message MessageTypeCreate None None])%list.

Definition onMessageUpdate (messageChan : list DiscordMessage.t)
    (message : discordgo.Message.t) : list DiscordMessage.t :=
  if (discordgo.Message.Content message =? "")
     || (match discordgo.Message.Author message with
         | Some author => discordgo.User.Bot author
         | None => false
         end)
  then messageChan
  else (messageChan ++ [DiscordMessage.mk message MessageTypeUpdate None None])%list.

Definition onMessageDelete (messageChan : list DiscordMessage.t)
    (message : discordgo.Message.t) : list DiscordMessage.t :=
  (messageChan ++ [DiscordMessage.mk message MessageTypeDelete None None])%list.

(** ** Further methods of the client

    The predicates on an envelope, the remaining lookups and the
    operations that talk to the network outside the send family.  The
    interface [Message] has one implementation in the package,
    [DiscordMessage], which stands for it here. *)

(** [discordgo.Invite], as far as [Join] reads it. *)
Module Invite.
Record t := mk { Guild : option discordgo.Guild.t; Code : string }.
End Invite.

(** The calls of [Join] that reach the network. *)
Inductive InviteCall : Type :=
| CallInvite (inviteID : string)
| CallInviteAccept (inviteID : string).

(** [l[i] = x]; [None] is the panic of an index out of range. *)
Fixpoint setAt {A : Type} (l : list A) (i : nat) (x : A) : option (list A) :=
  match l, i with
  | [], _ => None
  | _ :: t, O => Some (x :: t)
  | h :: t, S i' =>
      match setAt t i' x with
      | Some t' => Some (h :: t')
      | None => None
      end
  end.

Module Facade.

Definition IsMe (d : Discord.t) (message : DiscordMessage.t) : bool :=
  match State.User (Session.State (Discord.Session d)) with
  | None => false
  | Some user => DiscordMessage.UserID message =? discordgo.User.ID user
  end.

Definition IsBotOwner (d : Discord.t) (message : DiscordMessage.t) : bool :=
  DiscordMessage.UserID message =? Discord.OwnerUserID d.

Definition IsChannelOwner (d : Discord.t) (message : DiscordMessage.t) : option bool :=
  match Discord.Channel d (DiscordMessage.Channel message) with
  | (_, Some _) => Some false
  | (None, None) => None
  | (Some c, None) =>
      match Discord.Guild d (discordgo.Channel.GuildID c) with
      | (_, Some _) => Some false
      | (None, None) => None
      | (Some g, None) =>
          Some ((discordgo.Guild.OwnerID g =? DiscordMessage.UserID message)
                || IsBotOwner d message)
      end
  end.

Section Moderation.
(** Three permission bits of the gateway library. *)
Variables PermissionAdministrator PermissionManageChannels PermissionManageServer : Z.

Definition IsModerator (d : Discord.t) (message : DiscordMessage.t) : option bool :=
  match Discord.UserChannelPermissions d (DiscordMessage.UserID message)
          (DiscordMessage.Channel message) with
  | (p, None) =>
      if (Z.land p PermissionAdministrator =? PermissionAdministrator)%Z
         || (Z.land p PermissionManageChannels =? PermissionManageChannels)%Z
         || (Z.land p PermissionManageServer =? PermissionManageServer)%Z
      then Some true
      else IsChannelOwner d message
  | (_, Some _) => IsChannelOwner d message
  end.
End Moderation.

Definition ChannelCount (d : Discord.t) : Z :=
  Z.of_nat (List.length (Discord.Guilds d)).

(** The arguments are evaluated from the left: [message.UserName()] may
    fill the display-name cache before the lookup runs. *)
Definition Nickname (d : Discord.t) (message : DiscordMessage.t)
  : option (string * DiscordMessage.t) :=
  let userID := DiscordMessage.UserID message in
  match DiscordMessage.UserName d message with
  | None => None
  | Some (userName, message') =>
      match Discord.NicknameForID d userID userName (DiscordMessage.Channel message') with
      | Some n => Some (n, message')
      | None => None
      end
  end.

Section DirectMessage.
(** What [Session.UserChannelCreate] answers for a user. *)
Variable UserChannelCreate : string -> option discordgo.Channel.t * option error.

Definition PrivateMessage (d : Discord.t) (userID message : string) (h : list Call)
  : option (option error * list Call) :=
  match UserChannelCreate userID with
  | (_, Some e) => Some (Some e, h)
  | (None, None) => None
  | (Some c, None) => Some (Discord.SendMessage d (discordgo.Channel.ID c) message h)
  end.
End DirectMessage.

Section Invitation.
(** What [Session.Invite] and [Session.InviteAccept] answer for an
    invite. *)
Variable Invite : string -> option Invite.t * option error.
Variable InviteAccept : string -> option error.

Definition Join (d : Discord.t) (join : string) : option (option error * list InviteCall) :=
  let accept :=
    match InviteAccept join with
    | Some e => (Some e, [CallInvite join; CallInviteAccept join])
    | None => (None, [CallInvite join; CallInviteAccept join])
    end in
  match Invite join with
  | (_, Some _) => Some accept
  | (None, None) => None
  | (Some i, None) =>
      match Invite.Guild i with
      | None => None
      | Some g =>
          match Discord.Guild d (discordgo.Guild.ID g) with
          | (_, None) => Some (Some ErrAlreadyJoined, [CallInvite join])
          | (_, Some _) => Some accept
          end
      end
  end.
End Invitation.

Section History.
(** The field [Messages] of a cached channel. *)
Variable Messages : discordgo.Channel.t -> list discordgo.Message.t.

(** [for i := 0; i < len(c.Messages); i++ { messages[i] = ... }], with
    [k] rounds to go. *)
Fixpoint MessageHistory_loop (k i : nat) (cached : list discordgo.Message.t)
    (messages : list (option DiscordMessage.t)) : option (list (option DiscordMessage.t)) :=
  match k with
  | O => Some messages
  | S k' =>
      match nth_error cached i with
      | None => None
      | Some m =>
          match setAt messages i (Some (DiscordMessage.mk m MessageTypeCreate None None)) with
          | None => None
          | Some messages' => MessageHistory_loop k' (S i) cached messages'
          end
      end
  end.

Definition MessageHistory (d : Discord.t) (channel : string)
  : option (list (option DiscordMessage.t)) :=
  match Discord.Channel d channel with
  | (_, Some _) => Some []
  | (None, None) => None
  | (Some c, None) =>
      let n := List.length (Messages c) in
      MessageHistory_loop n 0 (Messages c) (repeat None n)
  end.
End History.

End Facade.

(** ** Startup

    [Open] builds the shard list.  A session of the library is modelled
    by the fields that [Open] writes; [OpenCalls] counts the calls of its
    method [Open].  The shard list is the store of the sessions, and
    [Session] points into it by index. *)
Module Startup.

Inductive Handler : Type := HandleCreate | HandleUpdate | HandleDelete.

Module Shard.
Record t := mk {
  ShardCount : Z;
  ShardID : Z;
  Handlers : list Handler;
  TrackPresences : bool;
  OpenCalls : nat
}.
End Shard.

Record Pool := mkPool {
  Sessions : list (option Shard.t);
  Session : option nat
}.

(** How a call returns: with its error result, or not at all. *)
Inductive outcome : Type :=
| Returned (err : option error)
| Panicked.

Section Open.
(** The library: [New k] is what the [k]-th call of [discordgo.New]
    yields, a session or an error; [GatewayBot] is the recommended shard
    count, or an error. *)
Variable New : nat -> Shard.t + error.
Variable GatewayBot : Z * option error.

(** The body of the first loop for shard [i]. *)
Definition configure (shards : Z) (i : nat) (session : Shard.t) : Shard.t :=
  Shard.mk shards (Z.of_nat i)
    (Shard.Handlers session ++ [HandleCreate; HandleUpdate; HandleDelete])%list
    false (Shard.OpenCalls session).

(** [for i := 0; i < s.Shards; i++], with [k] rounds to go. *)
Fixpoint construct (k i : nat) (shards : Z) (sessions : list (option Shard.t))
  : list (option Shard.t) * outcome :=
  match k with
  | O => (sessions, Returned None)
  | S k' =>
      match New (S i) with
      | inr e => (sessions, Returned (Some e))
      | inl session =>
          match setAt sessions i (Some (configure shards i session)) with
          | None => (sessions, Panicked)
          | Some sessions' => construct k' (S i) shards sessions'
          end
      end
  end.

(** [d.Sessions[i].Open()], whose result is dropped. *)
Definition openShard (s : option Shard.t) : option (option Shard.t) :=
  match s with
  | None => None
  | Some x =>
      Some (Some (Shard.mk (Shard.ShardCount x) (Shard.ShardID x) (Shard.Handlers x)
                    (Shard.TrackPresences x) (S (Shard.OpenCalls x))))
  end.

Fixpoint openAll (sessions : list (option Shard.t)) : option (list (option Shard.t)) :=
  match sessions with
  | [] => Some []
  | s :: rest =>
      match openShard s with
      | None => None
      | Some s' =>
          match openAll rest with
          | Some rest' => Some (s' :: rest')
          | None => None
          end
      end
  end.

Definition Open (d : Pool) : Pool * outcome :=
  match New 0 with
  | inr e => (d, Returned (Some e))
  | inl _ =>
      match GatewayBot with
      | (_, Some e) => (d, Returned (Some e))
      | (shards, None) =>
          if (shards <? 0)%Z then (d, Panicked)
          else
            let n := Z.to_nat shards in
            match construct n 0 shards (repeat None n) with
            | (sessions, Returned None) =>
                match sessions with
                | [] => (mkPool sessions (Session d), Panicked)
                | _ :: _ =>
                    match openAll sessions with
                    | Some opened => (mkPool opened (Some 0), Returned None)
                    | None => (mkPool sessions (Some 0), Panicked)
                    end
                end
            | (sessions, stopped) => (mkPool sessions (Session d), stopped)
            end
      end
  end.
End Open.

End Startup.

(** ** The statistics plugin, a user of the client *)
Module planetsidetwoplugin.

Definition CENSUS_IMAGEBASE_URI : string :=
  "http://census.daybreakgames.com/files/ps2/images/static/".
Definition VOIDWELL_URI : string := "https://voidwell.com/".

(** [fmt.Sprintf("%v", n)] for an [int]. *)
Definition decimal (n : Z) : string := NilEmpty.string_of_int (Z.to_int n).

Definition createCensusImageURI (imageId : Z) : string :=
  CENSUS_IMAGEBASE_URI ++ decimal imageId ++ ".png".

(** [append(arr[:index], append([]T{value}, arr[index:]...)...)]: the
    slices panic unless [0 <= index <= len(arr)].  The result is a value;
    that the outer [append] may reuse the array of [arr] is not seen by a
    caller who, like the plugin, keeps the result only. *)
Definition insertSlice {A : Type} (arr : list A) (value : A) (index : Z) : option (list A) :=
  if ((index <? 0) || (Z.of_nat (List.length arr) <? index))%Z then None
  else
    let i := Z.to_nat index in
    Some (firstn i arr ++ ([value] ++ skipn i arr))%list.

(** A [map[string]string]: a missing key reads as the empty string, and
    an assignment is seen by the caller.  The map that a callback is
    given is taken to be allocated (an assignment into a nil map
    panics). *)
Definition Args : Type := string -> option string.

Definition get (args : Args) (key : string) : string :=
  match args key with
  | Some v => v
  | None => ""
  end.

Definition set (args : Args) (key value : string) : Args :=
  fun k => if k =? key then Some value else args k.

(** The callbacks of the plugin. *)
Inductive Callback : Type :=
| CharacterStats
| CharacterWeaponStats
| OutfitStats.

Module CommandDefinitionArgument.
Record t := mk { Pattern : string; Alias : string }.
End CommandDefinitionArgument.

Module CommandDefinition.
Record t := mk {
  CommandGroup : string;
  CommandID : string;
  Triggers : list string;
  Arguments : list CommandDefinitionArgument.t;
  Description : string;
  Callback : Callback
}.
End CommandDefinition.

Definition Name : string := "PS2Stats".

Definition Commands : list CommandDefinition.t :=
  [ CommandDefinition.mk Name "ps2-character"
      ["ps2c"; "ps2c-ps4us"; "ps2c-ps4eu"]
      [CommandDefinitionArgument.mk "[a-zA-Z0-9]*" "characterName"]
      "Get stats for a player." CharacterStats;
    CommandDefinition.mk Name "ps2-character-weapons"
      ["ps2c"; "ps2c-ps4us"; "ps2c-ps4eu"]
      [CommandDefinitionArgument.mk "[a-zA-Z0-9]*" "characterName";
       CommandDefinitionArgument.mk ".*" "weaponName"]
      "Get weapon stats for a player." CharacterWeaponStats;
    CommandDefinition.mk Name "ps2-outfit"
      ["ps2o"; "ps2o-ps4us"; "ps2o-ps4eu"]
      [CommandDefinitionArgument.mk "[a-zA-Z0-9]{1,4}" "outfitAlias"]
      "Get outfit stats by outfit tag." OutfitStats ].

(** [err.Error()] *)
Definition Error (e : error) : string :=
  match e with
  | ErrStateNotFound => "state cache not found"
  | ErrAlreadyJoined => "Already joined."
  | ErrTransport reason => reason
  end.

(** What a run of a command leaves behind: the argument map as the caller
    sees it afterwards, the address that was requested, and the calls on
    the client. *)
Record Run := mkRun {
  argsAfter : Args;
  requested : string;
  sends : Net unit
}.

Section Callbacks.
(** [voidwellApiGet], which fetches an address, and the three embeds as
    they are laid out from the decoded answer (the decoded types are
    declared outside the file). *)
Variable voidwellApiGet : string -> string * option error.
Variables characterEmbed weaponEmbed outfitEmbed : string -> discordgo.MessageEmbed.t.

Local Open Scope net_scope.

(** The tail shared by the three callbacks: the error as text, or the
    embed; what the client returns is dropped. *)
Definition answer (client : Discord.t) (message : DiscordMessage.t)
    (layout : string -> discordgo.MessageEmbed.t) (uri : string) : Net unit :=
  let (resp, err) := voidwellApiGet uri in
  match err with
  | Some e =>
      _ <- Discord.SendMessage client (DiscordMessage.Channel message) (Error e) ;;
      ret tt
  | None =>
      _ <- Discord.SendEmbedMessage client (DiscordMessage.Channel message) (layout resp) ;;
      ret tt
  end.

Definition runCharacterStatsCommand (client : Discord.t) (message : DiscordMessage.t)
    (args : Args) (trigger : string) : Run :=
  let args :=
    if trigger =? "ps2c-ps4us" then set args "platform" "ps4us"
    else if trigger =? "ps2c-ps4eu" then set args "platform" "ps4eu"
    else set args "platform" "pc" in
  let uri :=
    "https://voidwell.com/api/ps2/character/byname/" ++ get args "characterName"
    ++ "?platform=" ++ get args "platform" in
  mkRun args uri (answer client message characterEmbed uri).

Definition runCharacterWeaponStatsCommand (client : Discord.t)
    (message : DiscordMessage.t) (args : Args) (trigger : string) : Run :=
  let args :=
    if trigger =? "ps2c-ps4us" then set args "platform" "ps4us"
    else if trigger =? "ps2c-ps4eu" then set args "platform" "ps4eu"
    else set args "platform" "pc" in
  let uri :=
    "https://voidwell.com/api/ps2/character/byname/" ++ get args "characterName"
    ++ "/weapon/" ++ get args "weaponName"
    ++ "?platform=" ++ get args "platform" in
  mkRun args uri (answer client message weaponEmbed uri).

Definition runOutfitStatsCommand (client : Discord.t) (message : DiscordMessage.t)
    (args : Args) (trigger : string) : Run :=
  let args :=
    if trigger =? "ps2c-ps4us" then set args "platform" "ps4us"
    else if trigger =? "ps2c-ps4eu" then set args "platform" "ps4eu"
    else set args "platform" "pc" in
  let uri :=
    "https://voidwell.com/api/ps2/outfit/byalias/" ++ get args "outfitAlias"
    ++ "?platform=" ++ get args "platform" in
  mkRun args uri (answer client message outfitEmbed uri).

(** The callback of a command definition. *)
Definition run (c : Callback) : Discord.t -> DiscordMessage.t -> Args -> string -> Run :=
  match c with
  | CharacterStats => runCharacterStatsCommand
  | CharacterWeaponStats => runCharacterWeaponStatsCommand
  | OutfitStats => runOutfitStatsCommand
  end.
End Callbacks.

End planetsidetwoplugin.

(** ** Auxiliary notions for the statements *)

(** No byte of [p] is "<". *)
Fixpoint avoidsOpen (p : string) : bool :=
  match p with
  | EmptyString => true
  | String c t => negb (Ascii.eqb c "<") && avoidsOpen t
  end.

(** The outcome of a match attempt, with [b] put behind the rest. *)
Definition onRest (b : string) (m : option (string * string)) : option (string * string) :=
  match m with
  | Some (tok, r) => Some (tok, r ++ b)
  | None => None
  end.

(** Two results of a rewrite put one behind the other; a panic in either
    is a panic of the whole. *)
Definition appendResults (a b : option string) : option string :=
  match a, b with
  | Some x, Some y => Some (x ++ y)
  | _, _ => None
  end.

(** The mention tokens as they are written in a message body. *)
Definition channelToken (id : string) : string := "<#" ++ id ++ ">".
Definition roleToken (id : string) : string := "<@&" ++ id ++ ">".

(** Under the rewrite [f], the token [tok] that stands between [pre] and
    [post] is replaced by [new], and the text on either side of it is
    rewritten on its own. *)
Definition rewritesTokenTo (f : string -> option string)
    (pre tok post new : string) : Prop :=
  exists p q,
    f pre = Some p /\ f post = Some q /\ f (pre ++ tok ++ post) = Some (p ++ new ++ q).

(** The role pass, and then the channel pass on its output. *)
Definition rolePassThenChannelPass (d : Discord.t) (message : discordgo.Message.t)
    (content : string) : option string :=
  match Discord.replaceRoleNames d message content with
  | Some c => Discord.replaceChannelNames d message c
  | None => None
  end.

(** The token is rewritten to [new] by the channel pass, and also by the
    two passes of the package run one behind the other, as [Message] runs
    them. *)
Definition normalizesTokenTo (d : Discord.t) (message : discordgo.Message.t)
    (pre tok post new : string) : Prop :=
  rewritesTokenTo (Discord.replaceChannelNames d message) pre tok post new
  /\ rewritesTokenTo (rolePassThenChannelPass d message) pre tok post new.

(** The role token with the id [id] is rewritten to [new] by the role
    pass, and stands so in the normalized text, on which the channel pass
    has run as well. *)
Definition roleTokenBecomes (d : Discord.t) (message : discordgo.Message.t)
    (pre id post new : string) : Prop :=
  rewritesTokenTo (Discord.replaceRoleNames d message) pre (roleToken id) post new
  /\ rewritesTokenTo (rolePassThenChannelPass d message) pre (roleToken id) post new.

(** One use of an envelope through an accessor that writes a cache, on
    whatever the client holds at that moment; [later] is any number of
    such uses. *)
Inductive accessed (ContentWithMentionsReplaced : discordgo.Message.t -> string)
  : DiscordMessage.t -> DiscordMessage.t -> Prop :=
| accessed_UserName d m v m' :
    DiscordMessage.UserName d m = Some (v, m') ->
    accessed ContentWithMentionsReplaced m m'
| accessed_Message d m v m' :
    DiscordMessage.Message ContentWithMentionsReplaced d m = Some (v, m') ->
    accessed ContentWithMentionsReplaced m m'.

Definition later (ContentWithMentionsReplaced : discordgo.Message.t -> string)
  : DiscordMessage.t -> DiscordMessage.t -> Prop :=
  clos_refl_trans _ (accessed ContentWithMentionsReplaced).

(** The display name of [m] is settled as [v]: there is no author and [v]
    is empty, or the name is in the cache. *)
Definition namePinned (v : string) (m : DiscordMessage.t) : Prop :=
  (discordgo.Message.Author (DiscordMessage.DiscordgoMessage m) = None /\ v = "")
  \/ (discordgo.Message.Author (DiscordMessage.DiscordgoMessage m) <> None
      /\ DiscordMessage.Nick m = Some v).

(** [strings.Replace(s, old, new, -1)] for a non-empty [old]. *)
Definition literal (old : string) (s : string) : option (string * string) :=
  match stripPrefix old s with
  | Some r => Some (old, r)
  | None => None
  end.

(** The callback of [Replace] never panics; the second branch is not
    reached. *)
Definition Replace (s old new : string) : string :=
  match replaceAll (literal old) (fun _ => Some new) 0 s with
  | Some r => r
  | None => s
  end.

(** *** The claims that the code does not meet, as the specification words them *)

(** "First the channel-mention pass, then the role-mention pass: the
    normalized result equals the role pass applied to the output of the
    channel pass", on the raw content. *)
Definition spec_normalized (d : Discord.t) (message : discordgo.Message.t)
    (raw : string) : option string :=
  match Discord.replaceChannelNames d message raw with
  | Some c => Discord.replaceRoleNames d message c
  | None => None
  end.

Definition spec_Message_order
    (ContentWithMentionsReplaced : discordgo.Message.t -> string)
    (d : Discord.t) (m : DiscordMessage.t) : Prop :=
  DiscordMessage.Content m = None ->
  option_map fst (DiscordMessage.Message ContentWithMentionsReplaced d m)
  = spec_normalized d (DiscordMessage.DiscordgoMessage m) (DiscordMessage.RawMessage m).

(** "If some shard's cache resolves the channel id to a channel with name
    n, normalization replaces the token with # + n; if the id is absent
    from every shard's cache, the token is left unchanged." *)
Definition spec_channel_token (d : Discord.t) (message : discordgo.Message.t)
    (pre id post : string) : Prop :=
  (forall s c,
      In s (Discord.Sessions d) ->
      State.channelMap (Session.State s) id = Some c ->
      rewritesTokenTo (Discord.replaceChannelNames d message)
        pre (channelToken id) post ("#" ++ discordgo.Channel.Name c))
  /\ ((forall s, In s (Discord.Sessions d) ->
                 State.channelMap (Session.State s) id = None) ->
      rewritesTokenTo (Discord.replaceChannelNames d message)
        pre (channelToken id) post (channelToken id)).

(** "Normalization resolves the message's channel, then that channel's
    guild, then scans the guild's role list for a role whose id equals
    the id of the token; on success the token is replaced with @ + role
    name, and on any failed step (channel miss, guild miss, or no
    matching role) the token is left unchanged."  A miss is a key absent
    from the cache of every shard. *)
Definition spec_role_token (d : Discord.t) (message : discordgo.Message.t)
    (pre id post : string) : Prop :=
  let normalization := rolePassThenChannelPass d message in
  (forall c g r,
      Discord.Channel d (discordgo.Message.ChannelID message) = (Some c, None) ->
      Discord.Guild d (discordgo.Channel.GuildID c) = (Some g, None) ->
      Discord.scanRoles (discordgo.Guild.Roles g) id = Some r ->
      rewritesTokenTo normalization pre (roleToken id) post
        ("@" ++ discordgo.Role.Name r))
  /\ ((forall s, In s (Discord.Sessions d) ->
                 State.channelMap (Session.State s)
                   (discordgo.Message.ChannelID message) = None) ->
      rewritesTokenTo normalization pre (roleToken id) post (roleToken id))
  /\ (forall c,
        Discord.Channel d (discordgo.Message.ChannelID message) = (Some c, None) ->
        (forall s, In s (Discord.Sessions d) ->
                   State.guildMap (Session.State s) (discordgo.Channel.GuildID c) = None) ->
        rewritesTokenTo normalization pre (roleToken id) post (roleToken id))
  /\ (forall c g,
        Discord.Channel d (discordgo.Message.ChannelID message) = (Some c, None) ->
        Discord.Guild d (discordgo.Channel.GuildID c) = (Some g, None) ->
        Discord.scanRoles (discordgo.Guild.Roles g) id = None ->
        rewritesTokenTo normalization pre (roleToken id) post (roleToken id)).

(** "If every shard's lookup fails, the operation returns a not-found
    error", for [Channel]. *)
Definition spec_Channel_miss_is_error (d : Discord.t) (channelID : string) : Prop :=
  (forall s, In s (Discord.Sessions d) ->
             snd (State.Channel (Session.State s) channelID) <> None) ->
  exists e, snd (Discord.Channel d channelID) = Some e.

(** Shard [i], named [s], is the first of [sessions] whose lookup returns
    no error. *)
Definition firstSuccess {A : Type} (lookup : Session.t -> A * option error)
    (sessions : list Session.t) (i : nat) (s : Session.t) : Prop :=
  nth_error sessions i = Some s
  /\ snd (lookup s) = None
  /\ forall j s', j < i -> nth_error sessions j = Some s' -> snd (lookup s') <> None.

(** The lookup of every shard returns an error. *)
Definition allFail {A : Type} (lookup : Session.t -> A * option error)
    (sessions : list Session.t) : Prop :=
  forall s, In s sessions -> snd (lookup s) <> None.

(** * Sample clients

    Concrete caches, shards and clients on which the statements below are
    exercised. *)
Module Sample.

Definition bot : discordgo.User.t := discordgo.User.mk "bot" "mutter" "a1" true.
Definition alice : discordgo.User.t := discordgo.User.mk "u1" "alice" "a2" false.

Definition general : discordgo.Channel.t := discordgo.Channel.mk "2" "g1" "general".
Definition chat : discordgo.Channel.t := discordgo.Channel.mk "c1" "g1" "chat".
Definition lobby : discordgo.Channel.t := discordgo.Channel.mk "2" "g2" "lobby".

Definition guild1 : discordgo.Guild.t :=
  discordgo.Guild.mk "g1" "u0"
    [discordgo.Role.mk "1" "<#2>"; discordgo.Role.mk "7" "Admins"]
    [discordgo.Member.mk alice "Al"].

(** A shard that knows two channels of one guild, may embed links in
    ["c1"] and has a colour there. *)
Definition stateA : State.t :=
  State.mk (Some bot)
    (fun id => if id =? "2" then Some general
               else if id =? "c1" then Some chat else None)
    (fun id => if id =? "g1" then Some guild1 else None)
    [guild1]
    (fun u c => if (u =? "bot") && (c =? "c1") then Some 16384%Z else None)
    (fun u c => if (u =? "bot") && (c =? "c1") then Some 255%Z else None).

(** A shard that caches channel ["2"] under another name, and resolves
    the colour of the bot in ["c1"] to exactly zero. *)
Definition stateB : State.t :=
  State.mk (Some bot)
    (fun id => if id =? "2" then Some lobby else None)
    (fun _ => None)
    []
    (fun _ _ => None)
    (fun u c => if (u =? "bot") && (c =? "c1") then Some 0%Z else None).

(** A shard with an empty cache. *)
Definition stateE : State.t :=
  State.mk (Some bot) (fun _ => None) (fun _ => None) []
    (fun _ _ => None) (fun _ _ => None).

Definition quiet : list Call -> Call -> option error := fun _ _ => None.

Definition sA : Session.t := Session.mk stateA quiet.
Definition sB : Session.t := Session.mk stateB quiet.
Definition sE : Session.t := Session.mk stateE quiet.

Definition dA : Discord.t := Discord.mk sA [sA] "u0" "app".
Definition dEA : Discord.t := Discord.mk sE [sE; sA] "u0" "app".
Definition dAB : Discord.t := Discord.mk sA [sA; sB] "u0" "app".
Definition dB : Discord.t := Discord.mk sB [sB] "u0" "app".
Definition dE : Discord.t := Discord.mk sE [sE] "u0" "app".

(** A client whose shard list is still empty. *)
Definition dNone : Discord.t := Discord.mk sE [] "u0" "app".

(** A shard behind which every call is refused. *)
Definition sRefusing : Session.t :=
  Session.mk stateA (fun _ _ => Some (ErrTransport "400 Bad Request")).
Definition dRefusing : Discord.t := Discord.mk sRefusing [sRefusing] "u0" "app".

(** Stand-ins for the two library functions: the avatar URL, and the
    content in which ["<@id>"] of every mentioned user is spelled out as
    ["@name"]. *)
Definition EndpointUserAvatar (userID avatarID : string) : string :=
  "https://cdn.discordapp.com/avatars/" ++ userID ++ "/" ++ avatarID ++ ".png".

Definition ContentWithMentionsReplaced (m : discordgo.Message.t) : string :=
  fold_left
    (fun content user =>
       Replace content ("<@" ++ discordgo.User.ID user ++ ">")
         ("@" ++ discordgo.User.Username user))
    (discordgo.Message.Mentions m) (discordgo.Message.Content m).

(** Messages: of [alice] in channel ["c1"]; in a channel no shard knows;
    in the channel whose guild no shard knows; one that mentions a role
    whose name reads like a channel mention; one that mentions a user;
    one without content; one of the bot; the payload of a deletion. *)
Definition hello : discordgo.Message.t :=
  discordgo.Message.mk "m1" "c1" "see <#2> and <@&7>" (Some alice) [].
Definition elsewhere : discordgo.Message.t :=
  discordgo.Message.mk "m2" "zz" "hi <@&7>!" (Some alice) [].
Definition inLobby : discordgo.Message.t :=
  discordgo.Message.mk "m3" "2" "hi <@&7>!" (Some alice) [].
Definition roleNamedLikeChannel : discordgo.Message.t :=
  discordgo.Message.mk "m4" "c1" "<@&1>" (Some alice) [].
Definition greeting : discordgo.Message.t :=
  discordgo.Message.mk "m5" "c1" "hi <@u1>" (Some alice) [alice].
Definition blank : discordgo.Message.t :=
  discordgo.Message.mk "m6" "c1" "" (Some alice) [].
Definition automated : discordgo.Message.t :=
  discordgo.Message.mk "m7" "c1" "beep" (Some bot) [].
Definition deleted : discordgo.Message.t :=
  discordgo.Message.mk "m8" "c1" "" None [].

Definition envelope (message : discordgo.Message.t) : DiscordMessage.t :=
  DiscordMessage.mk message MessageTypeCreate None None.

(** The envelope of [hello] with its content normalized, with its display
    name resolved, and with both. *)
Definition helloRead : DiscordMessage.t :=
  DiscordMessage.mk hello MessageTypeCreate None (Some "see #general and @Admins").
Definition helloNamed : DiscordMessage.t :=
  DiscordMessage.mk hello MessageTypeCreate (Some "Al") None.
Definition helloBoth : DiscordMessage.t :=
  DiscordMessage.mk hello MessageTypeCreate (Some "Al")
    (Some "see #general and @Admins").

End Sample.

(** ** Further notions and samples *)

(** [s] without its first [n] bytes. *)
Fixpoint dropBytes (n : nat) (s : string) : string :=
  match n, s with
  | O, _ => s
  | S n', String _ t => dropBytes n' t
  | S _, EmptyString => EmptyString
  end.

(** A computation on the transport that issues no call and returns nil,
    or issues exactly one call, behind those issued before, and returns
    what the network answers to it. *)
Definition atMostOneCall (s : Session.t) (run : Net (option error)) : Prop :=
  forall h,
    run h = (None, h)
    \/ exists c, run h = (Session.respond s h c, (h ++ [c])%list).

(** In [members], [m] is the first member with the user id [userID]. *)
Definition firstMember (members : list discordgo.Member.t) (userID : string)
    (m : discordgo.Member.t) : Prop :=
  exists before after,
    members = (before ++ m :: after)%list
    /\ discordgo.User.ID (discordgo.Member.User m) = userID
    /\ forall m', In m' before -> discordgo.User.ID (discordgo.Member.User m') <> userID.

Module Fixture.

(** A guild in which user ["u1"] is listed twice, first without and then
    with a nickname, and user ["u2"] once with a nickname. *)
Definition carol : discordgo.User.t := discordgo.User.mk "u2" "carol" "a3" false.
Definition guild3 : discordgo.Guild.t :=
  discordgo.Guild.mk "g3" "u2" []
    [discordgo.Member.mk Sample.alice "";
     discordgo.Member.mk Sample.alice "Ally";
     discordgo.Member.mk carol "Caz"].
Definition room : discordgo.Channel.t := discordgo.Channel.mk "c3" "g3" "room".

(** A shard that knows the room and its guild, in which ["u1"] may
    manage channels (bit 16) and nobody else has any permission. *)
Definition stateC : State.t :=
  State.mk (Some Sample.bot)
    (fun id => if id =? "c3" then Some room else None)
    (fun id => if id =? "g3" then Some guild3 else None)
    [guild3; Sample.guild1]
    (fun u c => if (u =? "u1") && (c =? "c3") then Some 16%Z
                else if c =? "c3" then Some 0%Z else None)
    (fun _ _ => None).
Definition sC : Session.t := Session.mk stateC Sample.quiet.
Definition dC : Discord.t := Discord.mk sC [sC] "u9" "app".
Definition dAC : Discord.t := Discord.mk Sample.sA [Sample.sA; sC] "u9" "app".

(** A client whose owner is not configured. *)
Definition dUnowned : Discord.t := Discord.mk sC [sC] "" "app".

(** Messages in the room: of [carol], of [alice], of nobody. *)
Definition fromCarol : discordgo.Message.t :=
  discordgo.Message.mk "m10" "c3" "hi" (Some carol) [].
Definition fromAlice : discordgo.Message.t :=
  discordgo.Message.mk "m11" "c3" "hi" (Some Sample.alice) [].
Definition fromNobody : discordgo.Message.t :=
  discordgo.Message.mk "m12" "c3" "" None [].
Definition farAway : discordgo.Message.t :=
  discordgo.Message.mk "m13" "zz" "hi" (Some carol) [].

End Fixture.

(** Reads the rewritten neighbourhood off a [rewritesTokenTo] fact on
    concrete text. *)
Ltac read_rewrite H :=
  let p := fresh "p" in
  let q := fresh "q" in
  let Hp := fresh "Hp" in
  let Hq := fresh "Hq" in
  let Hr := fresh "Hr" in
  destruct H as (p & q & Hp & Hq & Hr);
  vm_compute in Hp; vm_compute in Hq;
  inversion Hp; inversion Hq; subst p q.

(** * Properties *)

(** ** Byte strings *)

Section Strings.

Lemma append_assoc (a b c : string) : (a ++ b) ++ c = a ++ (b ++ c).
Proof. induction a as [|x a IH]; simpl; [reflexivity | now rewrite IH]. Qed.

Lemma append_empty_r (a : string) : a ++ "" = a.
Proof. induction a as [|x a IH]; simpl; [reflexivity | now rewrite IH]. Qed.

Lemma length_append (a b : string) :
    String.length (a ++ b) = String.length a + String.length b.
Proof. induction a as [|x a IH]; simpl; [reflexivity | now rewrite IH]. Qed.

Lemma substring_whole_prefix (a b : string) :
    substring 0 (String.length a) (a ++ b) = a.
Proof. induction a as [|x a IH]; simpl; [now destruct b | now rewrite IH]. Qed.

Lemma stripPrefix_append (p r : string) : stripPrefix p (p ++ r) = Some r.
Proof.
    induction p as [|a p IH]; simpl; [reflexivity|].
    now rewrite Ascii.eqb_refl.
Qed.

Lemma stripPrefix_sound (p s r : string) : stripPrefix p s = Some r -> s = p ++ r.
Proof.
    revert s; induction p as [|a p IH]; intros s H; simpl in *.
    - now inversion H.
    - destruct s as [|b s]; [discriminate|].
      destruct (Ascii.eqb_spec a b) as [->|]; [|discriminate].
      now rewrite (IH _ H).
Qed.

Lemma spanDigits_sound (s : string) :
    s = fst (spanDigits s) ++ snd (spanDigits s).
Proof.
    induction s as [|c s IH]; simpl; [reflexivity|].
    destruct (isDigit c); [|reflexivity].
    destruct (spanDigits s) as [ds r]; simpl in *. now rewrite <- IH.
Qed.

Lemma spanDigits_run (ds : string) (c : ascii) (r : string) :
    allDigits ds = true -> isDigit c = false ->
    spanDigits (ds ++ String c r) = (ds, String c r).
Proof.
    intros Hds Hc. induction ds as [|x ds IH]; simpl in *.
    - now rewrite Hc.
    - apply andb_true_iff in Hds as [Hx Hds]. now rewrite Hx, (IH Hds).
Qed.

  (** A "<" behind [y] ends the run of digits exactly where [y] ends it. *)
Lemma spanDigits_boundary (y r : string) :
    spanDigits (y ++ String "<" r)
    = (fst (spanDigits y), snd (spanDigits y) ++ String "<" r).
Proof.
    induction y as [|c y IH]; simpl; [reflexivity|].
    destruct (isDigit c); [|reflexivity].
    rewrite IH. now destruct (spanDigits y).
Qed.

End Strings.

(** ** The token patterns *)

Section Tokens.

Lemma stripPrefix_boundary (p x r : string) :
    avoidsOpen p = true ->
    stripPrefix p (x ++ String "<" r)
    = match stripPrefix p x with Some y => Some (y ++ String "<" r) | None => None end.
Proof.
    revert x; induction p as [|b p IH]; intros x Hp; simpl in *; [reflexivity|].
    apply andb_true_iff in Hp as [Hb Hp].
    destruct x as [|c x]; simpl.
    - destruct (Ascii.eqb b "<"); [discriminate | reflexivity].
    - destruct (Ascii.eqb b c); [now apply IH | reflexivity].
Qed.

  (** An attempt that starts inside [x] never reaches over a following
      "<": it succeeds on [x ++ "<" ++ r] exactly as it does on [x]. *)
Lemma matchToken_boundary (a : ascii) (p x r : string) :
    avoidsOpen p = true -> x <> "" ->
    matchToken (String a p) (x ++ String "<" r)
    = onRest (String "<" r) (matchToken (String a p) x).
Proof.
    intros Hp Hx. destruct x as [|c x]; [congruence|].
    unfold matchToken; simpl.
    destruct (Ascii.eqb a c); [|reflexivity].
    rewrite stripPrefix_boundary by assumption.
    destruct (stripPrefix p x) as [y|]; [|reflexivity].
    rewrite spanDigits_boundary.
    destruct (spanDigits y) as [ds r']; simpl.
    destruct r' as [|e r']; simpl; [reflexivity|].
    destruct (Ascii.eqb e ">"); reflexivity.
Qed.

Lemma matchToken_sound (opening s tok r : string) :
    matchToken opening s = Some (tok, r) -> s = tok ++ r /\ tok <> "".
Proof.
    unfold matchToken. intros H.
    destruct (stripPrefix opening s) as [y|] eqn:Hy; [|discriminate].
    apply stripPrefix_sound in Hy.
    pose proof (spanDigits_sound y) as Hs.
    destruct (spanDigits y) as [ds r']; simpl in Hs.
    destruct r' as [|e r']; [discriminate|].
    destruct (Ascii.eqb_spec e ">") as [->|]; [|discriminate].
    inversion H; subst tok r; clear H. split.
    - rewrite Hy, Hs, !append_assoc. reflexivity.
    - destruct opening; destruct ds; discriminate.
Qed.

Lemma matchToken_here (opening ds r : string) :
    allDigits ds = true ->
    matchToken opening ((opening ++ ds ++ ">") ++ r) = Some (opening ++ ds ++ ">", r).
Proof.
    intros Hds. unfold matchToken.
    rewrite !append_assoc, stripPrefix_append. simpl.
    rewrite spanDigits_run by (assumption || reflexivity).
    reflexivity.
Qed.

End Tokens.

(** ** Replacing every match *)

Section ReplaceAll.

Variable re : string -> option (string * string).
Variable repl : string -> option string.

Hypothesis re_sound :
  forall s tok r, re s = Some (tok, r) -> s = tok ++ r /\ tok <> "".

Lemma replaceAll_skip (x s : string) :
  replaceAll re repl (String.length x) (x ++ s) = replaceAll re repl 0 s.
Proof. induction x as [|c x IH]; simpl; [reflexivity | exact IH]. Qed.

(** A match at the head is replaced, and the scan resumes behind it. *)
Lemma replaceAll_token (tok post : string) :
  re (tok ++ post) = Some (tok, post) ->
  replaceAll re repl 0 (tok ++ post)
  = appendResults (repl tok) (replaceAll re repl 0 post).
Proof.
  intros H. destruct (re_sound _ _ _ H) as [_ Hne].
  destruct tok as [|c x]; [congruence|].
  simpl in H |- *. rewrite H. unfold appendResults.
  destruct (repl (String c x)) as [new|]; [|reflexivity].
  replace (String.length (String c x) - 1) with (String.length x)
    by (simpl; lia).
  rewrite replaceAll_skip. reflexivity.
Qed.

Lemma replaceAll_total :
  (forall str, repl str <> None) ->
  forall s k, replaceAll re repl k s <> None.
Proof.
  intros Hrepl. induction s as [|c s IH]; intros k; simpl; [discriminate|].
  destruct k as [|k]; [|apply IH].
  destruct (re (String c s)) as [[tok r]|].
  - specialize (Hrepl tok). destruct (repl tok); [|congruence].
    specialize (IH (String.length tok - 1)).
    destruct (replaceAll re repl (String.length tok - 1) s); congruence.
  - specialize (IH 0). destruct (replaceAll re repl 0 s); congruence.
Qed.

(** The text [b] that follows is such that no attempt started before it
    reaches into it. *)
Variable b : string.
Hypothesis re_local : forall x, x <> "" -> re (x ++ b) = onRest b (re x).

Lemma replaceAll_append (pre : string) :
  forall k, k <= String.length pre ->
  replaceAll re repl k (pre ++ b)
  = appendResults (replaceAll re repl k pre) (replaceAll re repl 0 b).
Proof.
  induction pre as [|c pre IH]; intros k Hk.
  - simpl in Hk. replace k with 0 by lia. simpl.
    destruct (replaceAll re repl 0 b); reflexivity.
  - destruct k as [|k]; [|simpl; apply IH; simpl in Hk; lia].
    assert (L : re (String c (pre ++ b)) = onRest b (re (String c pre)))
      by (apply (re_local (String c pre)); discriminate).
    simpl. rewrite L.
    destruct (re (String c pre)) as [[tok r]|] eqn:E; simpl.
    + destruct (re_sound _ _ _ E) as [Heq Hne].
      destruct (repl tok) as [new|]; [|reflexivity].
      assert (Hlen : String.length tok - 1 <= String.length pre).
      { apply (f_equal String.length) in Heq. rewrite length_append in Heq.
        simpl in Heq. lia. }
      rewrite (IH _ Hlen).
      destruct (replaceAll re repl (String.length tok - 1) pre);
        destruct (replaceAll re repl 0 b); simpl; try reflexivity.
      now rewrite append_assoc.
    + rewrite (IH 0) by lia.
      destruct (replaceAll re repl 0 pre);
        destruct (replaceAll re repl 0 b); reflexivity.
Qed.

End ReplaceAll.

(** Every match of a token pattern that is written out in the text is
    replaced where it stands; the text before it and the text behind it
    are rewritten on their own. *)
Lemma ReplaceAllStringFunc_token (p ds pre post : string)
    (repl : string -> option string) :
  avoidsOpen p = true -> allDigits ds = true ->
  let re := matchToken (String "<" p) in
  let tok := String "<" p ++ ds ++ ">" in
  ReplaceAllStringFunc re (pre ++ tok ++ post) repl
  = appendResults (ReplaceAllStringFunc re pre repl)
      (appendResults (repl tok) (ReplaceAllStringFunc re post repl)).
Proof.
  intros Hp Hds re tok. unfold ReplaceAllStringFunc.
  rewrite (replaceAll_append re repl (matchToken_sound _) (tok ++ post)).
  - f_equal. apply replaceAll_token; [apply matchToken_sound|].
    apply matchToken_here; assumption.
  - intros x Hx. subst tok. simpl. apply matchToken_boundary; assumption.
  - apply Nat.le_0_l.
Qed.

(** ** The cross-shard lookups *)

Section Scan.

Context {A : Type} (lookup : Session.t -> A * option error).

Lemma scan_first_success (sessions : list Session.t) :
  forall i s x err,
    nth_error sessions i = Some s ->
    snd (lookup s) = None ->
    (forall j s', j < i -> nth_error sessions j = Some s' -> snd (lookup s') <> None) ->
    Discord.scan lookup sessions x err = lookup s.
Proof.
  induction sessions as [|s0 rest IH]; intros i s x err Hi Hok Hbefore.
  - destruct i; discriminate.
  - destruct i as [|i]; simpl in Hi |- *.
    + inversion Hi; subst s0. destruct (lookup s) as [x' err']; simpl in Hok.
      now subst err'.
    + pose proof (Hbefore 0 s0 (Nat.lt_0_succ i) eq_refl) as H0.
      destruct (lookup s0) as [x0 [e0|]]; simpl in H0; [|congruence].
      apply (IH i); try assumption.
      intros j s' Hj Hs'. apply (Hbefore (S j)); [lia | exact Hs'].
Qed.

Lemma scan_all_fail (sessions : list Session.t) :
  forall x err,
    sessions <> [] ->
    (forall s, In s sessions -> snd (lookup s) <> None) ->
    exists s, In s sessions /\ Discord.scan lookup sessions x err = lookup s.
Proof.
  induction sessions as [|s0 rest IH]; intros x err Hne Hall; [congruence|].
  simpl. pose proof (Hall s0 (or_introl eq_refl)) as H0.
  destruct (lookup s0) as [x0 [e0|]] eqn:E0; simpl in H0; [|congruence].
  destruct rest as [|s1 rest'].
  - exists s0. simpl. rewrite E0. auto.
  - destruct (IH x0 (Some e0)) as (s & Hs & Heq); [discriminate| |].
    + intros s Hs. apply Hall. now right.
    + exists s. split; [now right | exact Heq].
Qed.

End Scan.

(** What a shard answers to a lookup. *)
Lemma State_Channel_cases (s : State.t) (id : string) :
  (exists c, State.channelMap s id = Some c /\ State.Channel s id = (Some c, None))
  \/ (State.channelMap s id = None /\ State.Channel s id = (None, Some ErrStateNotFound)).
Proof. unfold State.Channel. destruct (State.channelMap s id); eauto. Qed.

Lemma State_Guild_cases (s : State.t) (id : string) :
  (exists g, State.guildMap s id = Some g /\ State.Guild s id = (Some g, None))
  \/ (State.guildMap s id = None /\ State.Guild s id = (None, Some ErrStateNotFound)).
Proof. unfold State.Guild. destruct (State.guildMap s id); eauto. Qed.

Lemma State_UserChannelPermissions_cases (s : State.t) (u c : string) :
  (exists p, State.permissions s u c = Some p
             /\ State.UserChannelPermissions s u c = (p, None))
  \/ (State.permissions s u c = None
      /\ State.UserChannelPermissions s u c = (0%Z, Some ErrStateNotFound)).
Proof. unfold State.UserChannelPermissions. destruct (State.permissions s u c); eauto. Qed.

(** With at least one shard, a lookup across the shards resolves the key
    or reports it as not found; with none it does neither. *)
Lemma scan_shape {T : Type} (lookup : Session.t -> option T * option error) :
  (forall s, (exists c, lookup s = (Some c, None))
             \/ lookup s = (None, Some ErrStateNotFound)) ->
  forall sessions x err, sessions <> [] ->
    (exists c, Discord.scan lookup sessions x err = (Some c, None))
    \/ Discord.scan lookup sessions x err = (None, Some ErrStateNotFound).
Proof.
  intros Hshape. induction sessions as [|s0 rest IH]; intros x err Hne; [congruence|].
  simpl. destruct (Hshape s0) as [[c ->]| ->]; [left; eauto|].
  destruct rest as [|s1 rest']; [right; reflexivity|].
  apply IH. discriminate.
Qed.

Lemma Channel_cases (d : Discord.t) (id : string) :
  (exists c, Discord.Channel d id = (Some c, None))
  \/ (Discord.Sessions d <> [] /\ Discord.Channel d id = (None, Some ErrStateNotFound))
  \/ (Discord.Sessions d = [] /\ Discord.Channel d id = (None, None)).
Proof.
  unfold Discord.Channel.
  destruct (Discord.Sessions d) as [|s0 rest] eqn:E; [right; right; auto|].
  destruct (scan_shape (fun s => State.Channel (Session.State s) id)) 
    with (sessions := s0 :: rest) (x := @None discordgo.Channel.t) (err := @None error)
    as [H|H]; try discriminate; [|left; exact H|right; left; split; [discriminate|exact H]].
  intros s. destruct (State_Channel_cases (Session.State s) id) as [(c & _ & ->)|(_ & ->)]; eauto.
Qed.

Lemma Guild_cases (d : Discord.t) (id : string) :
  (exists g, Discord.Guild d id = (Some g, None))
  \/ (Discord.Sessions d <> [] /\ Discord.Guild d id = (None, Some ErrStateNotFound))
  \/ (Discord.Sessions d = [] /\ Discord.Guild d id = (None, None)).
Proof.
  unfold Discord.Guild.
  destruct (Discord.Sessions d) as [|s0 rest] eqn:E; [right; right; auto|].
  destruct (scan_shape (fun s => State.Guild (Session.State s) id)) 
    with (sessions := s0 :: rest) (x := @None discordgo.Guild.t) (err := @None error)
    as [H|H]; try discriminate; [|left; exact H|right; left; split; [discriminate|exact H]].
  intros s. destruct (State_Guild_cases (Session.State s) id) as [(c & _ & ->)|(_ & ->)]; eauto.
Qed.

Section Lookups.

Variable d : Discord.t.

Lemma Channel_first_success (id : string) (i : nat) (s : Session.t) :
  firstSuccess (fun s => State.Channel (Session.State s) id) (Discord.Sessions d) i s ->
  Discord.Channel d id = State.Channel (Session.State s) id.
Proof.
  intros (Hi & Hok & Hbefore).
  exact (scan_first_success (fun s0 => State.Channel (Session.State s0) id)
           _ i s _ _ Hi Hok Hbefore).
Qed.

Lemma Channel_not_found (id : string) :
  Discord.Sessions d <> [] ->
  allFail (fun s => State.Channel (Session.State s) id) (Discord.Sessions d) ->
  Discord.Channel d id = (None, Some ErrStateNotFound).
Proof.
  intros Hne Hall.
  destruct (scan_all_fail _ _ None None Hne Hall) as (s & Hs & Heq).
  unfold Discord.Channel. rewrite Heq. specialize (Hall s Hs). cbv beta in Hall.
  destruct (State_Channel_cases (Session.State s) id) as [(c & _ & E)|(_ & E)];
    rewrite E in *; simpl in Hall; [congruence | reflexivity].
Qed.

Lemma Guild_first_success (id : string) (i : nat) (s : Session.t) :
  firstSuccess (fun s => State.Guild (Session.State s) id) (Discord.Sessions d) i s ->
  Discord.Guild d id = State.Guild (Session.State s) id.
Proof.
  intros (Hi & Hok & Hbefore).
  exact (scan_first_success (fun s0 => State.Guild (Session.State s0) id)
           _ i s _ _ Hi Hok Hbefore).
Qed.

Lemma Guild_not_found (id : string) :
  Discord.Sessions d <> [] ->
  allFail (fun s => State.Guild (Session.State s) id) (Discord.Sessions d) ->
  Discord.Guild d id = (None, Some ErrStateNotFound).
Proof.
  intros Hne Hall.
  destruct (scan_all_fail _ _ None None Hne Hall) as (s & Hs & Heq).
  unfold Discord.Guild. rewrite Heq. specialize (Hall s Hs). cbv beta in Hall.
  destruct (State_Guild_cases (Session.State s) id) as [(c & _ & E)|(_ & E)];
    rewrite E in *; simpl in Hall; [congruence | reflexivity].
Qed.

Lemma UserChannelPermissions_first_success (u c : string) (i : nat) (s : Session.t) :
  firstSuccess (fun s => State.UserChannelPermissions (Session.State s) u c)
    (Discord.Sessions d) i s ->
  Discord.UserChannelPermissions d u c
  = State.UserChannelPermissions (Session.State s) u c.
Proof.
  intros (Hi & Hok & Hbefore).
  exact (scan_first_success
           (fun s0 => State.UserChannelPermissions (Session.State s0) u c)
           _ i s _ _ Hi Hok Hbefore).
Qed.

Lemma UserChannelPermissions_not_found (u c : string) :
  Discord.Sessions d <> [] ->
  allFail (fun s => State.UserChannelPermissions (Session.State s) u c)
    (Discord.Sessions d) ->
  Discord.UserChannelPermissions d u c = (0%Z, Some ErrStateNotFound).
Proof.
  intros Hne Hall.
  destruct (scan_all_fail _ _ 0%Z None Hne Hall) as (s & Hs & Heq).
  unfold Discord.UserChannelPermissions. rewrite Heq.
  specialize (Hall s Hs). cbv beta in Hall.
  destruct (State_UserChannelPermissions_cases (Session.State s) u c)
    as [(p & _ & E)|(_ & E)]; rewrite E in *; simpl in Hall; [congruence | reflexivity].
Qed.

End Lookups.

(** C9, as amended.  [Channel], [Guild] and [UserChannelPermissions] scan
    the shards in ascending index order and return the result of the first
    shard whose cache lookup returns no error; if the shard list is not
    empty and the lookup of every shard fails, they return the not-found
    error (with a nil, respectively zero, result). *)
Theorem lookups_first_success_or_not_found (d : Discord.t) :
  (forall id i s,
      firstSuccess (fun s => State.Channel (Session.State s) id) (Discord.Sessions d) i s ->
      Discord.Channel d id = State.Channel (Session.State s) id)
  /\ (forall id,
      Discord.Sessions d <> [] ->
      allFail (fun s => State.Channel (Session.State s) id) (Discord.Sessions d) ->
      Discord.Channel d id = (None, Some ErrStateNotFound))
  /\ (forall id i s,
      firstSuccess (fun s => State.Guild (Session.State s) id) (Discord.Sessions d) i s ->
      Discord.Guild d id = State.Guild (Session.State s) id)
  /\ (forall id,
      Discord.Sessions d <> [] ->
      allFail (fun s => State.Guild (Session.State s) id) (Discord.Sessions d) ->
      Discord.Guild d id = (None, Some ErrStateNotFound))
  /\ (forall u c i s,
      firstSuccess (fun s => State.UserChannelPermissions (Session.State s) u c)
        (Discord.Sessions d) i s ->
      Discord.UserChannelPermissions d u c
      = State.UserChannelPermissions (Session.State s) u c)
  /\ (forall u c,
      Discord.Sessions d <> [] ->
      allFail (fun s => State.UserChannelPermissions (Session.State s) u c)
        (Discord.Sessions d) ->
      Discord.UserChannelPermissions d u c = (0%Z, Some ErrStateNotFound)).
Proof.
  repeat split.
  - apply Channel_first_success.
  - apply Channel_not_found.
  - apply Guild_first_success.
  - apply Guild_not_found.
  - apply UserChannelPermissions_first_success.
  - apply UserChannelPermissions_not_found.
Qed.

Lemma lookups_first_success_or_not_found_witness :
  Discord.Channel Sample.dEA "2" = (Some Sample.general, None)
  /\ Discord.Channel Sample.dE "2" = (None, Some ErrStateNotFound).
Proof.
  split.
  - destruct (lookups_first_success_or_not_found Sample.dEA) as [H _].
    apply (H "2" 1 Sample.sA). repeat split.
    intros j s' Hj Hs'. destruct j as [|j]; [|lia].
    inversion Hs'; subst s'. discriminate.
  - destruct (lookups_first_success_or_not_found Sample.dE) as (_ & H & _).
    apply H; [discriminate|].
    intros s [<-|[]]. discriminate.
Defined.

(** C9, as the specification words it, fails on a client without shards:
    every shard's lookup fails, vacuously, and yet no error is returned. *)
Lemma lookups_without_shards_return_no_error :
  ~ spec_Channel_miss_is_error Sample.dNone "2"
  /\ Discord.Channel Sample.dNone "2" = (None, None)
  /\ Discord.Guild Sample.dNone "g1" = (None, None)
  /\ Discord.UserChannelPermissions Sample.dNone "bot" "c1" = (0%Z, None).
Proof.
  repeat split. intros H.
  destruct H as [e He]; [intros s []|]. discriminate He.
Qed.

(** ** The display colour *)

Lemma State_UserColor_zero (s : State.t) (u c : string) :
  State.UserColor s u c = 0%Z
  <-> State.color s u c = None \/ State.color s u c = Some 0%Z.
Proof.
  unfold State.UserColor. destruct (State.color s u c) as [z|].
  - split; [intros ->; now right | intros [H|H]; congruence].
  - split; auto.
Qed.

Lemma UserColor_loop_zero (sessions : list Session.t) (u c : string) :
  Discord.UserColor_loop sessions u c = 0%Z
  <-> forall s, In s sessions -> State.UserColor (Session.State s) u c = 0%Z.
Proof.
  induction sessions as [|s0 rest IH]; simpl.
  - split; [intros _ s [] | reflexivity].
  - destruct (Z.eqb_spec (State.UserColor (Session.State s0) u c) 0) as [E|E]; simpl.
    + rewrite IH. split.
      * intros H s [<-|Hs]; auto.
      * intros H s Hs. apply H. now right.
    + split; [congruence|]. intros H. exfalso. apply E, H. now left.
Qed.

(** C8.  [UserColor] returns [0] when no shard's cache yields a colour for
    the user in the channel, and it returns the same [0] when the colour
    that is resolved is exactly zero; a return value of [0] says no more
    than that every shard is in one of these two cases. *)
Theorem UserColor_zero_is_ambiguous (d : Discord.t) (u c : string) :
  ((forall s, In s (Discord.Sessions d) -> State.color (Session.State s) u c = None) ->
   Discord.UserColor d u c = 0%Z)
  /\ ((forall s, In s (Discord.Sessions d) ->
         State.color (Session.State s) u c = None
         \/ State.color (Session.State s) u c = Some 0%Z) ->
      Discord.UserColor d u c = 0%Z)
  /\ (Discord.UserColor d u c = 0%Z ->
      forall s, In s (Discord.Sessions d) ->
        State.color (Session.State s) u c = None
        \/ State.color (Session.State s) u c = Some 0%Z).
Proof.
  unfold Discord.UserColor. repeat split.
  - intros H. apply UserColor_loop_zero. intros s Hs.
    apply State_UserColor_zero. left. now apply H.
  - intros H. apply UserColor_loop_zero. intros s Hs.
    apply State_UserColor_zero. now apply H.
  - intros H s Hs. apply State_UserColor_zero.
    revert s Hs. now apply UserColor_loop_zero.
Qed.

Lemma UserColor_zero_is_ambiguous_witness :
  Discord.UserColor Sample.dE "bot" "c1" = 0%Z
  /\ Discord.UserColor Sample.dB "bot" "c1" = 0%Z
  /\ State.color Sample.stateE "bot" "c1" = None
  /\ State.color Sample.stateB "bot" "c1" = Some 0%Z.
Proof.
  split; [|split; [|split; reflexivity]].
  - destruct (UserColor_zero_is_ambiguous Sample.dE "bot" "c1") as [H _].
    apply H. intros s [<-|[]]. reflexivity.
  - destruct (UserColor_zero_is_ambiguous Sample.dB "bot" "c1") as (_ & H & _).
    apply H. intros s [<-|[]]. right. reflexivity.
Defined.

(** ** The two rewrite passes *)

Lemma slice_channelToken (id : string) :
  slice (channelToken id) 2 (String.length (channelToken id) - 1) = id.
Proof.
  unfold slice, channelToken. simpl. rewrite length_append. simpl.
  replace (String.length id + 1 - 1) with (String.length id) by lia.
  apply substring_whole_prefix.
Qed.

Lemma slice_roleToken (id : string) :
  slice (roleToken id) 3 (String.length (roleToken id) - 1) = id.
Proof.
  unfold slice, roleToken. simpl. rewrite length_append. simpl.
  replace (String.length id + 1 - 1) with (String.length id) by lia.
  apply substring_whole_prefix.
Qed.

(** A pass whose callback never panics rewrites a token where it stands. *)
Lemma rewritesTokenTo_intro (p ds pre post new : string)
    (repl : string -> option string) :
  avoidsOpen p = true -> allDigits ds = true ->
  (forall str, repl str <> None) ->
  repl (String "<" p ++ ds ++ ">") = Some new ->
  rewritesTokenTo (fun src => ReplaceAllStringFunc (matchToken (String "<" p)) src repl)
    pre (String "<" p ++ ds ++ ">") post new.
Proof.
  intros Hp Hds Htotal Hnew. unfold rewritesTokenTo.
  pose proof (ReplaceAllStringFunc_token p ds pre post repl Hp Hds) as H.
  cbv zeta in H. rewrite Hnew in H.
  pose proof (replaceAll_total (matchToken (String "<" p)) repl Htotal pre 0) as Hpre.
  pose proof (replaceAll_total (matchToken (String "<" p)) repl Htotal post 0) as Hpost.
  unfold ReplaceAllStringFunc in *.
  destruct (replaceAll (matchToken (String "<" p)) repl 0 pre) as [x|]; [|congruence].
  destruct (replaceAll (matchToken (String "<" p)) repl 0 post) as [y|]; [|congruence].
  exists x, y. repeat split. exact H.
Qed.

Lemma channelName_total (d : Discord.t) :
  Discord.Sessions d <> [] -> forall str, Discord.channelName d str <> None.
Proof.
  intros Hne str. unfold Discord.channelName.
  destruct (Channel_cases d (slice str 2 (String.length str - 1)))
    as [[c ->]|[[_ ->]|[H _]]]; congruence.
Qed.

Lemma roleName_total (d : Discord.t) (message : discordgo.Message.t) :
  Discord.Sessions d <> [] -> forall str, Discord.roleName d message str <> None.
Proof.
  intros Hne str. unfold Discord.roleName.
  destruct (Channel_cases d (discordgo.Message.ChannelID message))
    as [[c ->]|[[_ ->]|[H _]]]; try congruence.
  destruct (Guild_cases d (discordgo.Channel.GuildID c))
    as [[g ->]|[[_ ->]|[H _]]]; try congruence.
  destruct (Discord.scanRoles _ _); congruence.
Qed.

Lemma firstSuccess_nonempty {A : Type} (lookup : Session.t -> A * option error)
    (sessions : list Session.t) (i : nat) (s : Session.t) :
  firstSuccess lookup sessions i s -> sessions <> [].
Proof. intros [Hi _] ->. destruct i; discriminate. Qed.

Lemma matchToken_not_open (p : string) (c : ascii) (s : string) :
  Ascii.eqb c "<" = false -> matchToken (String "<" p) (String c s) = None.
Proof.
  intros H. unfold matchToken. cbn [stripPrefix]. now rewrite Ascii.eqb_sym, H.
Qed.

(** Text without "<" holds no match and is copied as it is. *)
Lemma replaceAll_plain (p : string) (repl : string -> option string) (x s : string) :
  avoidsOpen x = true ->
  replaceAll (matchToken (String "<" p)) repl 0 (x ++ s)
  = appendResults (Some x) (replaceAll (matchToken (String "<" p)) repl 0 s).
Proof.
  induction x as [|c x IH]; intros Hx; simpl in *.
  - now destruct (replaceAll _ _ 0 s).
  - apply andb_true_iff in Hx as [Hc Hx]. apply negb_true_iff in Hc.
    rewrite (matchToken_not_open p c _ Hc), (IH Hx).
    now destruct (replaceAll _ _ 0 s).
Qed.

Lemma allDigits_avoidsOpen (ds : string) : allDigits ds = true -> avoidsOpen ds = true.
Proof.
  induction ds as [|c ds IH]; simpl; [reflexivity|].
  intros H. apply andb_true_iff in H as [Hc Hds]. rewrite (IH Hds), andb_true_r.
  destruct (Ascii.eqb_spec c "<") as [->|]; [discriminate Hc | reflexivity].
Qed.

Lemma avoidsOpen_append (a b : string) :
  avoidsOpen (a ++ b) = avoidsOpen a && avoidsOpen b.
Proof.
  induction a as [|c a IH]; simpl; [reflexivity|]. now rewrite IH, andb_assoc.
Qed.

Section ChannelToken.

Variables (d : Discord.t) (message : discordgo.Message.t).
Variables (pre id post : string).
Hypothesis id_digits : allDigits id = true.
Hypothesis some_shard : Discord.Sessions d <> [].

Lemma channel_pass_rewrites (new : string) :
  Discord.channelName d (channelToken id) = Some new ->
  rewritesTokenTo (Discord.replaceChannelNames d message)
    pre (channelToken id) post new.
Proof.
  intros Hnew.
  apply (rewritesTokenTo_intro "#" id pre post); try assumption; try reflexivity.
  now apply channelName_total.
Qed.

(** The role pass steps over a channel mention. *)
Lemma role_pass_keeps_channel_token :
  rewritesTokenTo (Discord.replaceRoleNames d message)
    pre (channelToken id) post (channelToken id).
Proof.
  unfold rewritesTokenTo, Discord.replaceRoleNames, ReplaceAllStringFunc, roleIDRegex.
  set (re := matchToken "<@&"). set (repl := Discord.roleName d message).
  assert (Htotal : forall str, repl str <> None)
    by (now apply roleName_total).
  assert (Hrest : replaceAll re repl 0 (channelToken id ++ post)
                  = appendResults (Some (channelToken id)) (replaceAll re repl 0 post)).
  { unfold channelToken. simpl.
    change ("#" ++ id ++ ">") with (String "#" (id ++ ">")).
    pose proof (replaceAll_plain "@&" repl ("#" ++ id ++ ">") post) as H.
    simpl in H. rewrite append_assoc in H. fold re in H. simpl. rewrite append_assoc.
    rewrite H; [now destruct (replaceAll re repl 0 post)|].
    rewrite avoidsOpen_append, (allDigits_avoidsOpen id id_digits). reflexivity. }
  assert (Hall : replaceAll re repl 0 (pre ++ channelToken id ++ post)
                 = appendResults (replaceAll re repl 0 pre)
                     (replaceAll re repl 0 (channelToken id ++ post))).
  { apply (replaceAll_append re repl (matchToken_sound _)); [|apply Nat.le_0_l].
    intros x Hx. unfold channelToken. simpl. now apply matchToken_boundary. }
  pose proof (replaceAll_total re repl Htotal pre 0) as Hpre.
  pose proof (replaceAll_total re repl Htotal post 0) as Hpost.
  rewrite Hall, Hrest.
  destruct (replaceAll re repl 0 pre) as [p|]; [|congruence].
  destruct (replaceAll re repl 0 post) as [q|]; [|congruence].
  exists p, q. repeat split.
Qed.

Lemma channel_token_normalized (new : string) :
  Discord.channelName d (channelToken id) = Some new ->
  normalizesTokenTo d message pre (channelToken id) post new.
Proof.
  intros Hnew. split; [now apply channel_pass_rewrites|].
  destruct role_pass_keeps_channel_token as (p & q & Hp & Hq & Hr).
  unfold rewritesTokenTo, rolePassThenChannelPass. rewrite Hp, Hq, Hr.
  apply (rewritesTokenTo_intro "#" id p q); try assumption; try reflexivity.
  now apply channelName_total.
Qed.

End ChannelToken.

(** C5, as amended.  A channel-mention token in the text given to the
    channel pass, or to the two passes in the order of [Message], is
    replaced by "#" and the name of the channel returned by the first
    shard, in index order, whose cache resolves the id; if the client has
    at least one shard and the id is absent from the cache of every shard,
    the token is left unchanged. *)
Theorem replaceChannelNames_token (d : Discord.t) (message : discordgo.Message.t)
    (pre id post : string) :
  allDigits id = true ->
  (forall i s c,
      firstSuccess (fun s => State.Channel (Session.State s) id) (Discord.Sessions d) i s ->
      State.channelMap (Session.State s) id = Some c ->
      normalizesTokenTo d message
        pre (channelToken id) post ("#" ++ discordgo.Channel.Name c))
  /\ (Discord.Sessions d <> [] ->
      (forall s, In s (Discord.Sessions d) ->
                 State.channelMap (Session.State s) id = None) ->
      normalizesTokenTo d message
        pre (channelToken id) post (channelToken id)).
Proof.
  intros Hid. split.
  - intros i s c Hfirst Hc.
    apply channel_token_normalized; try assumption.
    + exact (firstSuccess_nonempty _ _ _ _ Hfirst).
    + unfold Discord.channelName. rewrite slice_channelToken.
      rewrite (Channel_first_success d id i s Hfirst).
      unfold State.Channel. now rewrite Hc.
  - intros Hne Hall.
    apply channel_token_normalized; try assumption.
    unfold Discord.channelName. rewrite slice_channelToken.
    rewrite (Channel_not_found d id Hne); [reflexivity|].
    intros s Hs. unfold State.Channel. now rewrite (Hall s Hs).
Qed.

Lemma replaceChannelNames_token_witness :
  (Discord.replaceChannelNames Sample.dEA Sample.hello "see <#2> now"
   = Some "see #general now"
   /\ rolePassThenChannelPass Sample.dEA Sample.hello "see <#2> now"
      = Some "see #general now")
  /\ (Discord.replaceChannelNames Sample.dE Sample.hello "see <#2> now"
      = Some "see <#2> now"
      /\ rolePassThenChannelPass Sample.dE Sample.hello "see <#2> now"
         = Some "see <#2> now").
Proof.
  split.
  - destruct (replaceChannelNames_token Sample.dEA Sample.hello "see " "2" " now" eq_refl)
      as [H _].
    destruct (H 1 Sample.sA Sample.general) as [H1 H2].
    + repeat split. intros j s' Hj Hs'. destruct j as [|j]; [|lia].
      inversion Hs'; subst s'. discriminate.
    + reflexivity.
    + split; [read_rewrite H1 | read_rewrite H2]; exact Hr.
  - destruct (replaceChannelNames_token Sample.dE Sample.hello "see " "2" " now" eq_refl)
      as [_ H].
    destruct H as [H1 H2].
    + discriminate.
    + intros s [<-|[]]. reflexivity.
    + split; [read_rewrite H1 | read_rewrite H2]; exact Hr.
Defined.

(** C5, as the specification words it, fails twice: two shards may cache
    one channel id under different names, and then the name of the
    earlier shard is written, not that of "some" shard; and on a client
    without shards the id is absent from every cache, yet the callback
    dereferences the nil channel instead of keeping the token. *)
Lemma replaceChannelNames_token_not_as_specified :
  ~ spec_channel_token Sample.dAB Sample.hello "" "2" ""
  /\ ~ spec_channel_token Sample.dNone Sample.hello "" "2" ""
  /\ Discord.replaceChannelNames Sample.dAB Sample.hello "<#2>" = Some "#general"
  /\ State.channelMap Sample.stateB "2" = Some Sample.lobby
  /\ Discord.replaceChannelNames Sample.dNone Sample.hello "<#2>" = None.
Proof.
  split; [|split; [|repeat split]].
  - intros [H _].
    destruct (H Sample.sB Sample.lobby) as (p & q & Hp & Hq & Hr).
    + right; left; reflexivity.
    + reflexivity.
    + vm_compute in Hp, Hq, Hr. inversion Hp; inversion Hq; subst p q.
      discriminate Hr.
  - intros [_ H].
    destruct H as (p & q & Hp & Hq & Hr).
    + intros s [].
    + vm_compute in Hr. discriminate Hr.
Qed.

Lemma scanRoles_first (roles : list discordgo.Role.t) (id : string)
    (r : discordgo.Role.t) :
  Discord.scanRoles roles id = Some r
  <-> exists before after,
        roles = (before ++ r :: after)%list
        /\ discordgo.Role.ID r = id
        /\ forall r', In r' before -> discordgo.Role.ID r' <> id.
Proof.
  induction roles as [|r0 rest IH]; simpl.
  - split; [discriminate|]. intros (before & after & H & _). now destruct before.
  - destruct (String.eqb_spec (discordgo.Role.ID r0) id) as [E|E].
    + split.
      * intros H; inversion H; subst r0. exists [], rest. repeat split; auto.
      * intros (before & after & H & Hr & Hb). destruct before as [|b0 before].
        -- now inversion H.
        -- inversion H; subst b0. exfalso. apply (Hb r0); [now left | exact E].
    + rewrite IH. split.
      * intros (before & after & -> & Hr & Hb). exists (r0 :: before), after.
        repeat split; auto. intros r' [<-|Hr']; auto.
      * intros (before & after & H & Hr & Hb). destruct before as [|b0 before].
        -- inversion H; subst r0. contradiction.
        -- inversion H; subst b0 rest. exists before, after. repeat split; auto.
           intros r' Hr'. apply Hb. now right.
Qed.

Lemma scanRoles_none (roles : list discordgo.Role.t) (id : string) :
  (forall r, In r roles -> discordgo.Role.ID r <> id) ->
  Discord.scanRoles roles id = None.
Proof.
  induction roles as [|r0 rest IH]; intros H; simpl; [reflexivity|].
  destruct (String.eqb_spec (discordgo.Role.ID r0) id) as [E|E].
  - exfalso. apply (H r0); [now left | exact E].
  - apply IH. intros r Hr. apply H. now right.
Qed.

Lemma Channel_answer_nonempty (d : Discord.t) (id : string) x y :
  Discord.Channel d id = (x, y) -> x <> None \/ y <> None -> Discord.Sessions d <> [].
Proof.
  intros H Hxy E. unfold Discord.Channel in H. rewrite E in H. simpl in H.
  inversion H; subst. destruct Hxy; congruence.
Qed.

Lemma spanDigits_boundary_char (c : ascii) (y r : string) :
  isDigit c = false ->
  spanDigits (y ++ String c r)
  = (fst (spanDigits y), snd (spanDigits y) ++ String c r).
Proof.
  intros Hc. induction y as [|a y IH]; simpl.
  - now rewrite Hc.
  - destruct (isDigit a); [|reflexivity].
    rewrite IH. now destruct (spanDigits y).
Qed.

(** An attempt of the channel pattern that starts inside [x] never
    reaches over a following "@". *)
Lemma matchToken_channel_at (x r : string) :
  x <> "" ->
  matchToken "<#" (x ++ String "@" r) = onRest (String "@" r) (matchToken "<#" x).
Proof.
  intros Hx. destruct x as [|c x]; [congruence|].
  unfold matchToken. cbn [stripPrefix append].
  destruct (Ascii.eqb "<" c); [|reflexivity].
  destruct x as [|c2 x]; cbn [stripPrefix append]; [reflexivity|].
  destruct (Ascii.eqb "#" c2); [|reflexivity].
  rewrite spanDigits_boundary_char by reflexivity.
  destruct (spanDigits x) as [ds r']; simpl.
  destruct r' as [|e r']; simpl; [reflexivity|].
  destruct (Ascii.eqb e ">"); reflexivity.
Qed.

Section RoleToken.

Variables (d : Discord.t) (message : discordgo.Message.t).
Hypothesis some_shard : Discord.Sessions d <> [].

(** The channel pass steps over a role mention. *)
Lemma channel_pass_keeps_role_token (p id q : string) :
  allDigits id = true ->
  rewritesTokenTo (Discord.replaceChannelNames d message)
    p (roleToken id) q (roleToken id).
Proof.
  intros id_digits.
  unfold rewritesTokenTo, Discord.replaceChannelNames, ReplaceAllStringFunc,
    channelIDRegex.
  set (re := matchToken "<#"). set (repl := Discord.channelName d).
  assert (Htotal : forall str, repl str <> None)
    by (now apply channelName_total).
  assert (Hrest : replaceAll re repl 0 (roleToken id ++ q)
                  = appendResults (Some (roleToken id)) (replaceAll re repl 0 q)).
  { unfold roleToken. simpl.
    pose proof (replaceAll_plain "#" repl ("@&" ++ id ++ ">") q) as H.
    simpl in H. rewrite append_assoc in H. fold re in H. simpl. rewrite append_assoc.
    rewrite H; [now destruct (replaceAll re repl 0 q)|].
    rewrite avoidsOpen_append, (allDigits_avoidsOpen id id_digits). reflexivity. }
  assert (Hall : replaceAll re repl 0 (p ++ roleToken id ++ q)
                 = appendResults (replaceAll re repl 0 p)
                     (replaceAll re repl 0 (roleToken id ++ q))).
  { apply (replaceAll_append re repl (matchToken_sound _)); [|apply Nat.le_0_l].
    intros x Hx. unfold roleToken. simpl. now apply matchToken_boundary. }
  pose proof (replaceAll_total re repl Htotal p 0) as Hp.
  pose proof (replaceAll_total re repl Htotal q 0) as Hq.
  rewrite Hall, Hrest.
  destruct (replaceAll re repl 0 p) as [p'|]; [|congruence].
  destruct (replaceAll re repl 0 q) as [q'|]; [|congruence].
  exists p', q'. repeat split.
Qed.

(** The channel pass steps over "@" and a role name without "<". *)
Lemma channel_pass_keeps_role_name (p name q : string) :
  avoidsOpen name = true ->
  rewritesTokenTo (Discord.replaceChannelNames d message)
    p ("@" ++ name) q ("@" ++ name).
Proof.
  intros Hname.
  unfold rewritesTokenTo, Discord.replaceChannelNames, ReplaceAllStringFunc,
    channelIDRegex.
  set (re := matchToken "<#"). set (repl := Discord.channelName d).
  assert (Htotal : forall str, repl str <> None)
    by (now apply channelName_total).
  assert (Hrest : replaceAll re repl 0 (("@" ++ name) ++ q)
                  = appendResults (Some ("@" ++ name)) (replaceAll re repl 0 q)).
  { apply (replaceAll_plain "#" repl ("@" ++ name) q). simpl. exact Hname. }
  assert (Hall : replaceAll re repl 0 (p ++ ("@" ++ name) ++ q)
                 = appendResults (replaceAll re repl 0 p)
                     (replaceAll re repl 0 (("@" ++ name) ++ q))).
  { apply (replaceAll_append re repl (matchToken_sound _)); [|apply Nat.le_0_l].
    intros x Hx. simpl. now apply matchToken_channel_at. }
  pose proof (replaceAll_total re repl Htotal p 0) as Hp.
  pose proof (replaceAll_total re repl Htotal q 0) as Hq.
  rewrite Hall, Hrest.
  destruct (replaceAll re repl 0 p) as [p'|]; [|congruence].
  destruct (replaceAll re repl 0 q) as [q'|]; [|congruence].
  exists p', q'. repeat split.
Qed.

(** What the role pass writes in place of a token, and the channel pass
    steps over, stands in the normalized text. *)
Lemma both_passes_rewrite (pre tok post new : string) :
  rewritesTokenTo (Discord.replaceRoleNames d message) pre tok post new ->
  (forall p q, rewritesTokenTo (Discord.replaceChannelNames d message) p new q new) ->
  rewritesTokenTo (rolePassThenChannelPass d message) pre tok post new.
Proof.
  intros (p & q & Hp & Hq & Hr) Hkeep.
  destruct (Hkeep p q) as (p' & q' & Hp' & Hq' & Hr').
  exists p', q'. unfold rolePassThenChannelPass. rewrite Hp, Hq, Hr. auto.
Qed.

Lemma role_pass_rewrites (pre id post new : string) :
  allDigits id = true ->
  Discord.roleName d message (roleToken id) = Some new ->
  rewritesTokenTo (Discord.replaceRoleNames d message) pre (roleToken id) post new.
Proof.
  intros Hid Hnew.
  apply (rewritesTokenTo_intro "@&" id pre post); try assumption; try reflexivity.
  now apply roleName_total.
Qed.

(** A token that the callback hands back stays through both passes. *)
Lemma role_token_kept (pre id post : string) :
  allDigits id = true ->
  Discord.roleName d message (roleToken id) = Some (roleToken id) ->
  roleTokenBecomes d message pre id post (roleToken id).
Proof.
  intros Hid Hnew. split; [now apply role_pass_rewrites|].
  apply both_passes_rewrite; [now apply role_pass_rewrites|].
  intros p q. now apply channel_pass_keeps_role_token.
Qed.

End RoleToken.

(** C6, as amended.  A role-mention token in the text given to the role
    pass, on a client with at least one shard: the role pass resolves the
    channel of the message, then the guild of that channel, then scans the
    role list of the guild from its head for a role with the id of the
    token.  The first such role makes the role pass write "@" and its
    name in place of the token, and the normalized text, on which the
    channel pass has run as well, holds the same when the name has no "<"
    in it.  When the channel lookup or the guild lookup returns an error
    (no shard caches the key) or no role has the id, the token is left
    unchanged by the role pass and in the normalized text. *)
Theorem replaceRoleNames_token (d : Discord.t) (message : discordgo.Message.t)
    (pre id post : string) :
  allDigits id = true ->
  let resolved := Discord.Channel d (discordgo.Message.ChannelID message) in
  let kept := roleTokenBecomes d message pre id post (roleToken id) in
  (forall c g before r after,
      resolved = (Some c, None) ->
      Discord.Guild d (discordgo.Channel.GuildID c) = (Some g, None) ->
      discordgo.Guild.Roles g = (before ++ r :: after)%list ->
      discordgo.Role.ID r = id ->
      (forall r', In r' before -> discordgo.Role.ID r' <> id) ->
      rewritesTokenTo (Discord.replaceRoleNames d message)
        pre (roleToken id) post ("@" ++ discordgo.Role.Name r)
      /\ (avoidsOpen (discordgo.Role.Name r) = true ->
          rewritesTokenTo (rolePassThenChannelPass d message)
            pre (roleToken id) post ("@" ++ discordgo.Role.Name r)))
  /\ (forall x e, resolved = (x, Some e) -> kept)
  /\ (Discord.Sessions d <> [] ->
      (forall s, In s (Discord.Sessions d) ->
                 State.channelMap (Session.State s)
                   (discordgo.Message.ChannelID message) = None) ->
      kept)
  /\ (forall c x e,
      resolved = (Some c, None) ->
      Discord.Guild d (discordgo.Channel.GuildID c) = (x, Some e) ->
      kept)
  /\ (forall c,
      resolved = (Some c, None) ->
      (forall s, In s (Discord.Sessions d) ->
                 State.guildMap (Session.State s) (discordgo.Channel.GuildID c) = None) ->
      kept)
  /\ (forall c g,
      resolved = (Some c, None) ->
      Discord.Guild d (discordgo.Channel.GuildID c) = (Some g, None) ->
      (forall r, In r (discordgo.Guild.Roles g) -> discordgo.Role.ID r <> id) ->
      kept).
Proof.
  intros Hid resolved kept. subst resolved kept.
  assert (Hchannel : forall x e,
             Discord.Channel d (discordgo.Message.ChannelID message) = (x, Some e) ->
             roleTokenBecomes d message pre id post (roleToken id)).
  { intros x e Hc. apply role_token_kept; try assumption.
    - eapply Channel_answer_nonempty; [exact Hc | right; discriminate].
    - unfold Discord.roleName. rewrite Hc. now destruct x. }
  assert (Hguild : forall c x e,
             Discord.Channel d (discordgo.Message.ChannelID message) = (Some c, None) ->
             Discord.Guild d (discordgo.Channel.GuildID c) = (x, Some e) ->
             roleTokenBecomes d message pre id post (roleToken id)).
  { intros c x e Hc Hg. apply role_token_kept; try assumption.
    - eapply Channel_answer_nonempty; [exact Hc | left; discriminate].
    - unfold Discord.roleName. rewrite Hc, Hg. now destruct x. }
  split; [|split; [|split; [|split; [|split]]]].
  - intros c g before r after Hc Hg Hroles Hr Hb.
    assert (Hne : Discord.Sessions d <> [])
      by (eapply Channel_answer_nonempty; [exact Hc | left; discriminate]).
    assert (Hrole : rewritesTokenTo (Discord.replaceRoleNames d message)
                      pre (roleToken id) post ("@" ++ discordgo.Role.Name r)).
    { apply role_pass_rewrites; try assumption.
      unfold Discord.roleName. rewrite slice_roleToken, Hc, Hg.
      assert (Hscan : Discord.scanRoles (discordgo.Guild.Roles g) id = Some r)
        by (apply scanRoles_first; eauto).
      now rewrite Hscan. }
    split; [exact Hrole|]. intros Hname.
    apply both_passes_rewrite; [exact Hrole|].
    intros p q. now apply channel_pass_keeps_role_name.
  - exact Hchannel.
  - intros Hne Hall.
    apply (Hchannel None ErrStateNotFound).
    apply (Channel_not_found d _ Hne).
    intros s Hs. unfold State.Channel. now rewrite (Hall s Hs).
  - exact Hguild.
  - intros c Hc Hall.
    assert (Hne : Discord.Sessions d <> [])
      by (eapply Channel_answer_nonempty; [exact Hc | left; discriminate]).
    apply (Hguild c None ErrStateNotFound Hc).
    apply (Guild_not_found d _ Hne).
    intros s Hs. unfold State.Guild. now rewrite (Hall s Hs).
  - intros c g Hc Hg Hnone. apply role_token_kept; try assumption.
    + eapply Channel_answer_nonempty; [exact Hc | left; discriminate].
    + unfold Discord.roleName. rewrite slice_roleToken, Hc, Hg.
      now rewrite (scanRoles_none _ _ Hnone).
Qed.

Lemma replaceRoleNames_token_witness :
  (Discord.replaceRoleNames Sample.dA Sample.hello "hi <@&7>!" = Some "hi @Admins!"
   /\ rolePassThenChannelPass Sample.dA Sample.hello "hi <@&7>!" = Some "hi @Admins!")
  /\ (Discord.replaceRoleNames Sample.dA Sample.elsewhere "hi <@&7>!" = Some "hi <@&7>!"
      /\ rolePassThenChannelPass Sample.dA Sample.elsewhere "hi <@&7>!"
         = Some "hi <@&7>!")
  /\ (Discord.replaceRoleNames Sample.dE Sample.hello "hi <@&7>!" = Some "hi <@&7>!"
      /\ rolePassThenChannelPass Sample.dE Sample.hello "hi <@&7>!" = Some "hi <@&7>!")
  /\ (Discord.replaceRoleNames Sample.dB Sample.inLobby "hi <@&7>!" = Some "hi <@&7>!"
      /\ rolePassThenChannelPass Sample.dB Sample.inLobby "hi <@&7>!"
         = Some "hi <@&7>!")
  /\ (Discord.replaceRoleNames Sample.dA Sample.hello "hi <@&9>!" = Some "hi <@&9>!"
      /\ rolePassThenChannelPass Sample.dA Sample.hello "hi <@&9>!" = Some "hi <@&9>!").
Proof.
  split; [|split; [|split; [|split]]].
  - destruct (replaceRoleNames_token Sample.dA Sample.hello "hi " "7" "!" eq_refl)
      as [H _].
    specialize (H Sample.chat Sample.guild1
                  [discordgo.Role.mk "1" "<#2>"] (discordgo.Role.mk "7" "Admins") []
                  eq_refl eq_refl eq_refl eq_refl).
    assert (Hb : forall r', In r' [discordgo.Role.mk "1" "<#2>"] ->
                            discordgo.Role.ID r' <> "7")
      by (intros r' [<-|[]]; discriminate).
    destruct (H Hb) as [H1 H2]. specialize (H2 eq_refl).
    split; [read_rewrite H1 | read_rewrite H2]; exact Hr.
  - destruct (replaceRoleNames_token Sample.dA Sample.elsewhere "hi " "7" "!" eq_refl)
      as (_ & H & _).
    destruct (H None ErrStateNotFound eq_refl) as [H1 H2].
    split; [read_rewrite H1 | read_rewrite H2]; exact Hr.
  - destruct (replaceRoleNames_token Sample.dE Sample.hello "hi " "7" "!" eq_refl)
      as (_ & _ & H & _).
    destruct H as [H1 H2]; [discriminate | intros s [<-|[]]; reflexivity |].
    split; [read_rewrite H1 | read_rewrite H2]; exact Hr.
  - destruct (replaceRoleNames_token Sample.dB Sample.inLobby "hi " "7" "!" eq_refl)
      as (_ & _ & _ & _ & H & _).
    destruct (H Sample.lobby eq_refl) as [H1 H2]; [intros s [<-|[]]; reflexivity|].
    split; [read_rewrite H1 | read_rewrite H2]; exact Hr.
  - destruct (replaceRoleNames_token Sample.dA Sample.hello "hi " "9" "!" eq_refl)
      as (_ & _ & _ & _ & _ & H).
    assert (Hnone : forall r, In r (discordgo.Guild.Roles Sample.guild1) ->
                              discordgo.Role.ID r <> "9")
      by (intros r [<-|[<-|[]]]; discriminate).
    destruct (H Sample.chat Sample.guild1 eq_refl eq_refl Hnone) as [H1 H2].
    split; [read_rewrite H1 | read_rewrite H2]; exact Hr.
Defined.

(** C6, as the specification words it, fails twice: a role whose name
    reads like a channel mention is written by the role pass and then
    rewritten by the channel pass, so that the normalized text does not
    hold "@" and the role name; and on a client without shards the
    channel is missing from every cache, yet the callback dereferences
    the nil channel instead of keeping the token. *)
Lemma replaceRoleNames_token_not_as_specified :
  ~ spec_role_token Sample.dA Sample.roleNamedLikeChannel "" "1" ""
  /\ ~ spec_role_token Sample.dNone Sample.hello "" "7" ""
  /\ rolePassThenChannelPass Sample.dA Sample.roleNamedLikeChannel "<@&1>"
     = Some "@#general"
  /\ Discord.replaceRoleNames Sample.dNone Sample.hello "<@&7>" = None
  /\ rolePassThenChannelPass Sample.dNone Sample.hello "<@&7>" = None.
Proof.
  split; [|split; [|repeat split]].
  - intros [H _].
    destruct (H Sample.chat Sample.guild1 (discordgo.Role.mk "1" "<#2>")
                eq_refl eq_refl eq_refl) as (p & q & Hp & Hq & Hr).
    vm_compute in Hp, Hq, Hr. inversion Hp; inversion Hq; subst p q.
    discriminate Hr.
  - intros (_ & H & _).
    destruct H as (p & q & Hp & Hq & Hr).
    + intros s [].
    + vm_compute in Hr. discriminate Hr.
Qed.

(** ** The envelope and its two caches *)

Section Envelope.

Variable ContentWithMentionsReplaced : discordgo.Message.t -> string.

Lemma Message_sets_cache d m v m' :
  DiscordMessage.Message ContentWithMentionsReplaced d m = Some (v, m') ->
  DiscordMessage.Content m' = Some v
  /\ DiscordMessage.DiscordgoMessage m' = DiscordMessage.DiscordgoMessage m
  /\ DiscordMessage.MessageType m' = DiscordMessage.MessageType m
  /\ DiscordMessage.Nick m' = DiscordMessage.Nick m.
Proof.
  unfold DiscordMessage.Message.
  destruct (DiscordMessage.Content m) as [c|] eqn:E.
  - intros H; inversion H; subst. auto.
  - destruct (Discord.replaceRoleNames _ _ _) as [c1|]; [|discriminate].
    destruct (Discord.replaceChannelNames _ _ _) as [c2|]; [|discriminate].
    intros H; inversion H; subst. simpl. auto.
Qed.

Lemma Message_cached d m v :
  DiscordMessage.Content m = Some v ->
  DiscordMessage.Message ContentWithMentionsReplaced d m = Some (v, m).
Proof. intros H. unfold DiscordMessage.Message. now rewrite H. Qed.

Lemma UserName_keeps d m v m' :
  DiscordMessage.UserName d m = Some (v, m') ->
  DiscordMessage.Content m' = DiscordMessage.Content m
  /\ DiscordMessage.DiscordgoMessage m' = DiscordMessage.DiscordgoMessage m
  /\ DiscordMessage.MessageType m' = DiscordMessage.MessageType m.
Proof.
  unfold DiscordMessage.UserName.
  destruct (discordgo.Message.Author _) as [a|].
  - destruct (DiscordMessage.Nick m) as [n|].
    + intros H; inversion H; subst. auto.
    + destruct (Discord.NicknameForID _ _ _ _) as [n|]; [|discriminate].
      intros H; inversion H; subst. simpl. auto.
  - intros H; inversion H; subst. auto.
Qed.

Lemma UserName_pins d m v m' :
  DiscordMessage.UserName d m = Some (v, m') -> namePinned v m'.
Proof.
  unfold DiscordMessage.UserName, namePinned.
  destruct (discordgo.Message.Author (DiscordMessage.DiscordgoMessage m))
    as [a|] eqn:Ea.
  - destruct (DiscordMessage.Nick m) as [n|] eqn:En.
    + intros H; inversion H; subst. right. rewrite Ea. split; [discriminate | exact En].
    + destruct (Discord.NicknameForID _ _ _ _) as [n|]; [|discriminate].
      intros H; inversion H; subst. simpl. right. rewrite Ea.
      split; [discriminate | reflexivity].
  - intros H; inversion H; subst. left. auto.
Qed.

Lemma UserName_pinned d m v :
  namePinned v m -> DiscordMessage.UserName d m = Some (v, m).
Proof.
  unfold DiscordMessage.UserName.
  intros [[Ha ->]|[Ha Hn]].
  - now rewrite Ha.
  - destruct (discordgo.Message.Author _); [|congruence]. now rewrite Hn.
Qed.

Lemma accessed_keeps_content m m' v :
  accessed ContentWithMentionsReplaced m m' ->
  DiscordMessage.Content m = Some v -> DiscordMessage.Content m' = Some v.
Proof.
  intros [d m0 w m0' H | d m0 w m0' H] Hv.
  - apply UserName_keeps in H as (-> & _). exact Hv.
  - rewrite (Message_cached d m0 v Hv) in H.
    inversion H; subst. exact Hv.
Qed.

Lemma accessed_keeps_name m m' v :
  accessed ContentWithMentionsReplaced m m' -> namePinned v m -> namePinned v m'.
Proof.
  intros [d m0 w m0' H | d m0 w m0' H] Hv.
  - rewrite (UserName_pinned d m0 v Hv) in H. inversion H; subst. exact Hv.
  - apply Message_sets_cache in H as (_ & Hm & _ & Hn).
    unfold namePinned in *. now rewrite Hm, Hn.
Qed.

Lemma later_keeps_content m m' v :
  later ContentWithMentionsReplaced m m' ->
  DiscordMessage.Content m = Some v -> DiscordMessage.Content m' = Some v.
Proof.
  induction 1 as [m m' H | m | m k m' _ IH1 _ IH2]; intros Hv.
  - exact (accessed_keeps_content _ _ _ H Hv).
  - exact Hv.
  - auto.
Qed.

Lemma later_keeps_name m m' v :
  later ContentWithMentionsReplaced m m' -> namePinned v m -> namePinned v m'.
Proof.
  induction 1 as [m m' H | m | m k m' _ IH1 _ IH2]; intros Hv.
  - exact (accessed_keeps_name _ _ _ H Hv).
  - exact Hv.
  - auto.
Qed.

End Envelope.

(** C2, as amended.  When the normalized content of an envelope is first
    computed, the passes run unconditionally in this order: the library
    spells out the user mentions, then the role-mention pass runs, then
    the channel-mention pass runs on its output; the result is what the
    accessor returns and what it stores in the cache. *)
Theorem Message_first_computation
    (ContentWithMentionsReplaced : discordgo.Message.t -> string)
    (d : Discord.t) (m : DiscordMessage.t) :
  DiscordMessage.Content m = None ->
  let message := DiscordMessage.DiscordgoMessage m in
  option_map fst (DiscordMessage.Message ContentWithMentionsReplaced d m)
  = rolePassThenChannelPass d message (ContentWithMentionsReplaced message)
  /\ option_map snd (DiscordMessage.Message ContentWithMentionsReplaced d m)
     = option_map
         (fun c => DiscordMessage.mk message (DiscordMessage.MessageType m)
                     (DiscordMessage.Nick m) (Some c))
         (rolePassThenChannelPass d message (ContentWithMentionsReplaced message)).
Proof.
  intros Hc message. subst message.
  unfold DiscordMessage.Message, rolePassThenChannelPass. rewrite Hc.
  destruct (Discord.replaceRoleNames _ _ _) as [c1|]; [|split; reflexivity].
  destruct (Discord.replaceChannelNames _ _ _) as [c2|]; split; reflexivity.
Qed.

Lemma Message_first_computation_witness :
  option_map fst
    (DiscordMessage.Message Sample.ContentWithMentionsReplaced Sample.dA
       (Sample.envelope Sample.hello))
  = Some "see #general and @Admins".
Proof.
  destruct (Message_first_computation Sample.ContentWithMentionsReplaced Sample.dA
              (Sample.envelope Sample.hello) eq_refl) as [H _].
  rewrite H. reflexivity.
Defined.

(** C2, as the specification words it, fails: a role whose name reads like
    a channel mention is rewritten to the channel's name, which only the
    order role pass, channel pass produces; and a user mention is spelled
    out although neither pass of the specification touches it. *)
Lemma Message_order_not_as_specified :
  ~ spec_Message_order Sample.ContentWithMentionsReplaced Sample.dA
      (Sample.envelope Sample.roleNamedLikeChannel)
  /\ ~ spec_Message_order Sample.ContentWithMentionsReplaced Sample.dA
         (Sample.envelope Sample.greeting)
  /\ option_map fst
       (DiscordMessage.Message Sample.ContentWithMentionsReplaced Sample.dA
          (Sample.envelope Sample.roleNamedLikeChannel)) = Some "@#general"
  /\ spec_normalized Sample.dA Sample.roleNamedLikeChannel "<@&1>" = Some "@<#2>"
  /\ option_map fst
       (DiscordMessage.Message Sample.ContentWithMentionsReplaced Sample.dA
          (Sample.envelope Sample.greeting)) = Some "hi @alice"
  /\ spec_normalized Sample.dA Sample.greeting "hi <@u1>" = Some "hi <@u1>".
Proof.
  split; [|split; [|repeat split]].
  - intros H. specialize (H eq_refl). vm_compute in H. discriminate H.
  - intros H. specialize (H eq_refl). vm_compute in H. discriminate H.
Qed.

(** C4.  Once the normalized content of an envelope has been computed,
    every later call of [Message] returns that same value and leaves the
    envelope as it is, whatever the client's caches hold by then and
    whichever accessors were used in between; likewise for the display
    name and [UserName]. *)
Theorem caches_are_stable
    (ContentWithMentionsReplaced : discordgo.Message.t -> string)
    (d : Discord.t) (m : DiscordMessage.t) (v : string) (m1 : DiscordMessage.t) :
  (DiscordMessage.Message ContentWithMentionsReplaced d m = Some (v, m1) ->
   forall m2, later ContentWithMentionsReplaced m1 m2 ->
   forall d', DiscordMessage.Message ContentWithMentionsReplaced d' m2 = Some (v, m2))
  /\ (DiscordMessage.UserName d m = Some (v, m1) ->
      forall m2, later ContentWithMentionsReplaced m1 m2 ->
      forall d', DiscordMessage.UserName d' m2 = Some (v, m2)).
Proof.
  split.
  - intros H m2 Hlater d'. apply Message_cached.
    apply (later_keeps_content _ _ _ _ Hlater).
    now apply Message_sets_cache in H.
  - intros H m2 Hlater d'. apply UserName_pinned.
    apply (later_keeps_name _ _ _ _ Hlater).
    exact (UserName_pins _ _ _ _ H).
Qed.

Lemma caches_are_stable_witness :
  DiscordMessage.Message Sample.ContentWithMentionsReplaced Sample.dNone Sample.helloBoth
  = Some ("see #general and @Admins", Sample.helloBoth)
  /\ DiscordMessage.UserName Sample.dNone Sample.helloBoth
     = Some ("Al", Sample.helloBoth).
Proof.
  split.
  - destruct (caches_are_stable Sample.ContentWithMentionsReplaced Sample.dA
                (Sample.envelope Sample.hello) "see #general and @Admins"
                Sample.helloRead) as [H _].
    apply (H eq_refl). apply rt_step.
    apply (accessed_UserName _ Sample.dA Sample.helloRead "Al"). reflexivity.
  - destruct (caches_are_stable Sample.ContentWithMentionsReplaced Sample.dA
                (Sample.envelope Sample.hello) "Al" Sample.helloNamed) as [_ H].
    apply (H eq_refl). apply rt_step.
    apply (accessed_Message _ Sample.dA Sample.helloNamed "see #general and @Admins").
    reflexivity.
Defined.

(** C10.  For an envelope whose event carries no author, [UserName],
    [UserID] and [UserAvatar] return the empty string without failing,
    and [UserName] leaves the envelope, and so the display-name cache,
    as it was. *)
Theorem accessors_without_author
    (EndpointUserAvatar : string -> string -> string)
    (d : Discord.t) (m : DiscordMessage.t) :
  discordgo.Message.Author (DiscordMessage.DiscordgoMessage m) = None ->
  DiscordMessage.UserName d m = Some ("", m)
  /\ DiscordMessage.UserID m = ""
  /\ DiscordMessage.UserAvatar EndpointUserAvatar m = "".
Proof.
  intros H.
  unfold DiscordMessage.UserName, DiscordMessage.UserID, DiscordMessage.UserAvatar.
  rewrite H. auto.
Qed.

Lemma accessors_without_author_witness :
  let m := DiscordMessage.mk Sample.deleted MessageTypeDelete None None in
  DiscordMessage.UserName Sample.dNone m = Some ("", m)
  /\ DiscordMessage.UserID m = ""
  /\ DiscordMessage.UserAvatar Sample.EndpointUserAvatar m = "".
Proof.
  intros m.
  exact (accessors_without_author Sample.EndpointUserAvatar Sample.dNone m eq_refl).
Defined.

(** ** The event handlers *)

(** The filter of the creation and update handlers is exact: an event
    that is neither empty nor written by an automated account is pushed. *)
Lemma handlers_push_the_rest (messageChan : list DiscordMessage.t)
    (message : discordgo.Message.t) :
  discordgo.Message.Content message <> "" ->
  (forall author, discordgo.Message.Author message = Some author ->
                  discordgo.User.Bot author = false) ->
  onMessageCreate messageChan message
  = (messageChan ++ [DiscordMessage.mk message MessageTypeCreate None None])%list
  /\ onMessageUpdate messageChan message
     = (messageChan ++ [DiscordMessage.mk message MessageTypeUpdate None None])%list.
Proof.
  intros Hc Ha. unfold onMessageCreate, onMessageUpdate.
  apply String.eqb_neq in Hc. rewrite Hc.
  destruct (discordgo.Message.Author message) as [a|]; [|auto].
  now rewrite (Ha a eq_refl).
Qed.

(** C3.  A creation or update event whose content is empty, or whose
    author is an automated account, is not pushed onto the queue; a
    deletion event is always pushed, whatever its content and author. *)
Theorem handlers_filter (messageChan : list DiscordMessage.t)
    (message : discordgo.Message.t) :
  (discordgo.Message.Content message = ""
   \/ (exists author, discordgo.Message.Author message = Some author
                      /\ discordgo.User.Bot author = true) ->
   onMessageCreate messageChan message = messageChan
   /\ onMessageUpdate messageChan message = messageChan)
  /\ onMessageDelete messageChan message
     = (messageChan ++ [DiscordMessage.mk message MessageTypeDelete None None])%list.
Proof.
  split; [|reflexivity].
  unfold onMessageCreate, onMessageUpdate.
  intros [Hc | (author & Ha & Hb)].
  - rewrite Hc. auto.
  - rewrite Ha, Hb, orb_true_r. auto.
Qed.

Lemma handlers_filter_witness :
  (onMessageCreate [] Sample.blank = [] /\ onMessageUpdate [] Sample.blank = [])
  /\ (onMessageCreate [] Sample.automated = []
      /\ onMessageUpdate [] Sample.automated = [])
  /\ onMessageDelete [] Sample.deleted
     = [DiscordMessage.mk Sample.deleted MessageTypeDelete None None].
Proof.
  split; [|split].
  - apply (handlers_filter [] Sample.blank). left. reflexivity.
  - apply (handlers_filter [] Sample.automated). right.
    exists Sample.bot. split; reflexivity.
  - apply (handlers_filter [] Sample.deleted).
Defined.

(** ** The send family *)

(** [SendMessage] on a channel with a name: one call, whose answer is
    returned. *)
Lemma SendMessage_sends (d : Discord.t) (channel message : string) (h : list Call) :
  channel <> "" ->
  Discord.SendMessage d channel message h
  = (Session.respond (Discord.Session d) h (ChannelMessageSend channel message),
     (h ++ [ChannelMessageSend channel message])%list).
Proof.
  intros Hc. unfold Discord.SendMessage. apply String.eqb_neq in Hc. rewrite Hc.
  unfold bind, Session.call, ret.
  now destruct (Session.respond _ _ _).
Qed.

(** The guard of the three operations that have one. *)
Lemma guarded_sends_skip_empty_channel (PermissionEmbedLinks : Z) (d : Discord.t)
    (message : string) (embed : discordgo.MessageEmbed.t) (h : list Call) :
  Discord.SendMessage d "" message h = (None, h)
  /\ Discord.SendEmbedMessage d "" embed h = (None, h)
  /\ Discord.SendAction PermissionEmbedLinks d "" message h = (None, h).
Proof. repeat split. Qed.

(** C1 fails for [SendFile], which has no guard: on the empty channel
    identifier it issues the call like on any other, and returns whatever
    the transport answers. *)
Theorem SendFile_empty_channel_reaches_transport :
  (forall d name r h,
      Discord.SendFile d "" name r h
      = (Session.respond (Discord.Session d) h (ChannelFileSend "" name r),
         (h ++ [ChannelFileSend "" name r])%list))
  /\ Discord.SendFile Sample.dA "" "notes.txt" "abc" []
     = (None, [ChannelFileSend "" "notes.txt" "abc"])
  /\ Discord.SendFile Sample.dRefusing "" "notes.txt" "abc" []
     = (Some (ErrTransport "400 Bad Request"), [ChannelFileSend "" "notes.txt" "abc"]).
Proof.
  repeat split. intros d name r h.
  unfold Discord.SendFile, bind, Session.call, ret.
  now destruct (Session.respond _ _ _).
Qed.

(** C7.  Smart send on a channel with a name: if the lookup of the acting
    user's permission bits returns an error, the text is sent plainly; if
    it succeeds and the embed-links bit is set, one embed is sent whose
    colour is [UserColor] of the acting user in the channel and whose
    description is the text; otherwise the text is sent plainly. *)
Theorem SendAction_policy (PermissionEmbedLinks : Z) (d : Discord.t)
    (channel message : string) (h : list Call) :
  channel <> "" ->
  let permissions := Discord.UserChannelPermissions d (Discord.UserID d) channel in
  let text := ChannelMessageSend channel message in
  let embed :=
    ChannelMessageSendEmbed channel
      (discordgo.MessageEmbed.mk (Discord.UserColor d (Discord.UserID d) channel)
         message) in
  (forall p e,
      permissions = (p, Some e) ->
      Discord.SendAction PermissionEmbedLinks d channel message h
      = (Session.respond (Discord.Session d) h text, (h ++ [text])%list))
  /\ (forall p,
      permissions = (p, None) ->
      Z.land p PermissionEmbedLinks = PermissionEmbedLinks ->
      Discord.SendAction PermissionEmbedLinks d channel message h
      = (Session.respond (Discord.Session d) h embed, (h ++ [embed])%list))
  /\ (forall p,
      permissions = (p, None) ->
      Z.land p PermissionEmbedLinks <> PermissionEmbedLinks ->
      Discord.SendAction PermissionEmbedLinks d channel message h
      = (Session.respond (Discord.Session d) h text, (h ++ [text])%list)).
Proof.
  intros Hc permissions text embed. subst permissions text embed.
  pose proof Hc as Hc'. apply String.eqb_neq in Hc'.
  unfold Discord.SendAction. rewrite Hc'. repeat split.
  - intros p e ->. now apply SendMessage_sends.
  - intros p -> Hp. apply Z.eqb_eq in Hp. rewrite Hp.
    unfold bind, Session.call, ret. now destruct (Session.respond _ _ _).
  - intros p -> Hp. apply Z.eqb_neq in Hp. rewrite Hp.
    now apply SendMessage_sends.
Qed.

Lemma SendAction_policy_witness :
  Discord.SendAction 16384 Sample.dE "c1" "waves" []
  = (None, [ChannelMessageSend "c1" "waves"])
  /\ Discord.SendAction 16384 Sample.dA "c1" "waves" []
     = (None, [ChannelMessageSendEmbed "c1" (discordgo.MessageEmbed.mk 255 "waves")])
  /\ Discord.SendAction 16384 Sample.dA "2" "waves" []
     = (None, [ChannelMessageSend "2" "waves"])
  /\ Discord.SendAction 16384 Sample.dNone "c1" "waves" []
     = (None, [ChannelMessageSend "c1" "waves"]).
Proof.
  assert (Hc1 : "c1" <> "") by discriminate.
  assert (Hc2 : "2" <> "") by discriminate.
  split; [|split; [|split]].
  - destruct (SendAction_policy 16384 Sample.dE "c1" "waves" [] Hc1) as [H _].
    exact (H 0%Z ErrStateNotFound eq_refl).
  - destruct (SendAction_policy 16384 Sample.dA "c1" "waves" [] Hc1) as (_ & H & _).
    exact (H 16384%Z eq_refl eq_refl).
  - destruct (SendAction_policy 16384 Sample.dA "2" "waves" [] Hc2) as [H _].
    exact (H 0%Z ErrStateNotFound eq_refl).
  - destruct (SendAction_policy 16384 Sample.dNone "c1" "waves" [] Hc1) as (_ & _ & H).
    apply (H 0%Z eq_refl). discriminate.
Defined.

(** * Further properties of the code *)

(** ** Colours and guilds across the shards *)

Lemma UserColor_loop_first (sessions : list Session.t) (u c : string) :
  forall i s,
    nth_error sessions i = Some s ->
    State.UserColor (Session.State s) u c <> 0%Z ->
    (forall j s', j < i -> nth_error sessions j = Some s' ->
                  State.UserColor (Session.State s') u c = 0%Z) ->
    Discord.UserColor_loop sessions u c = State.UserColor (Session.State s) u c.
Proof.
  induction sessions as [|s0 rest IH]; intros i s Hi Hs Hbefore.
  - destruct i; discriminate.
  - destruct i as [|i]; simpl in Hi |- *.
    + inversion Hi; subst s0. apply Z.eqb_neq in Hs. now rewrite Hs.
    + rewrite (Hbefore 0 s0 (Nat.lt_0_succ i) eq_refl). simpl.
      apply (IH i); try assumption.
      intros j s' Hj Hs'. apply (Hbefore (S j)); [lia | exact Hs'].
Qed.

Lemma UserColor_loop_nonzero (sessions : list Session.t) (u c : string) :
  Discord.UserColor_loop sessions u c <> 0%Z ->
  exists i s,
    nth_error sessions i = Some s
    /\ Discord.UserColor_loop sessions u c = State.UserColor (Session.State s) u c
    /\ forall j s', j < i -> nth_error sessions j = Some s' ->
                    State.UserColor (Session.State s') u c = 0%Z.
Proof.
  induction sessions as [|s0 rest IH]; simpl; [congruence|].
  destruct (Z.eqb_spec (State.UserColor (Session.State s0) u c) 0) as [E|E]; simpl.
  - intros H. destruct (IH H) as (i & s & Hi & Heq & Hbefore).
    exists (S i), s. repeat split; try assumption.
    intros j s' Hj Hs'. destruct j as [|j]; simpl in Hs'.
    + inversion Hs'; subst s'. exact E.
    + apply (Hbefore j); [lia | exact Hs'].
  - intros _. exists 0, s0. repeat split. intros j s' Hj. lia.
Qed.

(** [UserColor] returns the colour of the first shard, in index order,
    that reports a colour other than zero; and whenever its result is not
    zero, it is the colour of such a shard. *)
Theorem UserColor_first_nonzero (d : Discord.t) (u c : string) :
  (forall i s,
      nth_error (Discord.Sessions d) i = Some s ->
      State.UserColor (Session.State s) u c <> 0%Z ->
      (forall j s', j < i -> nth_error (Discord.Sessions d) j = Some s' ->
                    State.UserColor (Session.State s') u c = 0%Z) ->
      Discord.UserColor d u c = State.UserColor (Session.State s) u c)
  /\ (Discord.UserColor d u c <> 0%Z ->
      exists i s,
        nth_error (Discord.Sessions d) i = Some s
        /\ Discord.UserColor d u c = State.UserColor (Session.State s) u c
        /\ forall j s', j < i -> nth_error (Discord.Sessions d) j = Some s' ->
                        State.UserColor (Session.State s') u c = 0%Z).
Proof.
  split.
  - apply UserColor_loop_first.
  - apply UserColor_loop_nonzero.
Qed.

Lemma UserColor_first_nonzero_witness :
  Discord.UserColor Sample.dEA "bot" "c1" = 255%Z.
Proof.
  destruct (UserColor_first_nonzero Sample.dEA "bot" "c1") as [H _].
  apply (H 1 Sample.sA eq_refl).
  - discriminate.
  - intros j s' Hj Hs'. destruct j as [|j]; [|lia].
    inversion Hs'; subst s'. reflexivity.
Defined.

Lemma flat_map_position {A B : Type} (f : A -> list B) (l : list A) :
  forall i a k b,
    nth_error l i = Some a ->
    nth_error (f a) k = Some b ->
    nth_error (flat_map f l)
      (list_sum (map (fun x => List.length (f x)) (firstn i l)) + k) = Some b.
Proof.
  induction l as [|x rest IH]; intros i a k b Hi Hk.
  - destruct i; discriminate.
  - destruct i as [|i]; simpl in Hi |- *.
    + inversion Hi; subst x. rewrite nth_error_app1; [exact Hk|].
      apply nth_error_Some. congruence.
    + rewrite nth_error_app2 by lia.
      replace (List.length (f x)
               + list_sum (map (fun x0 => List.length (f x0)) (firstn i rest)) + k
               - List.length (f x))
        with (list_sum (map (fun x0 => List.length (f x0)) (firstn i rest)) + k)
        by lia.
      now apply (IH i a).
Qed.

(** [Guilds] lists the guilds of every shard, shard after shard in the
    order of the shard list, and removes nothing: guild [k] of shard [i]
    stands behind all the guilds of the shards before [i], at the place
    that their number and [k] give; [ChannelCount], the length of the
    list, is the sum of the shards' guild counts; and a guild that two
    shards cache stands in the list twice. *)
Theorem Guilds_keeps_duplicates (d : Discord.t) :
  Facade.ChannelCount d
  = Z.of_nat (list_sum (map (fun s => List.length (State.Guilds (Session.State s)))
                          (Discord.Sessions d)))
  /\ (forall i si k g,
        nth_error (Discord.Sessions d) i = Some si ->
        nth_error (State.Guilds (Session.State si)) k = Some g ->
        nth_error (Discord.Guilds d)
          (list_sum (map (fun s => List.length (State.Guilds (Session.State s)))
                       (firstn i (Discord.Sessions d))) + k)
        = Some g)
  /\ (forall i j si sj g,
        i < j ->
        nth_error (Discord.Sessions d) i = Some si ->
        nth_error (Discord.Sessions d) j = Some sj ->
        In g (State.Guilds (Session.State si)) ->
        In g (State.Guilds (Session.State sj)) ->
        exists l1 l2 l3, Discord.Guilds d = (l1 ++ g :: l2 ++ g :: l3)%list).
Proof.
  unfold Facade.ChannelCount, Discord.Guilds. split; [|split].
  - f_equal. induction (Discord.Sessions d) as [|s rest IH]; simpl; [reflexivity|].
    now rewrite length_app, IH.
  - intros i si k g Hi Hk.
    exact (flat_map_position (fun s => State.Guilds (Session.State s)) _ i si k g Hi Hk).
  - intros i j si sj g Hij Hi Hj Hgi Hgj.
    destruct (nth_error_split _ _ Hj) as (front & back & Hsplit & Hlen).
    rewrite Hsplit in Hi |- *.
    rewrite nth_error_app1 in Hi by lia.
    destruct (nth_error_split _ _ Hi) as (a & b & Hfront & _).
    destruct (in_split _ _ Hgi) as (x1 & x2 & Hx).
    destruct (in_split _ _ Hgj) as (y1 & y2 & Hy).
    subst front. rewrite !flat_map_app. simpl. rewrite Hx, Hy.
    exists (flat_map (fun s => State.Guilds (Session.State s)) a ++ x1)%list,
           (x2 ++ flat_map (fun s => State.Guilds (Session.State s)) b ++ y1)%list,
           (y2 ++ flat_map (fun s => State.Guilds (Session.State s)) back)%list.
    repeat (rewrite <- ?app_assoc; simpl). reflexivity.
Qed.

Lemma Guilds_keeps_duplicates_witness :
  (nth_error (Discord.Guilds Fixture.dAC) 0 = Some Sample.guild1
   /\ nth_error (Discord.Guilds Fixture.dAC) 1 = Some Fixture.guild3
   /\ nth_error (Discord.Guilds Fixture.dAC) 2 = Some Sample.guild1)
  /\ exists l1 l2 l3,
       Discord.Guilds Fixture.dAC
       = (l1 ++ Sample.guild1 :: l2 ++ Sample.guild1 :: l3)%list.
Proof.
  destruct (Guilds_keeps_duplicates Fixture.dAC) as (_ & Hplace & Htwice).
  split; [split; [|split]|].
  - exact (Hplace 0 Sample.sA 0 Sample.guild1 eq_refl eq_refl).
  - exact (Hplace 1 Fixture.sC 0 Fixture.guild3 eq_refl eq_refl).
  - exact (Hplace 1 Fixture.sC 1 Sample.guild1 eq_refl eq_refl).
  - apply (Htwice 0 1 Sample.sA Fixture.sC Sample.guild1); try reflexivity.
    + lia.
    + left. reflexivity.
    + right. left. reflexivity.
Defined.

(** ** Display names *)

Lemma scanMembers_first (members : list discordgo.Member.t) (userID : string)
    (m : discordgo.Member.t) :
  firstMember members userID m ->
  Discord.scanMembers members userID
  = if negb (discordgo.Member.Nick m =? "") then Some (discordgo.Member.Nick m) else None.
Proof.
  intros (before & after & -> & Hm & Hbefore).
  induction before as [|b before IH]; simpl.
  - apply String.eqb_eq in Hm. now rewrite Hm.
  - assert (Hb : discordgo.User.ID (discordgo.Member.User b) <> userID)
      by (apply Hbefore; now left).
    apply String.eqb_neq in Hb. rewrite Hb. apply IH.
    intros m' Hm'. apply Hbefore. now right.
Qed.

Lemma scanMembers_absent (members : list discordgo.Member.t) (userID : string) :
  (forall m, In m members -> discordgo.User.ID (discordgo.Member.User m) <> userID) ->
  Discord.scanMembers members userID = None.
Proof.
  induction members as [|m rest IH]; intros H; simpl; [reflexivity|].
  assert (Hm : discordgo.User.ID (discordgo.Member.User m) <> userID)
    by (apply H; now left).
  apply String.eqb_neq in Hm. rewrite Hm. apply IH.
  intros m' Hm'. apply H. now right.
Qed.

Lemma scanMembers_found (members : list discordgo.Member.t) (userID n : string) :
  Discord.scanMembers members userID = Some n ->
  n <> "" /\ exists m, firstMember members userID m /\ discordgo.Member.Nick m = n.
Proof.
  induction members as [|m rest IH]; simpl; [discriminate|].
  destruct (String.eqb_spec (discordgo.User.ID (discordgo.Member.User m)) userID)
    as [E|E].
  - destruct (String.eqb_spec (discordgo.Member.Nick m) "") as [En|En]; simpl;
      [discriminate|].
    intros H; inversion H; subst n. split; [exact En|].
    exists m. split; [|reflexivity]. exists [], rest. repeat split; auto.
  - intros H. destruct (IH H) as (Hn & m' & (before & after & -> & Hid & Hb) & Hnick).
    split; [exact Hn|]. exists m'. split; [|exact Hnick].
    exists (m :: before), after. repeat split; auto.
    intros x [<-|Hx]; auto.
Qed.

(** [NicknameForID] answers with the user name it was given when the
    channel lookup fails, when the guild lookup fails, when no member of
    the guild has the user id, and when the first member with the user id
    has no nickname, whatever later entries of the member list say. *)
Theorem NicknameForID_falls_back (d : Discord.t) (userID userName channelID : string) :
  let resolved := Discord.Channel d channelID in
  (forall x e,
      resolved = (x, Some e) ->
      Discord.NicknameForID d userID userName channelID = Some userName)
  /\ (forall c x e,
      resolved = (Some c, None) ->
      Discord.Guild d (discordgo.Channel.GuildID c) = (x, Some e) ->
      Discord.NicknameForID d userID userName channelID = Some userName)
  /\ (forall c g,
      resolved = (Some c, None) ->
      Discord.Guild d (discordgo.Channel.GuildID c) = (Some g, None) ->
      (forall m, In m (discordgo.Guild.Members g) ->
                 discordgo.User.ID (discordgo.Member.User m) <> userID) ->
      Discord.NicknameForID d userID userName channelID = Some userName)
  /\ (forall c g m,
      resolved = (Some c, None) ->
      Discord.Guild d (discordgo.Channel.GuildID c) = (Some g, None) ->
      firstMember (discordgo.Guild.Members g) userID m ->
      discordgo.Member.Nick m = "" ->
      Discord.NicknameForID d userID userName channelID = Some userName).
Proof.
  intros resolved. subst resolved. unfold Discord.NicknameForID. repeat split.
  - intros x e ->. now destruct x.
  - intros c x e -> ->. now destruct x.
  - intros c g -> -> H. now rewrite (scanMembers_absent _ _ H).
  - intros c g m -> -> Hm Hnick. rewrite (scanMembers_first _ _ _ Hm), Hnick.
    reflexivity.
Qed.

Lemma NicknameForID_falls_back_witness :
  Discord.NicknameForID Fixture.dC "u2" "carol" "zz" = Some "carol"
  /\ Discord.NicknameForID Sample.dB "u2" "carol" "2" = Some "carol"
  /\ Discord.NicknameForID Fixture.dC "u7" "dave" "c3" = Some "dave"
  /\ Discord.NicknameForID Fixture.dC "u1" "alice" "c3" = Some "alice".
Proof.
  split; [|split; [|split]].
  - destruct (NicknameForID_falls_back Fixture.dC "u2" "carol" "zz") as [H _].
    exact (H None ErrStateNotFound eq_refl).
  - destruct (NicknameForID_falls_back Sample.dB "u2" "carol" "2") as (_ & H & _).
    exact (H Sample.lobby None ErrStateNotFound eq_refl eq_refl).
  - destruct (NicknameForID_falls_back Fixture.dC "u7" "dave" "c3") as (_ & _ & H & _).
    apply (H Fixture.room Fixture.guild3 eq_refl eq_refl).
    intros m [<-|[<-|[<-|[]]]]; discriminate.
  - destruct (NicknameForID_falls_back Fixture.dC "u1" "alice" "c3") as (_ & _ & _ & H).
    apply (H Fixture.room Fixture.guild3 (discordgo.Member.mk Sample.alice "")
             eq_refl eq_refl); [|reflexivity].
    exists [], [discordgo.Member.mk Sample.alice "Ally";
                discordgo.Member.mk Fixture.carol "Caz"].
    repeat split. intros m' [].
Defined.

(** When the channel and its guild resolve and the first member with the
    user id has a nickname, [NicknameForID] answers with that nickname. *)
Theorem NicknameForID_first_member (d : Discord.t) (userID userName channelID : string)
    (c : discordgo.Channel.t) (g : discordgo.Guild.t) (m : discordgo.Member.t) :
  Discord.Channel d channelID = (Some c, None) ->
  Discord.Guild d (discordgo.Channel.GuildID c) = (Some g, None) ->
  firstMember (discordgo.Guild.Members g) userID m ->
  discordgo.Member.Nick m <> "" ->
  Discord.NicknameForID d userID userName channelID = Some (discordgo.Member.Nick m).
Proof.
  intros Hc Hg Hm Hnick. unfold Discord.NicknameForID.
  rewrite Hc, Hg, (scanMembers_first _ _ _ Hm).
  apply String.eqb_neq in Hnick. now rewrite Hnick.
Qed.

Lemma NicknameForID_first_member_witness :
  Discord.NicknameForID Fixture.dC "u2" "carol" "c3" = Some "Caz".
Proof.
  apply (NicknameForID_first_member Fixture.dC "u2" "carol" "c3"
           Fixture.room Fixture.guild3 (discordgo.Member.mk Fixture.carol "Caz")
           eq_refl eq_refl).
  - exists [discordgo.Member.mk Sample.alice ""; discordgo.Member.mk Sample.alice "Ally"], [].
    repeat split. intros m' [<-|[<-|[]]]; discriminate.
  - discriminate.
Defined.

(** Whatever [NicknameForID] answers is the user name it was given, or
    the nickname, not empty, of the first member with the user id in the
    guild of the channel: it invents nothing, and it is empty only if the
    given user name is. *)
Theorem NicknameForID_answer (d : Discord.t) (userID userName channelID n : string) :
  Discord.NicknameForID d userID userName channelID = Some n ->
  n = userName
  \/ (n <> ""
      /\ exists c g m,
           Discord.Channel d channelID = (Some c, None)
           /\ Discord.Guild d (discordgo.Channel.GuildID c) = (Some g, None)
           /\ firstMember (discordgo.Guild.Members g) userID m
           /\ discordgo.Member.Nick m = n).
Proof.
  unfold Discord.NicknameForID.
  destruct (Discord.Channel d channelID) as [[c|] [e|]] eqn:Hc;
    try (intros H; inversion H; now left).
  destruct (Discord.Guild d (discordgo.Channel.GuildID c)) as [[g|] [e|]] eqn:Hg;
    try (intros H; inversion H; now left).
  destruct (Discord.scanMembers (discordgo.Guild.Members g) userID) as [nick|] eqn:Hs;
    intros H; inversion H; subst; [|now left].
  right. destruct (scanMembers_found _ _ _ Hs) as (Hn & m & Hm & Hnick).
  split; [exact Hn|]. exists c, g, m. auto.
Qed.

Lemma NicknameForID_answer_witness :
  "Caz" = "carol"
  \/ ("Caz" <> ""
      /\ exists c g m,
           Discord.Channel Fixture.dC "c3" = (Some c, None)
           /\ Discord.Guild Fixture.dC (discordgo.Channel.GuildID c) = (Some g, None)
           /\ firstMember (discordgo.Guild.Members g) "u2" m
           /\ discordgo.Member.Nick m = "Caz").
Proof.
  exact (NicknameForID_answer Fixture.dC "u2" "carol" "c3" "Caz" eq_refl).
Defined.

Lemma NicknameForID_idempotent (d : Discord.t) (userID userName channelID n : string) :
  Discord.NicknameForID d userID userName channelID = Some n ->
  Discord.NicknameForID d userID n channelID = Some n.
Proof.
  unfold Discord.NicknameForID.
  destruct (Discord.Channel d channelID) as [[c|] [e|]];
    try (intros H; inversion H; reflexivity).
  destruct (Discord.Guild d (discordgo.Channel.GuildID c)) as [[g|] [e|]];
    try (intros H; inversion H; reflexivity).
  destruct (Discord.scanMembers (discordgo.Guild.Members g) userID);
    intros H; inversion H; reflexivity.
Qed.

(** On an envelope with an author whose display name is not yet cached,
    [Nickname] returns the very name that [UserName] returns, and leaves
    the same cache behind: the second lookup that it makes changes
    nothing. *)
Theorem Nickname_agrees_with_UserName (d : Discord.t) (message : DiscordMessage.t) :
  discordgo.Message.Author (DiscordMessage.DiscordgoMessage message) <> None ->
  DiscordMessage.Nick message = None ->
  Facade.Nickname d message = DiscordMessage.UserName d message.
Proof.
  intros Ha Hn. unfold Facade.Nickname, DiscordMessage.UserName, DiscordMessage.UserID,
    DiscordMessage.Channel.
  destruct (discordgo.Message.Author (DiscordMessage.DiscordgoMessage message))
    as [author|]; [|congruence].
  rewrite Hn.
  destruct (Discord.NicknameForID d (discordgo.User.ID author)
              (discordgo.User.Username author)
              (discordgo.Message.ChannelID (DiscordMessage.DiscordgoMessage message)))
    as [n|] eqn:E; [|reflexivity].
  simpl. now rewrite (NicknameForID_idempotent _ _ _ _ _ E).
Qed.

Lemma Nickname_agrees_with_UserName_witness :
  Facade.Nickname Sample.dA (Sample.envelope Sample.hello)
  = Some ("Al", Sample.helloNamed).
Proof.
  rewrite (Nickname_agrees_with_UserName Sample.dA (Sample.envelope Sample.hello)).
  - reflexivity.
  - discriminate.
  - reflexivity.
Defined.

(** ** The passes on whole texts *)

Lemma dropBytes_append (x r : string) : dropBytes (String.length x) (x ++ r) = r.
Proof. induction x as [|c x IH]; simpl; [now destruct r | exact IH]. Qed.

Lemma dropBytes_empty (k : nat) : dropBytes k "" = "".
Proof. now destruct k. Qed.

(** A callback that hands every match back leaves the text as it is. *)
Lemma replaceAll_identity (re : string -> option (string * string))
    (repl : string -> option string) :
  (forall s tok r, re s = Some (tok, r) -> s = tok ++ r /\ tok <> "") ->
  (forall tok, repl tok = Some tok) ->
  forall s k, replaceAll re repl k s = Some (dropBytes k s).
Proof.
  intros Hsound Hrepl. induction s as [|c t IH]; intros k.
  - simpl. now rewrite dropBytes_empty.
  - destruct k as [|k]; [|simpl; apply IH].
    simpl. destruct (re (String c t)) as [[tok r]|] eqn:E.
    + destruct (Hsound _ _ _ E) as [Heq Hne]. rewrite Hrepl, IH.
      destruct tok as [|c' tok']; [congruence|].
      simpl in Heq. inversion Heq; subst c' t. simpl.
      now rewrite Nat.sub_0_r, dropBytes_append.
    + now rewrite IH.
Qed.

(** A text without "<" holds no mention: either pass, and both in a row,
    return it as it is, on every client, also on one without shards, for
    no lookup is made. *)
Theorem plain_text_is_untouched (d : Discord.t) (message : discordgo.Message.t)
    (content : string) :
  avoidsOpen content = true ->
  Discord.replaceChannelNames d message content = Some content
  /\ Discord.replaceRoleNames d message content = Some content
  /\ rolePassThenChannelPass d message content = Some content.
Proof.
  intros H.
  assert (Hpass : forall p repl,
             ReplaceAllStringFunc (matchToken (String "<" p)) content repl
             = Some content).
  { intros p repl. unfold ReplaceAllStringFunc.
    pose proof (replaceAll_plain p repl content "" H) as E.
    rewrite append_empty_r in E. rewrite E. simpl. now rewrite append_empty_r. }
  assert (Hc : Discord.replaceChannelNames d message content = Some content)
    by apply (Hpass "#").
  assert (Hr : Discord.replaceRoleNames d message content = Some content)
    by apply (Hpass "@&").
  repeat split; try assumption.
  unfold rolePassThenChannelPass. now rewrite Hr.
Qed.

Lemma plain_text_is_untouched_witness :
  Discord.replaceChannelNames Sample.dNone Sample.hello "2 > 1 # see @&7" = Some "2 > 1 # see @&7"
  /\ Discord.replaceRoleNames Sample.dNone Sample.hello "2 > 1 # see @&7"
     = Some "2 > 1 # see @&7"
  /\ rolePassThenChannelPass Sample.dNone Sample.hello "2 > 1 # see @&7"
     = Some "2 > 1 # see @&7".
Proof.
  exact (plain_text_is_untouched Sample.dNone Sample.hello "2 > 1 # see @&7" eq_refl).
Defined.

(** When nothing resolves, a pass is the identity on every text: the
    channel pass on a client with shards none of which caches a channel,
    the role pass when the lookup of the message's channel fails, and
    when the lookup of that channel's guild fails. *)
Theorem passes_are_identity_on_miss (d : Discord.t) (message : discordgo.Message.t) :
  (Discord.Sessions d <> [] ->
   (forall s id, In s (Discord.Sessions d) ->
                 State.channelMap (Session.State s) id = None) ->
   forall content, Discord.replaceChannelNames d message content = Some content)
  /\ (forall x e,
      Discord.Channel d (discordgo.Message.ChannelID message) = (x, Some e) ->
      forall content, Discord.replaceRoleNames d message content = Some content)
  /\ (forall c x e,
      Discord.Channel d (discordgo.Message.ChannelID message) = (Some c, None) ->
      Discord.Guild d (discordgo.Channel.GuildID c) = (x, Some e) ->
      forall content, Discord.replaceRoleNames d message content = Some content).
Proof.
  repeat split.
  - intros Hne Hall content.
    apply (replaceAll_identity _ _ (matchToken_sound _)).
    intros tok. unfold Discord.channelName.
    rewrite (Channel_not_found d _ Hne); [reflexivity|].
    intros s Hs. unfold State.Channel. now rewrite (Hall s _ Hs).
  - intros x e Hc content.
    apply (replaceAll_identity _ _ (matchToken_sound _)).
    intros tok. unfold Discord.roleName. rewrite Hc. now destruct x.
  - intros c x e Hc Hg content.
    apply (replaceAll_identity _ _ (matchToken_sound _)).
    intros tok. unfold Discord.roleName. rewrite Hc, Hg. now destruct x.
Qed.

Lemma passes_are_identity_on_miss_witness :
  Discord.replaceChannelNames Sample.dE Sample.hello "a <#2><#> b <@&7>"
  = Some "a <#2><#> b <@&7>"
  /\ Discord.replaceRoleNames Sample.dA Sample.elsewhere "a <#2> b <@&7><@&>"
     = Some "a <#2> b <@&7><@&>"
  /\ Discord.replaceRoleNames Sample.dB Sample.inLobby "a <#2> b <@&7><@&>"
     = Some "a <#2> b <@&7><@&>".
Proof.
  split; [|split].
  - destruct (passes_are_identity_on_miss Sample.dE Sample.hello) as [H _].
    apply H; [discriminate|]. intros s id [<-|[]]. reflexivity.
  - destruct (passes_are_identity_on_miss Sample.dA Sample.elsewhere) as (_ & H & _).
    exact (H None ErrStateNotFound eq_refl _).
  - destruct (passes_are_identity_on_miss Sample.dB Sample.inLobby) as (_ & _ & H).
    exact (H Sample.lobby None ErrStateNotFound eq_refl eq_refl _).
Defined.

(** ** Envelopes under use *)

Lemma handlers_push_the_rest_witness :
  onMessageCreate [] Sample.hello = [Sample.envelope Sample.hello]
  /\ onMessageUpdate [] Sample.hello
     = [DiscordMessage.mk Sample.hello MessageTypeUpdate None None].
Proof.
  apply (handlers_push_the_rest [] Sample.hello).
  - discriminate.
  - intros author H. inversion H; subst author. reflexivity.
Defined.

(** Using an envelope never changes the event it wraps nor its tag, and
    a cache that is set stays as it is: every accessor other than the
    first [UserName] and the first [Message] reads the same afterwards. *)
Theorem envelope_is_stable_under_use
    (ContentWithMentionsReplaced : discordgo.Message.t -> string)
    (m m' : DiscordMessage.t) :
  later ContentWithMentionsReplaced m m' ->
  DiscordMessage.DiscordgoMessage m' = DiscordMessage.DiscordgoMessage m
  /\ DiscordMessage.MessageType m' = DiscordMessage.MessageType m
  /\ (forall n, DiscordMessage.Nick m = Some n -> DiscordMessage.Nick m' = Some n)
  /\ (forall c, DiscordMessage.Content m = Some c -> DiscordMessage.Content m' = Some c).
Proof.
  induction 1 as [m m' H | m | m k m' _ IH1 _ IH2].
  - destruct H as [d m0 v m0' H | d m0 v m0' H].
    + pose proof (UserName_keeps _ _ _ _ H) as (Hc & Hm & Ht).
      repeat split; try assumption; [|intros c Hx; now rewrite Hc].
      intros n Hn. unfold DiscordMessage.UserName in H.
      destruct (discordgo.Message.Author _); [|inversion H; now subst].
      rewrite Hn in H. inversion H; now subst.
    + pose proof (Message_sets_cache _ _ _ _ _ H) as (Hc & Hm & Ht & Hn).
      repeat split; try assumption; [intros n Hx; now rewrite Hn|].
      intros c Hx. unfold DiscordMessage.Message in H. rewrite Hx in H.
      inversion H; now subst.
  - repeat split; auto.
  - destruct IH1 as (A1 & B1 & C1 & D1), IH2 as (A2 & B2 & C2 & D2).
    repeat split; [congruence | congruence | auto | auto].
Qed.

Lemma envelope_is_stable_under_use_witness :
  DiscordMessage.DiscordgoMessage Sample.helloBoth = Sample.hello
  /\ DiscordMessage.MessageType Sample.helloBoth = MessageTypeCreate
  /\ (forall n, DiscordMessage.Nick Sample.helloNamed = Some n ->
                DiscordMessage.Nick Sample.helloBoth = Some n)
  /\ (forall c, DiscordMessage.Content Sample.helloNamed = Some c ->
                DiscordMessage.Content Sample.helloBoth = Some c).
Proof.
  apply (envelope_is_stable_under_use Sample.ContentWithMentionsReplaced
           Sample.helloNamed Sample.helloBoth).
  apply rt_step.
  apply (accessed_Message _ Sample.dA Sample.helloNamed "see #general and @Admins").
  reflexivity.
Defined.

(** ** Outbound operations *)

Lemma one_call (s : Session.t) (c : Call) :
  atMostOneCall s
    (bind (Session.call s c)
       (fun err => match err with Some e => ret (Some e) | None => ret None end)).
Proof.
  intros h. right. exists c. unfold bind, Session.call, ret.
  now destruct (Session.respond s h c).
Qed.

(** No operation of the send family retries or sends twice: each issues
    no call and returns nil, or issues one call behind those issued
    before and returns exactly what the network answers to it.  Smart
    send, in particular, never sends the text after an embed that was
    refused. *)
Theorem send_family_issues_at_most_one_call (PermissionEmbedLinks : Z) (d : Discord.t)
    (channel message name r : string) (embed : discordgo.MessageEmbed.t) :
  atMostOneCall (Discord.Session d) (Discord.SendMessage d channel message)
  /\ atMostOneCall (Discord.Session d) (Discord.SendEmbedMessage d channel embed)
  /\ atMostOneCall (Discord.Session d)
       (Discord.SendAction PermissionEmbedLinks d channel message)
  /\ atMostOneCall (Discord.Session d) (Discord.SendFile d channel name r).
Proof.
  assert (Htext : atMostOneCall (Discord.Session d)
                    (Discord.SendMessage d channel message)).
  { unfold Discord.SendMessage. destruct (channel =? "").
    - intros h. now left.
    - apply one_call. }
  repeat split.
  - exact Htext.
  - unfold Discord.SendEmbedMessage. destruct (channel =? "").
    + intros h. now left.
    + apply one_call.
  - unfold Discord.SendAction. destruct (channel =? ""); [intros h; now left|].
    destruct (Discord.UserChannelPermissions d (Discord.UserID d) channel) as [p [e|]];
      [exact Htext|].
    destruct (Z.land p PermissionEmbedLinks =? PermissionEmbedLinks)%Z;
      [apply one_call | exact Htext].
  - apply one_call.
Qed.

(** [PrivateMessage]: when the direct channel cannot be created, the
    error is returned and nothing is sent; when it is created, the text
    goes to it in one call whose answer is returned; but when the created
    channel carries an empty identifier, nothing is sent and success is
    reported all the same. *)
Theorem PrivateMessage_outcomes
    (UserChannelCreate : string -> option discordgo.Channel.t * option error)
    (d : Discord.t) (userID message : string) (h : list Call) :
  (forall x e,
      UserChannelCreate userID = (x, Some e) ->
      Facade.PrivateMessage UserChannelCreate d userID message h = Some (Some e, h))
  /\ (forall c,
      UserChannelCreate userID = (Some c, None) ->
      discordgo.Channel.ID c <> "" ->
      Facade.PrivateMessage UserChannelCreate d userID message h
      = Some (Session.respond (Discord.Session d) h
                (ChannelMessageSend (discordgo.Channel.ID c) message),
              (h ++ [ChannelMessageSend (discordgo.Channel.ID c) message])%list))
  /\ (forall c,
      UserChannelCreate userID = (Some c, None) ->
      discordgo.Channel.ID c = "" ->
      Facade.PrivateMessage UserChannelCreate d userID message h = Some (None, h)).
Proof.
  unfold Facade.PrivateMessage. repeat split.
  - intros x e ->. now destruct x.
  - intros c -> Hc. now rewrite SendMessage_sends.
  - intros c -> Hc. now rewrite Hc.
Qed.

Lemma PrivateMessage_outcomes_witness :
  Facade.PrivateMessage (fun _ => (None, Some (ErrTransport "403 Forbidden")))
    Sample.dA "u1" "psst" []
  = Some (Some (ErrTransport "403 Forbidden"), [])
  /\ Facade.PrivateMessage (fun _ => (Some Sample.chat, None)) Sample.dA "u1" "psst" []
     = Some (None, [ChannelMessageSend "c1" "psst"])
  /\ Facade.PrivateMessage (fun _ => (Some (discordgo.Channel.mk "" "" ""), None))
       Sample.dA "u1" "psst" []
     = Some (None, []).
Proof.
  split; [|split].
  - destruct (PrivateMessage_outcomes
                (fun _ => (None, Some (ErrTransport "403 Forbidden")))
                Sample.dA "u1" "psst" []) as [H _].
    exact (H None _ eq_refl).
  - destruct (PrivateMessage_outcomes (fun _ => (Some Sample.chat, None))
                Sample.dA "u1" "psst" []) as (_ & H & _).
    apply (H Sample.chat eq_refl). discriminate.
  - destruct (PrivateMessage_outcomes
                (fun _ => (Some (discordgo.Channel.mk "" "" ""), None))
                Sample.dA "u1" "psst" []) as (_ & _ & H).
    exact (H _ eq_refl eq_refl).
Defined.

(** [Join]: when the invite resolves to a guild whose lookup across the
    shards returns no error, the result is [ErrAlreadyJoined] and the
    invite is not accepted; when the invite cannot be resolved, or the
    guild lookup fails, the invite is accepted in one call and the answer
    of that call is returned. *)
Theorem Join_accepts_unless_joined
    (Invite : string -> option Invite.t * option error)
    (InviteAccept : string -> option error) (d : Discord.t) (join : string) :
  (forall i g x,
      Invite join = (Some i, None) ->
      Invite.Guild i = Some g ->
      Discord.Guild d (discordgo.Guild.ID g) = (x, None) ->
      Facade.Join Invite InviteAccept d join
      = Some (Some ErrAlreadyJoined, [CallInvite join]))
  /\ (forall x e,
      Invite join = (x, Some e) ->
      Facade.Join Invite InviteAccept d join
      = Some (InviteAccept join, [CallInvite join; CallInviteAccept join]))
  /\ (forall i g x e,
      Invite join = (Some i, None) ->
      Invite.Guild i = Some g ->
      Discord.Guild d (discordgo.Guild.ID g) = (x, Some e) ->
      Facade.Join Invite InviteAccept d join
      = Some (InviteAccept join, [CallInvite join; CallInviteAccept join])).
Proof.
  unfold Facade.Join. repeat split.
  - intros i g x -> -> ->. reflexivity.
  - intros x e ->. destruct x; now destruct (InviteAccept join).
  - intros i g x e -> -> ->. now destruct (InviteAccept join).
Qed.

Lemma Join_accepts_unless_joined_witness :
  let invite := fun _ : string => (Some (Invite.mk (Some Sample.guild1) "abc"), @None error) in
  Facade.Join invite (fun _ => None) Sample.dA "abc"
  = Some (Some ErrAlreadyJoined, [CallInvite "abc"])
  /\ Facade.Join (fun _ => (None, Some (ErrTransport "404 Not Found")))
       (fun _ => Some (ErrTransport "404 Not Found")) Sample.dA "abc"
     = Some (Some (ErrTransport "404 Not Found"), [CallInvite "abc"; CallInviteAccept "abc"])
  /\ Facade.Join invite (fun _ => None) Sample.dE "abc"
     = Some (None, [CallInvite "abc"; CallInviteAccept "abc"]).
Proof.
  intros invite. split; [|split].
  - destruct (Join_accepts_unless_joined invite (fun _ => None) Sample.dA "abc")
      as [H _].
    exact (H _ Sample.guild1 (Some Sample.guild1) eq_refl eq_refl eq_refl).
  - destruct (Join_accepts_unless_joined
                (fun _ => (None, Some (ErrTransport "404 Not Found")))
                (fun _ => Some (ErrTransport "404 Not Found")) Sample.dA "abc")
      as (_ & H & _).
    exact (H None _ eq_refl).
  - destruct (Join_accepts_unless_joined invite (fun _ => None) Sample.dE "abc")
      as (_ & _ & H).
    exact (H _ Sample.guild1 None ErrStateNotFound eq_refl eq_refl eq_refl).
Defined.



(** ** Who may do what *)

(** [IsChannelOwner]: when the lookup of the message's channel or of its
    guild fails, the answer is no, also for the owner of the bot; when
    both resolve, the answer is yes exactly for the owner of the guild
    and for the owner of the bot. *)
Theorem IsChannelOwner_policy (d : Discord.t) (message : DiscordMessage.t) :
  let resolved := Discord.Channel d (DiscordMessage.Channel message) in
  (forall x e, resolved = (x, Some e) -> Facade.IsChannelOwner d message = Some false)
  /\ (forall c x e,
      resolved = (Some c, None) ->
      Discord.Guild d (discordgo.Channel.GuildID c) = (x, Some e) ->
      Facade.IsChannelOwner d message = Some false)
  /\ (forall c g,
      resolved = (Some c, None) ->
      Discord.Guild d (discordgo.Channel.GuildID c) = (Some g, None) ->
      exists b,
        Facade.IsChannelOwner d message = Some b
        /\ (b = true
            <-> discordgo.Guild.OwnerID g = DiscordMessage.UserID message
                \/ DiscordMessage.UserID message = Discord.OwnerUserID d)).
Proof.
  intros resolved. subst resolved. unfold Facade.IsChannelOwner. repeat split.
  - intros x e ->. now destruct x.
  - intros c x e -> ->. now destruct x.
  - intros c g -> ->. eexists. split; [reflexivity|].
    unfold Facade.IsBotOwner. rewrite orb_true_iff, !String.eqb_eq. reflexivity.
Qed.

Lemma IsChannelOwner_policy_witness :
  Facade.IsChannelOwner (Discord.mk Fixture.sC [Fixture.sC] "u2" "app")
    (Sample.envelope Fixture.farAway) = Some false
  /\ Facade.IsChannelOwner (Discord.mk Sample.sB [Sample.sB] "u1" "app")
       (Sample.envelope Sample.inLobby) = Some false
  /\ exists b,
       Facade.IsChannelOwner Fixture.dC (Sample.envelope Fixture.fromCarol) = Some b
       /\ (b = true
           <-> discordgo.Guild.OwnerID Fixture.guild3 = "u2" \/ "u2" = "u9").
Proof.
  split; [|split].
  - destruct (IsChannelOwner_policy (Discord.mk Fixture.sC [Fixture.sC] "u2" "app")
                (Sample.envelope Fixture.farAway)) as [H _].
    exact (H None ErrStateNotFound eq_refl).
  - destruct (IsChannelOwner_policy (Discord.mk Sample.sB [Sample.sB] "u1" "app")
                (Sample.envelope Sample.inLobby)) as (_ & H & _).
    exact (H Sample.lobby None ErrStateNotFound eq_refl eq_refl).
  - destruct (IsChannelOwner_policy Fixture.dC (Sample.envelope Fixture.fromCarol))
      as (_ & _ & H).
    exact (H Fixture.room Fixture.guild3 eq_refl eq_refl).
Defined.

(** [IsModerator]: when the permission lookup succeeds and one of the
    three bits is set, the answer is yes and no channel or guild is
    looked up; in every other case the answer is that of
    [IsChannelOwner].  So whoever owns the channel moderates it. *)
Theorem IsModerator_policy
    (PermissionAdministrator PermissionManageChannels PermissionManageServer : Z)
    (d : Discord.t) (message : DiscordMessage.t) :
  let IsModerator :=
    Facade.IsModerator PermissionAdministrator PermissionManageChannels
      PermissionManageServer in
  let permissions :=
    Discord.UserChannelPermissions d (DiscordMessage.UserID message)
      (DiscordMessage.Channel message) in
  (forall p,
      permissions = (p, None) ->
      Z.land p PermissionAdministrator = PermissionAdministrator
      \/ Z.land p PermissionManageChannels = PermissionManageChannels
      \/ Z.land p PermissionManageServer = PermissionManageServer ->
      IsModerator d message = Some true)
  /\ (forall p,
      permissions = (p, None) ->
      Z.land p PermissionAdministrator <> PermissionAdministrator ->
      Z.land p PermissionManageChannels <> PermissionManageChannels ->
      Z.land p PermissionManageServer <> PermissionManageServer ->
      IsModerator d message = Facade.IsChannelOwner d message)
  /\ (forall p e,
      permissions = (p, Some e) ->
      IsModerator d message = Facade.IsChannelOwner d message)
  /\ (Facade.IsChannelOwner d message = Some true -> IsModerator d message = Some true).
Proof.
  intros IsModerator permissions. subst IsModerator permissions.
  unfold Facade.IsModerator. repeat split.
  - intros p -> H. rewrite <- !Z.eqb_eq, <- !orb_true_iff, orb_assoc in H.
    now rewrite H.
  - intros p -> HA HC HS. apply Z.eqb_neq in HA, HC, HS. now rewrite HA, HC, HS.
  - intros p e ->. reflexivity.
  - intros H.
    destruct (Discord.UserChannelPermissions _ _ _) as [p [e|]]; [exact H|].
    destruct (_ || _ || _); [reflexivity | exact H].
Qed.

Lemma IsModerator_policy_witness :
  Facade.IsModerator 8 16 32 Fixture.dC (Sample.envelope Fixture.fromAlice) = Some true
  /\ Facade.IsModerator 8 16 32 Fixture.dC (Sample.envelope Fixture.fromCarol)
     = Facade.IsChannelOwner Fixture.dC (Sample.envelope Fixture.fromCarol)
  /\ Facade.IsModerator 8 16 32 Fixture.dC (Sample.envelope Fixture.farAway)
     = Facade.IsChannelOwner Fixture.dC (Sample.envelope Fixture.farAway)
  /\ Facade.IsModerator 8 16 32 Fixture.dC (Sample.envelope Fixture.fromCarol) = Some true.
Proof.
  split; [|split; [|split]].
  - destruct (IsModerator_policy 8 16 32 Fixture.dC (Sample.envelope Fixture.fromAlice))
      as [H _].
    apply (H 16%Z eq_refl). right. left. reflexivity.
  - destruct (IsModerator_policy 8 16 32 Fixture.dC (Sample.envelope Fixture.fromCarol))
      as (_ & H & _).
    apply (H 0%Z eq_refl); discriminate.
  - destruct (IsModerator_policy 8 16 32 Fixture.dC (Sample.envelope Fixture.farAway))
      as (_ & _ & H & _).
    exact (H 0%Z ErrStateNotFound eq_refl).
  - destruct (IsModerator_policy 8 16 32 Fixture.dC (Sample.envelope Fixture.fromCarol))
      as (_ & _ & _ & H).
    apply H. reflexivity.
Defined.

(** An event without an author, as a deletion may be, has the empty user
    id: it passes for the owner of the bot exactly when no owner is
    configured, and for the bot itself exactly when the bot's own user
    has the empty id. *)
Theorem authorless_message_identity (d : Discord.t) (message : DiscordMessage.t) :
  discordgo.Message.Author (DiscordMessage.DiscordgoMessage message) = None ->
  (Facade.IsBotOwner d message = true <-> Discord.OwnerUserID d = "")
  /\ (Facade.IsMe d message = true
      <-> exists user, State.User (Session.State (Discord.Session d)) = Some user
                       /\ discordgo.User.ID user = "").
Proof.
  intros H. unfold Facade.IsBotOwner, Facade.IsMe, DiscordMessage.UserID. rewrite H.
  split.
  - rewrite String.eqb_eq. split; congruence.
  - destruct (State.User _) as [user|].
    + rewrite String.eqb_eq. split.
      * intros E. exists user. split; congruence.
      * intros (u & Hu & E). inversion Hu; subst. congruence.
    + split; [discriminate|]. intros (u & Hu & _). discriminate.
Qed.

Lemma authorless_message_identity_witness :
  (Facade.IsBotOwner Fixture.dUnowned
     (DiscordMessage.mk Fixture.fromNobody MessageTypeDelete None None) = true
   <-> Discord.OwnerUserID Fixture.dUnowned = "")
  /\ (Facade.IsMe Fixture.dUnowned
        (DiscordMessage.mk Fixture.fromNobody MessageTypeDelete None None) = true
      <-> exists user,
            State.User (Session.State (Discord.Session Fixture.dUnowned)) = Some user
            /\ discordgo.User.ID user = "").
Proof.
  exact (authorless_message_identity Fixture.dUnowned
           (DiscordMessage.mk Fixture.fromNobody MessageTypeDelete None None) eq_refl).
Defined.

(** ** Startup *)

Section SetAt.

Context {A : Type}.

Lemma setAt_some (l : list A) (i : nat) (x : A) :
  i < List.length l ->
  exists l', setAt l i x = Some l'
             /\ List.length l' = List.length l
             /\ nth_error l' i = Some x
             /\ forall j, j <> i -> nth_error l' j = nth_error l j.
Proof.
  revert i. induction l as [|h t IH]; intros i Hi; simpl in Hi; [lia|].
  destruct i as [|i]; simpl.
  - exists (x :: t). repeat split. intros j Hj. destruct j; [congruence | reflexivity].
  - destruct (IH i) as (t' & -> & Hlen & Hnth & Hother); [lia|].
    exists (h :: t'). repeat split; simpl; auto.
    intros j Hj. destruct j as [|j]; [reflexivity|]. apply Hother. congruence.
Qed.

End SetAt.

Section OpenLoops.

Variable New : nat -> Startup.Shard.t + error.
Variable shards : Z.

(** The first loop when every construction succeeds. *)
Lemma construct_completes (k : nat) :
  forall i sessions,
    List.length sessions = i + k ->
    (forall j, i <= j < i + k -> exists s, New (S j) = inl s) ->
    exists sessions',
      Startup.construct New k i shards sessions = (sessions', Startup.Returned None)
      /\ List.length sessions' = i + k
      /\ (forall j, j < i -> nth_error sessions' j = nth_error sessions j)
      /\ (forall j, i <= j < i + k ->
            exists fresh, New (S j) = inl fresh
                          /\ nth_error sessions' j
                             = Some (Some (Startup.configure shards j fresh))).
Proof.
  induction k as [|k IH]; intros i sessions Hlen Hnew; simpl.
  - exists sessions. repeat split; auto. intros j Hj. lia.
  - destruct (Hnew i) as [fresh Hfresh]; [lia|]. rewrite Hfresh.
    destruct (setAt_some sessions i (Some (Startup.configure shards i fresh)))
      as (s1 & -> & Hlen1 & Hnth1 & Hother1); [lia|].
    destruct (IH (S i) s1) as (s2 & -> & Hlen2 & Hkeep2 & Hset2).
    + lia.
    + intros j Hj. apply Hnew. lia.
    + exists s2. repeat split.
      * lia.
      * intros j Hj. rewrite Hkeep2 by lia. apply Hother1. lia.
      * intros j Hj. destruct (Nat.eq_dec j i) as [->|Hne].
        -- exists fresh. split; [exact Hfresh|]. now rewrite Hkeep2 by lia.
        -- apply Hset2. lia.
Qed.

(** The first loop when construction [f] is the first to fail. *)
Lemma construct_stops (k : nat) :
  forall i sessions f e,
    List.length sessions = i + k ->
    i <= f < i + k ->
    (forall j, i <= j < f -> exists s, New (S j) = inl s) ->
    New (S f) = inr e ->
    exists sessions',
      Startup.construct New k i shards sessions
      = (sessions', Startup.Returned (Some e))
      /\ List.length sessions' = i + k
      /\ (forall j, j < i \/ f <= j -> nth_error sessions' j = nth_error sessions j)
      /\ (forall j, i <= j < f ->
            exists fresh, New (S j) = inl fresh
                          /\ nth_error sessions' j
                             = Some (Some (Startup.configure shards j fresh))).
Proof.
  induction k as [|k IH]; intros i sessions f e Hlen Hf Hnew Hfail; [lia|].
  simpl. destruct (Nat.eq_dec i f) as [->|Hne].
  - rewrite Hfail. exists sessions. repeat split; auto. intros j Hj. lia.
  - destruct (Hnew i) as [fresh Hfresh]; [lia|]. rewrite Hfresh.
    destruct (setAt_some sessions i (Some (Startup.configure shards i fresh)))
      as (s1 & -> & Hlen1 & Hnth1 & Hother1); [lia|].
    destruct (IH (S i) s1 f e) as (s2 & -> & Hlen2 & Hkeep2 & Hset2); try assumption.
    + lia.
    + lia.
    + intros j Hj. apply Hnew. lia.
    + exists s2. repeat split.
      * lia.
      * intros j Hj. rewrite Hkeep2 by lia. apply Hother1. lia.
      * intros j Hj. destruct (Nat.eq_dec j i) as [->|Hji].
        -- exists fresh. split; [exact Hfresh|]. now rewrite Hkeep2 by lia.
        -- apply Hset2. lia.
Qed.

Lemma openAll_completes (sessions : list (option Startup.Shard.t)) :
  (forall j, j < List.length sessions -> exists x, nth_error sessions j = Some (Some x)) ->
  exists opened,
    Startup.openAll sessions = Some opened
    /\ List.length opened = List.length sessions
    /\ forall j x, nth_error sessions j = Some (Some x) ->
                   nth_error opened j
                   = Some (Some (Startup.Shard.mk
                                   (Startup.Shard.ShardCount x) (Startup.Shard.ShardID x)
                                   (Startup.Shard.Handlers x)
                                   (Startup.Shard.TrackPresences x)
                                   (S (Startup.Shard.OpenCalls x)))).
Proof.
  induction sessions as [|s rest IH]; intros Hall; simpl.
  - exists []. repeat split. destruct j; discriminate.
  - destruct (Hall 0) as [x Hx]; [simpl; lia|]. simpl in Hx. inversion Hx; subst s.
    destruct IH as (rest' & -> & Hlen & Hnth).
    + intros j Hj. apply (Hall (S j)). simpl. lia.
    + simpl. eexists. split; [reflexivity|]. split; [simpl; now rewrite Hlen|].
      intros j y Hy. destruct j as [|j]; simpl in Hy |- *.
      * inversion Hy; subst. reflexivity.
      * apply Hnth, Hy.
Qed.

End OpenLoops.

Section OpenProperties.

Variable New : nat -> Startup.Shard.t + error.
Variable GatewayBot : Z * option error.
Variable d : Startup.Pool.

(** When every construction succeeds and the gateway recommends at least
    one shard, [Open] returns without error and leaves exactly that many
    sessions: session [i] has shard id [i] of the recommended count, the
    three handlers behind those it came with, presence tracking off, and
    has been opened once; [Session] is the first of them. *)
Theorem Open_builds_the_shards (shards : Z) :
  GatewayBot = (shards, None) ->
  (0 < shards)%Z ->
  (forall k, k <= Z.to_nat shards -> exists s, New k = inl s) ->
  exists sessions,
    Startup.Open New GatewayBot d
    = (Startup.mkPool sessions (Some 0), Startup.Returned None)
    /\ List.length sessions = Z.to_nat shards
    /\ forall i, i < Z.to_nat shards ->
         exists fresh,
           New (S i) = inl fresh
           /\ nth_error sessions i
              = Some (Some (Startup.Shard.mk shards (Z.of_nat i)
                              (Startup.Shard.Handlers fresh
                               ++ [Startup.HandleCreate; Startup.HandleUpdate;
                                   Startup.HandleDelete])%list
                              false (S (Startup.Shard.OpenCalls fresh)))).
Proof.
  intros Hg Hpos Hnew. unfold Startup.Open.
  destruct (Hnew 0) as [g0 ->]; [lia|]. rewrite Hg.
  assert (Hneg : (shards <? 0)%Z = false) by lia. rewrite Hneg.
  set (n := Z.to_nat shards).
  destruct (construct_completes New shards n 0 (repeat None n))
    as (built & Hrun & Hlen & _ & Hset).
  - now rewrite repeat_length.
  - intros j Hj. apply Hnew. unfold n in Hj. lia.
  - rewrite Hrun. simpl in Hlen.
    destruct (openAll_completes built) as (opened & Hopen & Hlen' & Hnth).
    + intros j Hj. destruct (Hset j) as (fresh & _ & E); [lia|]. eauto.
    + destruct built as [|b0 rest]; [simpl in Hlen; unfold n in Hlen; lia|].
      rewrite Hopen. exists opened. split; [reflexivity|]. split; [lia|].
      intros i Hi. destruct (Hset i) as (fresh & Hfresh & E); [unfold n in *; lia|].
      exists fresh. split; [exact Hfresh|]. exact (Hnth _ _ E).
Qed.

(** [Open] stops at the first failure and returns its error, and no
    session is opened in that case.  When the first construction or the
    shard-count request fails, the client is as before.  When the
    construction of shard [k] fails, the shard list has been replaced
    all the same: it has the recommended length, holds the sessions built
    before [k], configured and not opened, and nil from [k] on. *)
Theorem Open_fails_fast :
  (forall e, New 0 = inr e ->
             Startup.Open New GatewayBot d = (d, Startup.Returned (Some e)))
  /\ (forall g shards e,
      New 0 = inl g -> GatewayBot = (shards, Some e) ->
      Startup.Open New GatewayBot d = (d, Startup.Returned (Some e)))
  /\ (forall g shards k e,
      New 0 = inl g -> GatewayBot = (shards, None) ->
      k < Z.to_nat shards ->
      (forall j, j < k -> exists s, New (S j) = inl s) ->
      New (S k) = inr e ->
      exists sessions,
        Startup.Open New GatewayBot d
        = (Startup.mkPool sessions (Startup.Session d), Startup.Returned (Some e))
        /\ List.length sessions = Z.to_nat shards
        /\ (forall j, j < k ->
              exists fresh,
                New (S j) = inl fresh
                /\ nth_error sessions j
                   = Some (Some (Startup.configure shards j fresh)))
        /\ (forall j, k <= j < Z.to_nat shards -> nth_error sessions j = Some None)).
Proof.
  unfold Startup.Open. repeat split.
  - intros e ->. reflexivity.
  - intros g shards e -> ->. reflexivity.
  - intros g shards k e -> -> Hk Hnew Hfail.
    assert (Hneg : (shards <? 0)%Z = false) by lia. rewrite Hneg.
    set (n := Z.to_nat shards) in *.
    destruct (construct_stops New shards n 0 (repeat None n) k e)
      as (built & Hrun & Hlen & Hkeep & Hset); try assumption.
    + now rewrite repeat_length.
    + lia.
    + intros j Hj. apply Hnew. lia.
    + rewrite Hrun. exists built. repeat split.
      * exact Hlen.
      * intros j Hj. apply Hset. lia.
      * intros j Hj. rewrite Hkeep by lia.
        apply nth_error_repeat. lia.
Qed.

(** When the gateway recommends no shard, or a negative number of them,
    [Open] does not return: it panics, on the first element of the empty
    shard list or on its allocation, and [Session] is not set. *)
Theorem Open_panics_without_shards (g : Startup.Shard.t) (shards : Z) :
  New 0 = inl g ->
  GatewayBot = (shards, None) ->
  (shards <= 0)%Z ->
  snd (Startup.Open New GatewayBot d) = Startup.Panicked
  /\ Startup.Session (fst (Startup.Open New GatewayBot d)) = Startup.Session d.
Proof.
  intros Hg Hs Hle. unfold Startup.Open. rewrite Hg, Hs.
  destruct (Z.ltb_spec shards 0) as [Hlt|Hge]; [split; reflexivity|].
  replace shards with 0%Z by lia. split; reflexivity.
Qed.

End OpenProperties.

Lemma Open_builds_the_shards_witness :
  Startup.Open (fun _ => inl (Startup.Shard.mk 1 0 [] true 0)) (2%Z, None)
    (Startup.mkPool [] None)
  = (Startup.mkPool
       [Some (Startup.Shard.mk 2 0
                [Startup.HandleCreate; Startup.HandleUpdate; Startup.HandleDelete]
                false 1);
        Some (Startup.Shard.mk 2 1
                [Startup.HandleCreate; Startup.HandleUpdate; Startup.HandleDelete]
                false 1)]
       (Some 0),
     Startup.Returned None).
Proof.
  destruct (Open_builds_the_shards (fun _ => inl (Startup.Shard.mk 1 0 [] true 0))
              (2%Z, None) (Startup.mkPool [] None) 2%Z eq_refl)
    as (sessions & Hrun & _).
  - lia.
  - intros k _. eexists. reflexivity.
  - reflexivity.
Defined.

Lemma Open_fails_fast_witness :
  let New := fun k => if Nat.eqb k 2
                      then inr (ErrTransport "401 Unauthorized")
                      else inl (Startup.Shard.mk 1 0 [] true 0) in
  Startup.Open New (3%Z, None) (Startup.mkPool [] None)
  = (Startup.mkPool
       [Some (Startup.Shard.mk 3 0
                [Startup.HandleCreate; Startup.HandleUpdate; Startup.HandleDelete]
                false 0);
        None; None]
       None,
     Startup.Returned (Some (ErrTransport "401 Unauthorized"))).
Proof.
  intros New.
  destruct (Open_fails_fast New (3%Z, None) (Startup.mkPool [] None)) as (_ & _ & H).
  destruct (H (Startup.Shard.mk 1 0 [] true 0) 3%Z 1
              (ErrTransport "401 Unauthorized") eq_refl eq_refl)
    as (sessions & Hrun & _).
  - simpl. lia.
  - intros j Hj. exists (Startup.Shard.mk 1 0 [] true 0).
    destruct j as [|j]; [reflexivity | lia].
  - reflexivity.
  - reflexivity.
Defined.

Lemma Open_panics_without_shards_witness :
  snd (Startup.Open (fun _ => inl (Startup.Shard.mk 1 0 [] true 0)) (0%Z, None)
         (Startup.mkPool [] None)) = Startup.Panicked
  /\ Startup.Session
       (fst (Startup.Open (fun _ => inl (Startup.Shard.mk 1 0 [] true 0)) (0%Z, None)
               (Startup.mkPool [] None))) = None.
Proof.
  apply (Open_panics_without_shards (fun _ => inl (Startup.Shard.mk 1 0 [] true 0))
           (0%Z, None) (Startup.mkPool [] None) (Startup.Shard.mk 1 0 [] true 0) 0%Z
           eq_refl eq_refl).
  lia.
Defined.

(** ** The cached history of a channel *)

Section HistoryLoop.

Variable cached : list discordgo.Message.t.

Lemma MessageHistory_loop_completes (k : nat) :
  forall i messages,
    List.length messages = List.length cached ->
    i + k = List.length cached ->
    exists messages',
      Facade.MessageHistory_loop k i cached messages = Some messages'
      /\ List.length messages' = List.length cached
      /\ (forall j, j < i -> nth_error messages' j = nth_error messages j)
      /\ (forall j m, i <= j -> nth_error cached j = Some m ->
            nth_error messages' j
            = Some (Some (DiscordMessage.mk m MessageTypeCreate None None))).
Proof.
  induction k as [|k IH]; intros i messages Hlen Hik; simpl.
  - exists messages. repeat split; auto.
    intros j m Hj Hm.
    assert (j < List.length cached) by (apply nth_error_Some; congruence). lia.
  - destruct (nth_error cached i) as [m|] eqn:Hm;
      [|apply nth_error_None in Hm; lia].
    destruct (setAt_some messages i
                (Some (DiscordMessage.mk m MessageTypeCreate None None)))
      as (m1 & -> & Hlen1 & Hnth1 & Hother1); [lia|].
    destruct (IH (S i) m1) as (m2 & -> & Hlen2 & Hkeep2 & Hset2); [lia | lia |].
    exists m2. repeat split.
    + exact Hlen2.
    + intros j Hj. rewrite Hkeep2 by lia. apply Hother1. lia.
    + intros j x Hj Hx. destruct (Nat.eq_dec j i) as [->|Hne].
      * rewrite Hkeep2 by lia. congruence.
      * apply Hset2; [lia | exact Hx].
Qed.

End HistoryLoop.

(** [MessageHistory] returns nothing when the channel lookup fails, and
    otherwise one envelope for every message that the channel caches, in
    the order of the cache, tagged as a creation and with both caches
    unset.  Nothing is filtered: messages of bots and messages without
    content, which the creation handler drops, are returned as well. *)
Theorem MessageHistory_wraps_every_message
    (Messages : discordgo.Channel.t -> list discordgo.Message.t)
    (d : Discord.t) (channel : string) :
  (forall x e,
      Discord.Channel d channel = (x, Some e) ->
      Facade.MessageHistory Messages d channel = Some [])
  /\ (forall c,
      Discord.Channel d channel = (Some c, None) ->
      Facade.MessageHistory Messages d channel
      = Some (map (fun m => Some (DiscordMessage.mk m MessageTypeCreate None None))
                (Messages c))).
Proof.
  unfold Facade.MessageHistory. split.
  - intros x e ->. now destruct x.
  - intros c ->.
    destruct (MessageHistory_loop_completes (Messages c) (List.length (Messages c)) 0
                (repeat None (List.length (Messages c))))
      as (out & -> & Hlen & _ & Hset); [now rewrite repeat_length | reflexivity |].
    f_equal. apply nth_error_ext. intros j. rewrite nth_error_map.
    destruct (nth_error (Messages c) j) as [m|] eqn:Hm; simpl.
    + apply Hset; [lia | exact Hm].
    + apply nth_error_None. apply nth_error_None in Hm. lia.
Qed.

Lemma MessageHistory_wraps_every_message_witness :
  Facade.MessageHistory (fun _ => [Sample.automated; Sample.blank; Sample.hello])
    Sample.dA "c1"
  = Some [Some (Sample.envelope Sample.automated); Some (Sample.envelope Sample.blank);
          Some (Sample.envelope Sample.hello)]
  /\ Facade.MessageHistory (fun _ => [Sample.hello]) Sample.dA "zz" = Some [].
Proof.
  split.
  - destruct (MessageHistory_wraps_every_message
                (fun _ => [Sample.automated; Sample.blank; Sample.hello])
                Sample.dA "c1") as [_ H].
    exact (H Sample.chat eq_refl).
  - destruct (MessageHistory_wraps_every_message (fun _ => [Sample.hello])
                Sample.dA "zz") as [H _].
    exact (H None ErrStateNotFound eq_refl).
Defined.

(** ** The statistics plugin *)

Lemma append_cancel_l (p x y : string) : p ++ x = p ++ y -> x = y.
Proof. induction p as [|c p IH]; simpl; intros H; [exact H | inversion H; auto]. Qed.

Lemma append_cancel_r (s : string) : forall x y, x ++ s = y ++ s -> x = y.
Proof.
  induction x as [|c x IH]; intros y H.
  - apply (f_equal String.length) in H. rewrite !length_append in H.
    destruct y; [reflexivity | simpl in H; lia].
  - destruct y as [|c' y].
    + apply (f_equal String.length) in H. rewrite !length_append in H.
      simpl in H. lia.
    + simpl in H. inversion H; subst c'. f_equal. now apply IH.
Qed.

Lemma decimal_injective (a b : Z) :
  planetsidetwoplugin.decimal a = planetsidetwoplugin.decimal b -> a = b.
Proof.
  unfold planetsidetwoplugin.decimal. intros H.
  apply DecimalZ.to_int_inj.
  assert (E : NilEmpty.int_of_string (NilEmpty.string_of_int (Z.to_int a))
              = NilEmpty.int_of_string (NilEmpty.string_of_int (Z.to_int b)))
    by now rewrite H.
  rewrite !NilEmpty.isi in E. now inversion E.
Qed.

(** Different image ids have different image addresses. *)
Theorem createCensusImageURI_injective (a b : Z) :
  a <> b ->
  planetsidetwoplugin.createCensusImageURI a <> planetsidetwoplugin.createCensusImageURI b.
Proof.
  intros Hab H. apply Hab. unfold planetsidetwoplugin.createCensusImageURI in H.
  apply append_cancel_l, append_cancel_r in H. now apply decimal_injective.
Qed.

Lemma createCensusImageURI_injective_witness :
  planetsidetwoplugin.createCensusImageURI 7 = "http://census.daybreakgames.com/files/ps2/images/static/7.png"
  /\ planetsidetwoplugin.createCensusImageURI 7 <> planetsidetwoplugin.createCensusImageURI (-7).
Proof.
  split; [reflexivity|].
  apply (createCensusImageURI_injective 7 (-7)). discriminate.
Defined.

(** [insertSlice] with an index from [0] to the length of the slice gives
    a slice that is longer by one and holds the value at the index, what
    stood before the index in place and what stood from the index on one
    place further; with any other index it panics. *)
Theorem insertSlice_inserts {A : Type} (arr : list A) (value : A) (index : Z) :
  ((0 <= index <= Z.of_nat (List.length arr))%Z ->
   exists out,
     planetsidetwoplugin.insertSlice arr value index = Some out
     /\ List.length out = S (List.length arr)
     /\ nth_error out (Z.to_nat index) = Some value
     /\ (forall j, j < Z.to_nat index -> nth_error out j = nth_error arr j)
     /\ (forall j, Z.to_nat index <= j -> nth_error out (S j) = nth_error arr j))
  /\ ((index < 0 \/ Z.of_nat (List.length arr) < index)%Z ->
      planetsidetwoplugin.insertSlice arr value index = None).
Proof.
  unfold planetsidetwoplugin.insertSlice. split.
  - intros Hi.
    assert (Hok : ((index <? 0) || (Z.of_nat (List.length arr) <? index))%Z = false)
      by (apply orb_false_iff; split; lia).
    rewrite Hok. set (i := Z.to_nat index).
    assert (Hil : i <= List.length arr) by (unfold i; lia).
    assert (Hfirst : List.length (firstn i arr) = i) by (rewrite length_firstn; lia).
    eexists. split; [reflexivity|]. repeat split.
    + rewrite length_app, Hfirst. simpl. rewrite length_skipn. lia.
    + rewrite nth_error_app2 by lia. rewrite Hfirst, Nat.sub_diag. reflexivity.
    + intros j Hj. rewrite nth_error_app1 by lia. rewrite nth_error_firstn.
      apply Nat.ltb_lt in Hj. now rewrite Hj.
    + intros j Hj. rewrite nth_error_app2 by lia. rewrite Hfirst.
      replace (S j - i) with (S (j - i)) by lia. simpl.
      rewrite nth_error_skipn. f_equal. lia.
  - intros Hi.
    assert (Hbad : ((index <? 0) || (Z.of_nat (List.length arr) <? index))%Z = true)
      by (apply orb_true_iff; lia).
    now rewrite Hbad.
Qed.

Lemma insertSlice_inserts_witness :
  planetsidetwoplugin.insertSlice ["Last Seen"; "Server"; "Battle Rank"] "Outfit" 2
  = Some ["Last Seen"; "Server"; "Outfit"; "Battle Rank"]
  /\ planetsidetwoplugin.insertSlice ["Last Seen"] "Outfit" 2 = None.
Proof.
  split.
  - destruct (insertSlice_inserts ["Last Seen"; "Server"; "Battle Rank"] "Outfit" 2)
      as [H _].
    destruct H as (out & Hout & _); [simpl; lia|]. rewrite Hout.
    vm_compute in Hout. now inversion Hout.
  - destruct (insertSlice_inserts ["Last Seen"] "Outfit" 2) as [_ H].
    apply H. right. simpl. lia.
Defined.

Section PluginRuns.

Variable voidwellApiGet : string -> string * option error.
Variables characterEmbed weaponEmbed outfitEmbed : string -> discordgo.MessageEmbed.t.

(** A run of any command overwrites the entry "platform" of the argument
    map with one of three fixed names and leaves the other entries as
    they are; the address requested does not depend on a platform that
    the caller passes in. *)
Theorem commands_set_the_platform (c : planetsidetwoplugin.Callback)
    (client : Discord.t) (message : DiscordMessage.t)
    (args : planetsidetwoplugin.Args) (trigger : string) :
  let after := planetsidetwoplugin.argsAfter (planetsidetwoplugin.run voidwellApiGet characterEmbed weaponEmbed outfitEmbed
       c client message args trigger) in
  (after "platform" = Some "ps4us" \/ after "platform" = Some "ps4eu"
   \/ after "platform" = Some "pc")
  /\ (forall key, key <> "platform" -> after key = args key)
  /\ (forall v,
        planetsidetwoplugin.requested
          (planetsidetwoplugin.run voidwellApiGet characterEmbed weaponEmbed outfitEmbed
             c client message (planetsidetwoplugin.set args "platform" v) trigger)
        = planetsidetwoplugin.requested (planetsidetwoplugin.run voidwellApiGet characterEmbed weaponEmbed outfitEmbed
       c client message args trigger)).
Proof.
  assert (Hset : forall (a : planetsidetwoplugin.Args) p key,
             key <> "platform" ->
             planetsidetwoplugin.set a "platform" p key = a key).
  { intros a p key Hk. unfold planetsidetwoplugin.set.
    apply String.eqb_neq in Hk. now rewrite Hk. }
  destruct c; simpl;
    (destruct (trigger =? "ps2c-ps4us"); [|destruct (trigger =? "ps2c-ps4eu")]);
    (split; [cbv; auto | split; [intros key Hk; now apply Hset | intros v; reflexivity]]).
Qed.

(** Every trigger under which the outfit command is registered makes it
    request the platform "pc": the two triggers that its callback tests
    for belong to the character commands. *)
Theorem outfit_command_requests_pc (def : planetsidetwoplugin.CommandDefinition.t)
    (client : Discord.t) (message : DiscordMessage.t)
    (args : planetsidetwoplugin.Args) (trigger : string) :
  In def planetsidetwoplugin.Commands ->
  planetsidetwoplugin.CommandDefinition.Callback def = planetsidetwoplugin.OutfitStats ->
  In trigger (planetsidetwoplugin.CommandDefinition.Triggers def) ->
  planetsidetwoplugin.requested
    (planetsidetwoplugin.run voidwellApiGet characterEmbed weaponEmbed outfitEmbed
       (planetsidetwoplugin.CommandDefinition.Callback def) client message args trigger)
  = "https://voidwell.com/api/ps2/outfit/byalias/"
    ++ planetsidetwoplugin.get args "outfitAlias" ++ "?platform=pc".
Proof.
  intros Hdef Hcb Htrigger. rewrite Hcb.
  destruct Hdef as [<-|[<-|[<-|[]]]]; try discriminate Hcb.
  destruct Htrigger as [<-|[<-|[<-|[]]]]; reflexivity.
Qed.

(** What a command sends: nothing when the message has no channel; else
    one call to the channel of the message, the text of the error when
    the request failed and the embed when it succeeded. *)
Theorem commands_answer_in_the_channel (c : planetsidetwoplugin.Callback)
    (client : Discord.t) (message : DiscordMessage.t)
    (args : planetsidetwoplugin.Args) (trigger : string) (h : list Call) :
  let r := planetsidetwoplugin.run voidwellApiGet characterEmbed weaponEmbed outfitEmbed
             c client message args trigger in
  let channel := DiscordMessage.Channel message in
  let layout := match c with
                | planetsidetwoplugin.CharacterStats => characterEmbed
                | planetsidetwoplugin.CharacterWeaponStats => weaponEmbed
                | planetsidetwoplugin.OutfitStats => outfitEmbed
                end in
  (channel = "" -> planetsidetwoplugin.sends r h = (tt, h))
  /\ (forall resp e,
        channel <> "" ->
        voidwellApiGet (planetsidetwoplugin.requested r) = (resp, Some e) ->
        planetsidetwoplugin.sends r h
        = (tt, (h ++ [ChannelMessageSend channel (planetsidetwoplugin.Error e)])%list))
  /\ (forall resp,
        channel <> "" ->
        voidwellApiGet (planetsidetwoplugin.requested r) = (resp, None) ->
        planetsidetwoplugin.sends r h
        = (tt, (h ++ [ChannelMessageSendEmbed channel (layout resp)])%list)).
Proof.
  intros r channel layout. subst r channel layout.
  assert (Hanswer : forall lay uri,
    (DiscordMessage.Channel message = "" ->
     planetsidetwoplugin.answer voidwellApiGet client message lay uri h = (tt, h))
    /\ (forall resp e,
          DiscordMessage.Channel message <> "" ->
          voidwellApiGet uri = (resp, Some e) ->
          planetsidetwoplugin.answer voidwellApiGet client message lay uri h
          = (tt, (h ++ [ChannelMessageSend (DiscordMessage.Channel message)
                          (planetsidetwoplugin.Error e)])%list))
    /\ (forall resp,
          DiscordMessage.Channel message <> "" ->
          voidwellApiGet uri = (resp, None) ->
          planetsidetwoplugin.answer voidwellApiGet client message lay uri h
          = (tt, (h ++ [ChannelMessageSendEmbed (DiscordMessage.Channel message)
                          (lay resp)])%list))).
  { intros lay uri. unfold planetsidetwoplugin.answer. repeat split.
    - intros Hc. destruct (voidwellApiGet uri) as [resp [e|]];
        unfold bind, Discord.SendMessage, Discord.SendEmbedMessage; now rewrite Hc.
    - intros resp e Hc ->. unfold bind. now rewrite SendMessage_sends.
    - intros resp Hc ->. unfold bind, Discord.SendEmbedMessage.
      apply String.eqb_neq in Hc. rewrite Hc.
      unfold bind, Session.call, ret. now destruct (Session.respond _ _ _). }
  destruct c; simpl; apply Hanswer.
Qed.

End PluginRuns.

Lemma commands_set_the_platform_witness :
  let args := planetsidetwoplugin.set
                (planetsidetwoplugin.set (fun _ => None) "characterName" "Higby")
                "platform" "xbox" in
  let r := planetsidetwoplugin.run (fun _ => ("{}", None))
             (fun _ => discordgo.MessageEmbed.mk 460551 "")
             (fun _ => discordgo.MessageEmbed.mk 460551 "")
             (fun _ => discordgo.MessageEmbed.mk 460551 "")
             planetsidetwoplugin.CharacterStats Sample.dA
             (Sample.envelope Sample.hello) args "ps2c-ps4eu" in
  planetsidetwoplugin.argsAfter r "characterName" = Some "Higby"
  /\ planetsidetwoplugin.requested r
     = "https://voidwell.com/api/ps2/character/byname/Higby?platform=ps4eu".
Proof.
  intros args r.
  destruct (commands_set_the_platform (fun _ => ("{}", None))
              (fun _ => discordgo.MessageEmbed.mk 460551 "")
              (fun _ => discordgo.MessageEmbed.mk 460551 "")
              (fun _ => discordgo.MessageEmbed.mk 460551 "")
              planetsidetwoplugin.CharacterStats Sample.dA
              (Sample.envelope Sample.hello) args "ps2c-ps4eu") as (_ & Hkeep & _).
  split.
  - unfold r. rewrite Hkeep; [reflexivity | discriminate].
  - reflexivity.
Defined.

Lemma outfit_command_requests_pc_witness :
  planetsidetwoplugin.requested
    (planetsidetwoplugin.run (fun _ => ("{}", None))
       (fun _ => discordgo.MessageEmbed.mk 460551 "")
       (fun _ => discordgo.MessageEmbed.mk 460551 "")
       (fun _ => discordgo.MessageEmbed.mk 460551 "")
       planetsidetwoplugin.OutfitStats Sample.dA (Sample.envelope Sample.hello)
       (planetsidetwoplugin.set (fun _ => None) "outfitAlias" "TAG") "ps2o-ps4us")
  = "https://voidwell.com/api/ps2/outfit/byalias/TAG?platform=pc".
Proof.
  apply (outfit_command_requests_pc (fun _ => ("{}", None))
           (fun _ => discordgo.MessageEmbed.mk 460551 "")
           (fun _ => discordgo.MessageEmbed.mk 460551 "")
           (fun _ => discordgo.MessageEmbed.mk 460551 "")
           (planetsidetwoplugin.CommandDefinition.mk planetsidetwoplugin.Name "ps2-outfit"
              ["ps2o"; "ps2o-ps4us"; "ps2o-ps4eu"]
              [planetsidetwoplugin.CommandDefinitionArgument.mk "[a-zA-Z0-9]{1,4}"
                 "outfitAlias"]
              "Get outfit stats by outfit tag." planetsidetwoplugin.OutfitStats)
           Sample.dA (Sample.envelope Sample.hello)
           (planetsidetwoplugin.set (fun _ => None) "outfitAlias" "TAG") "ps2o-ps4us").
  - right; right; left; reflexivity.
  - reflexivity.
  - right; left; reflexivity.
Defined.

Lemma commands_answer_in_the_channel_witness :
  let failing := fun _ : string => ("", Some (ErrTransport "502 Bad Gateway")) in
  let embed := fun _ : string => discordgo.MessageEmbed.mk 460551 "" in
  planetsidetwoplugin.sends
    (planetsidetwoplugin.run failing embed embed embed planetsidetwoplugin.OutfitStats
       Sample.dA (Sample.envelope Sample.hello) (fun _ => None) "ps2o") []
  = (tt, [ChannelMessageSend "c1" "502 Bad Gateway"])
  /\ planetsidetwoplugin.sends
       (planetsidetwoplugin.run failing embed embed embed planetsidetwoplugin.OutfitStats
          Sample.dA
          (Sample.envelope (discordgo.Message.mk "m" "" "?ps2o TAG" (Some Sample.alice) []))
          (fun _ => None) "ps2o") []
     = (tt, []).
Proof.
  intros failing embed. split.
  - destruct (commands_answer_in_the_channel failing embed embed embed
                planetsidetwoplugin.OutfitStats Sample.dA (Sample.envelope Sample.hello)
                (fun _ => None) "ps2o" []) as (_ & H & _).
    apply (H "" (ErrTransport "502 Bad Gateway")); [discriminate | reflexivity].
  - destruct (commands_answer_in_the_channel failing embed embed embed
                planetsidetwoplugin.OutfitStats Sample.dA
                (Sample.envelope
                   (discordgo.Message.mk "m" "" "?ps2o TAG" (Some Sample.alice) []))
                (fun _ => None) "ps2o" []) as [H _].
    apply H. reflexivity.
Defined.
